(** * Batch absolution analysis: a shallow embedding of
      [batch_processor.py] and [batch_processor_llm.py].

    The Python code works on duck-typed JSON, catches exceptions at three
    levels and mutates an append-only result list while a caller-supplied
    callback runs.  The embedding keeps all of this visible:

    - text is a list of Unicode code points, JSON is an inductive type and
      every dynamic operation ([.get], [in], subscripting, iteration,
      [.upper()]) returns in an error monad that names the Python exception;
    - the provider and the reasoning service are oracles, and every request
      sent to them is logged, so that "no call was made" is a statement
      about the log;
    - the order in which [as_completed] hands over the finished requests
      is an explicit schedule;
    - the progress callback is a state transformer that may raise. *)

From Stdlib Require Import List Bool Arith NArith ZArith Lia.
From Stdlib Require Import String Ascii DecimalString Permutation Sorted.
From Stdlib Require Import Floats Uint63.
Import ListNotations.

Set Implicit Arguments.
Set Warnings "-register-all".
Local Open Scope list_scope.

(* ------------------------------------------------------------------ *)
(** ** Text *)

(** A Python [str]: a sequence of code points. *)
Definition pystr := list N.

(** ASCII literals; other code points are written by number. *)
Definition u (s : string) : pystr :=
  List.map N_of_ascii (list_ascii_of_string s).

Fixpoint str_eqb (s t : pystr) : bool :=
  match s, t with
  | [], [] => true
  | a :: s', b :: t' => N.eqb a b && str_eqb s' t'
  | _, _ => false
  end.

Fixpoint starts_with (needle hay : pystr) : bool :=
  match needle, hay with
  | [], _ => true
  | a :: n', b :: h' => N.eqb a b && starts_with n' h'
  | _ :: _, [] => false
  end.

(** [needle in hay] on two strings. *)
Fixpoint substr (needle hay : pystr) : bool :=
  starts_with needle hay ||
  match hay with
  | [] => false
  | _ :: h' => substr needle h'
  end.

(** [str.isspace] per code point, the table CPython uses for [str.strip]. *)
Definition is_space (c : N) : bool :=
  ((9 <=? c) && (c <=? 13) || (28 <=? c) && (c <=? 32) ||
   (c =? 133) || (c =? 160) || (c =? 5760) ||
   (8192 <=? c) && (c <=? 8202) || (c =? 8232) || (c =? 8233) ||
   (c =? 8239) || (c =? 8287) || (c =? 12288))%N.

Fixpoint lstrip (s : pystr) : pystr :=
  match s with
  | c :: s' => if is_space c then lstrip s' else s
  | [] => []
  end.

(** [s.strip()] *)
Definition py_strip (s : pystr) : pystr := rev (lstrip (rev (lstrip s))).

(** [sep.join(parts)] *)
Fixpoint py_join (sep : pystr) (parts : list pystr) : pystr :=
  match parts with
  | [] => []
  | [p] => p
  | p :: rest => p ++ sep ++ py_join sep rest
  end.

(* ------------------------------------------------------------------ *)
(** ** Numbers *)

(** A Python number: an [int] of any size or a binary64 [float]. *)
Inductive pynum : Type :=
| PInt (z : Z)
| PFloat (f : float).

(** A [bool] used as a number. *)
Definition Zbool (b : bool) : Z := if b then 1%Z else 0%Z.

(** [z == f] for an [int] and a [float]: Python compares the two exact
    values, and no [int] equals an infinity or NaN. *)
Definition int_eq_float (z : Z) (f : float) : bool :=
  match Prim2SF f with
  | S754_zero _ => Z.eqb z 0
  | S754_finite s m e =>
      let v := if s then Z.neg m else Z.pos m in
      if Z.leb 0 e then Z.eqb z (v * 2 ^ e) else Z.eqb (z * 2 ^ (- e)) v
  | _ => false
  end.

(** [a == b] on two numbers; NaN equals nothing, itself included. *)
Definition num_eqb (a b : pynum) : bool :=
  match a, b with
  | PInt x, PInt y => Z.eqb x y
  | PInt x, PFloat g => int_eq_float x g
  | PFloat f, PInt y => int_eq_float y f
  | PFloat f, PFloat g => PrimFloat.eqb f g
  end.

Definition is_nan (a : pynum) : bool :=
  match a with
  | PFloat f => negb (PrimFloat.eqb f f)
  | PInt _ => false
  end.

(* ------------------------------------------------------------------ *)
(** ** JSON values and Python's dynamic operations on them *)

(** What [response.json()] and [json.loads] return.  A number is an [int]
    of any size or a [float]; the decoder also accepts [NaN], [Infinity]
    and [-Infinity], which are floats.  An object lists each key once, as
    a Python dict does. *)
Inductive json : Type :=
| JNull
| JBool (b : bool)
| JInt (z : Z)
| JFloat (f : float)
| JStr (s : pystr)
| JArr (l : list json)
| JObj (m : list (pystr * json)).

Fixpoint lookup (k : pystr) (m : list (pystr * json)) : option json :=
  match m with
  | [] => None
  | (k', v) :: m' => if str_eqb k k' then Some v else lookup k m'
  end.

(** The exceptions the analysed code can meet on ill-shaped data. *)
Inductive pyexn : Type :=
| AttributeError
| TypeError
| KeyError
| IndexError
| OverflowError.

(** A computation that returns or raises. *)
Definition exc (A : Type) : Type := (pyexn + A)%type.

Definition ret {A} (a : A) : exc A := inr a.
Definition raise {A} (e : pyexn) : exc A := inl e.
Definition bind {A B} (c : exc A) (f : A -> exc B) : exc B :=
  match c with
  | inl e => inl e
  | inr a => f a
  end.

Notation "x <- c ;; k" := (bind c (fun x => k))
  (at level 61, c at next level, right associativity).

(** [bool(v)] *)
Definition truthy (v : json) : bool :=
  match v with
  | JNull => false
  | JBool b => b
  | JInt z => negb (Z.eqb z 0)
  | JFloat f => negb (PrimFloat.eqb f 0)
  | JStr s => match s with [] => false | _ => true end
  | JArr l => match l with [] => false | _ => true end
  | JObj m => match m with [] => false | _ => true end
  end.

(** A value as a number: a [bool] is the [int] 0 or 1. *)
Definition as_number (v : json) : option pynum :=
  match v with
  | JBool b => Some (PInt (Zbool b))
  | JInt z => Some (PInt z)
  | JFloat f => Some (PFloat f)
  | _ => None
  end.

(** [a is b or a == b], the test Python applies to the items of two lists
    and to the values of two dicts.  The decoder hands out one and the same
    float object for every [NaN] it reads, so inside a list or a dict a
    NaN equals a NaN. *)
Fixpoint py_same_or_eq (a b : json) : bool :=
  match a, b with
  | JNull, JNull => true
  | JStr s, JStr t => str_eqb s t
  | JArr xs, JArr ys =>
      (fix go (xs ys : list json) : bool :=
         match xs, ys with
         | [], [] => true
         | x :: xs', y :: ys' => py_same_or_eq x y && go xs' ys'
         | _, _ => false
         end) xs ys
  | JObj m, JObj n =>
      Nat.eqb (List.length m) (List.length n) &&
      (fix go (m : list (pystr * json)) : bool :=
         match m with
         | [] => true
         | (k, v) :: m' =>
             match lookup k n with
             | Some w => py_same_or_eq v w
             | None => false
             end && go m'
         end) m
  | _, _ =>
      match as_number a, as_number b with
      | Some x, Some y => num_eqb x y || (is_nan x && is_nan y)
      | _, _ => false
      end
  end.

(** [a == b]: on two floats the IEEE comparison, under which NaN differs
    from itself; on every other pair of decoded values [==] and
    [is ... or ==] agree. *)
Definition py_eq (a b : json) : bool :=
  match a, b with
  | JFloat f, JFloat g => PrimFloat.eqb f g
  | _, _ => py_same_or_eq a b
  end.

(** [d.get(k, dflt)]: only a dict has [.get]. *)
Definition py_get (d : json) (k : pystr) (dflt : json) : exc json :=
  match d with
  | JObj m => ret (match lookup k m with Some v => v | None => dflt end)
  | _ => raise AttributeError
  end.

(** ["k" in c] for a string literal [k]. *)
Definition py_in (k : pystr) (c : json) : exc bool :=
  match c with
  | JObj m => ret (match lookup k m with Some _ => true | None => false end)
  | JArr l => ret (existsb (py_eq (JStr k)) l)
  | JStr s => ret (substr k s)
  | _ => raise TypeError
  end.

(** [c["k"]] for a string literal [k]. *)
Definition py_item (c : json) (k : pystr) : exc json :=
  match c with
  | JObj m => match lookup k m with Some v => ret v | None => raise KeyError end
  | _ => raise TypeError
  end.

(** [c[0]]; the keys of a JSON object are strings, so [0] is never one. *)
Definition py_first (c : json) : exc json :=
  match c with
  | JArr (x :: _) => ret x
  | JArr [] => raise IndexError
  | JStr (ch :: _) => ret (JStr [ch])
  | JStr [] => raise IndexError
  | JObj _ => raise KeyError
  | _ => raise TypeError
  end.

(** [for x in c]: the values the loop variable takes. *)
Definition py_iter (c : json) : exc (list json) :=
  match c with
  | JArr l => ret l
  | JStr s => ret (List.map (fun ch => JStr [ch]) s)
  | JObj m => ret (List.map (fun kv => JStr (fst kv)) m)
  | _ => raise TypeError
  end.

(** A string method called on a value: only a [str] has it. *)
Definition as_str (v : json) : exc pystr :=
  match v with
  | JStr s => ret s
  | _ => raise AttributeError
  end.

(** [a or b] *)
Definition py_or (a b : json) : json := if truthy a then a else b.

(** The parts of Python the code relies on and that are left open: the
    case mappings behind [str.upper] and [str.lower], the class [\d] of
    the regular-expression engine, [str(v)] of a value that is not a
    string (inside an f-string), and [str(e)] of a built-in exception
    (one text per exception class). *)
Class PyBuiltins : Type := {
  py_upper : pystr -> pystr;
  py_lower : pystr -> pystr;
  is_decimal : N -> bool;
  py_repr : json -> pystr;
  exn_str : pyexn -> pystr
}.

(** [f"{v}"] *)
Definition py_str `{PyBuiltins} (v : json) : pystr :=
  match v with
  | JStr s => s
  | _ => py_repr v
  end.

(* ------------------------------------------------------------------ *)
(** ** Literals of the source *)

Module Lit.
Definition Result := u "Result".
Definition BasicData := u "BasicData".
Definition Name := u "Name".
Definition Processes := u "Processes".
Definition Lawsuits := u "Lawsuits".
Definition CourtType := u "CourtType".
Definition CRIMINAL := u "CRIMINAL".
Definition Parties := u "Parties".
Definition Type_ := u "Type".
Definition PartyDetails := u "PartyDetails".
Definition SpecificType := u "SpecificType".
Definition DEFENDANT := u "DEFENDANT".
(** "RÉU" *)
Definition REU : pystr := [82; 201; 85]%N.
Definition CaseNumber := u "CaseNumber".
Definition Number := u "Number".
Definition Decision := u "Decision".
Definition Content := u "Content".
Definition Description := u "Description".
Definition Summary := u "Summary".
Definition Decisions := u "Decisions".
Definition DecisionContent := u "DecisionContent".
Definition DecisionDate := u "DecisionDate".
Definition CloseDate := u "CloseDate".
Definition LastMovementDate := u "LastMovementDate".
Definition CourtName := u "CourtName".
Definition CourtDistrict := u "CourtDistrict".
Definition cpf := u "cpf".
Definition error := u "error".
Definition nome := u "nome".
(** "CPF inválido" *)
Definition CPF_invalido : pystr := u "CPF inv" ++ [225%N] ++ u "lido".
(** "Nome não informado" *)
Definition Nome_nao_informado : pystr :=
  u "Nome n" ++ [227%N] ++ u "o informado".
(** "Não encontrado" *)
Definition Nao_encontrado : pystr := u "N" ++ [227%N] ++ u "o encontrado".
Definition Erro_no_processamento := u "Erro no processamento".
Definition Erro_na_consulta := u "Erro na consulta".
Definition foi_absolvido := u "foi_absolvido".
Definition confianca_analise := u "confianca_analise".
Definition justificativa := u "justificativa".
Definition detalhes_ia := u "detalhes_ia".
End Lit.

(** [palavras_absolvicao], in the order of the source. *)
Definition palavras_absolvicao : list pystr :=
  [ u "absolv"; u "improcedent"; u "arquiv";
    u "extin" ++ [231%N];
    u "n" ++ [227%N] ++ u "o procede"; u "nao procede";
    u "julgo improcedente"; u "absolvo";
    u "n" ++ [227%N] ++ u "o h" ++ [225%N] ++ u " elementos";
    u "nao ha elementos";
    u "aus" ++ [234%N] ++ u "ncia de provas"; u "ausencia de provas";
    u "insufici" ++ [234%N] ++ u "ncia de provas";
    u "insuficiencia de provas" ].

(* ------------------------------------------------------------------ *)
(** ** Results of the keyword classifier *)

(** The five values [_classify_absolution_type] returns. *)
Inductive tipo : Type :=
| Absolvicao
| Improcedencia
| Arquivamento
| Extincao
| Outra_forma.

(** One entry of [detalhes_absolvicoes]. *)
Record Finding : Type := {
  processo : json;
  tipo_decisao : tipo;
  data : json;
  orgao : json;
  comarca : json;
  trecho_decisao : pystr
}.

(** What [str(exc)] is taken from: a built-in exception raised by the
    code itself, or an exception with its own message. *)
Inductive exn_text : Type :=
| Builtin (e : pyexn)
| Message (m : pystr).

(** The status strings: ["sucesso"], ["dados_nao_encontrados"],
    [f"erro: {e}"], [f"erro_api: {detail}"], [f"excecao: {exc}"]. *)
Inductive status_tag : Type :=
| sucesso
| dados_nao_encontrados
| erro (e : pyexn)
| erro_api (detail : json)
| excecao (e : exn_text).

(** The dict the keyword classifier and its batch return per identifier. *)
Record Result : Type := {
  cpf : pystr;
  nome : json;
  foi_absolvido : option bool;
  total_processos_criminais : nat;
  total_absolvicoes : nat;
  detalhes_absolvicoes : list Finding;
  status : status_tag
}.

Section Keyword.
Context `{PyBuiltins}.

(** [_classify_absolution_type] *)
Definition _classify_absolution_type (texto : pystr) : tipo :=
  let texto_lower := py_lower texto in
  if existsb (fun w => substr w texto_lower) [u "absolv"] then Absolvicao
  else if existsb (fun w => substr w texto_lower)
            [u "improcedent"; u "n" ++ [227%N] ++ u "o procede";
             u "nao procede"] then Improcedencia
  else if existsb (fun w => substr w texto_lower) [u "arquiv"]
  then Arquivamento
  else if existsb (fun w => substr w texto_lower) [u "extin" ++ [231%N]]
  then Extincao
  else Outra_forma.

(** One turn of the loop over [partes]: does this party make the person
    a defendant?  The name of the person is only looked at once the role
    matches ([and] is lazy). *)
Definition parte_is_reu (nome : json) (parte : json) : exc bool :=
  t <- py_get parte Lit.Type_ (JStr []) ;;
  papel0 <- as_str t ;;
  let papel := py_upper papel0 in
  n <- py_get parte Lit.Name (JStr []) ;;
  n0 <- as_str n ;;
  let nome_parte := py_upper (py_strip n0) in
  d <- py_get parte Lit.PartyDetails (JObj []) ;;
  e <- py_get d Lit.SpecificType (JStr []) ;;
  e0 <- as_str e ;;
  let espec := py_upper e0 in
  if str_eqb papel Lit.DEFENDANT || str_eqb papel Lit.REU
     || str_eqb espec Lit.REU
  then
    nm <- as_str nome ;;
    ret (substr (py_upper (py_strip nm)) nome_parte)
  else ret false.

(** The loop over [partes], with its [break] at the first match. *)
Fixpoint is_reu (nome : json) (partes : list json) : exc bool :=
  match partes with
  | [] => ret false
  | parte :: rest =>
      b <- parte_is_reu nome parte ;;
      if b then ret true else is_reu nome rest
  end.

(** The body of [for proc in lawsuits] up to [if is_reu]: is this
    lawsuit one of [processos_criminais]? *)
Definition proc_is_reu (nome : json) (proc : json) : exc bool :=
  ct <- py_get proc Lit.CourtType JNull ;;
  if py_eq ct (JStr Lit.CRIMINAL) then
    partes <- py_get proc Lit.Parties (JArr []) ;;
    ps <- py_iter partes ;;
    is_reu nome ps
  else ret false.

(** [processos_criminais] after the first loop. *)
Fixpoint filter_reu (nome : json) (lawsuits : list json)
  : exc (list json) :=
  match lawsuits with
  | [] => ret []
  | proc :: rest =>
      b <- proc_is_reu nome proc ;;
      tl <- filter_reu nome rest ;;
      ret (if b then proc :: tl else tl)
  end.

(** [campo[:200] + "..." if len(campo) > 200 else campo] *)
Definition trecho (campo : pystr) : pystr :=
  if Nat.ltb 200 (List.length campo)
  then firstn 200 campo ++ u "..."
  else campo.

(** [absolvicoes and absolvicoes[-1]["processo"] == numero_processo] *)
Definition last_is (absolvicoes : list Finding) (numero : json) : bool :=
  match rev absolvicoes with
  | [] => false
  | f :: _ => py_eq (processo f) numero
  end.

(** [any(palavra in texto_lower for palavra in palavras_absolvicao)]:
    the inner loop appends at the first keyword found and breaks. *)
Definition has_keyword (campo : pystr) : bool :=
  existsb (fun palavra => substr palavra (py_lower campo))
          palavras_absolvicao.

(** The dict appended to [absolvicoes]. *)
Definition new_finding (proc numero : json) (campo : pystr)
  : exc Finding :=
  cd <- py_get proc Lit.CloseDate JNull ;;
  lm <- py_get proc Lit.LastMovementDate JNull ;;
  og <- py_get proc Lit.CourtName JNull ;;
  cm <- py_get proc Lit.CourtDistrict JNull ;;
  ret {| processo := numero;
         tipo_decisao := _classify_absolution_type campo;
         data := py_or cd lm;
         orgao := og;
         comarca := cm;
         trecho_decisao := trecho campo |}.

(** [for campo in campos_decisao], with its [break]. *)
Fixpoint scan_campos (proc numero : json) (campos : list json)
         (absolvicoes : list Finding) : exc (list Finding) :=
  match campos with
  | [] => ret absolvicoes
  | JStr campo :: rest =>
      if truthy (JStr (py_strip campo)) then
        absolvicoes' <-
          (if has_keyword campo then
             f <- new_finding proc numero campo ;;
             ret (absolvicoes ++ [f])
           else ret absolvicoes) ;;
        if last_is absolvicoes' numero then ret absolvicoes'
        else scan_campos proc numero rest absolvicoes'
      else scan_campos proc numero rest absolvicoes
  | _ :: rest => scan_campos proc numero rest absolvicoes
  end.

Fixpoint map_exc {A B} (f : A -> exc B) (l : list A) : exc (list B) :=
  match l with
  | [] => ret []
  | a :: l' => b <- f a ;; bs <- map_exc f l' ;; ret (b :: bs)
  end.

(** [numero_processo] *)
Definition numero_processo (proc : json) : exc json :=
  a <- py_get proc Lit.CaseNumber JNull ;;
  b <- py_get proc Lit.Number (JStr []) ;;
  ret (py_or a b).

(** [campos_decisao], once the loop over [decisoes] has extended it. *)
Definition campos_decisao (proc : json) : exc (list json) :=
  d1 <- py_get proc Lit.Decision (JStr []) ;;
  d2 <- py_get proc Lit.Content (JStr []) ;;
  d3 <- py_get proc Lit.Description (JStr []) ;;
  d4 <- py_get proc Lit.Summary (JStr []) ;;
  decisoes <- py_get proc Lit.Decisions (JArr []) ;;
  ds <- py_iter decisoes ;;
  extra <- map_exc (fun decisao =>
                      py_get decisao Lit.DecisionContent (JStr [])) ds ;;
  ret ([d1; d2; d3; d4] ++ extra).

(** One turn of [for proc in processos_criminais]. *)
Definition scan_proc (proc : json) (absolvicoes : list Finding)
  : exc (list Finding) :=
  numero <- numero_processo proc ;;
  campos <- campos_decisao proc ;;
  scan_campos proc numero campos absolvicoes.

(** [for proc in processos_criminais] *)
Fixpoint scan_procs (procs : list json) (absolvicoes : list Finding)
  : exc (list Finding) :=
  match procs with
  | [] => ret absolvicoes
  | proc :: rest =>
      absolvicoes' <- scan_proc proc absolvicoes ;;
      scan_procs rest absolvicoes'
  end.

(** ["Result" not in bdc_data or not bdc_data["Result"]] *)
Definition no_result (bdc_data : json) : exc bool :=
  present <- py_in Lit.Result bdc_data ;;
  if negb present then ret true
  else r <- py_item bdc_data Lit.Result ;; ret (negb (truthy r)).

(** The lines both classifiers share: the person's name and lawsuits. *)
Definition pessoa_nome_lawsuits (bdc_data : json)
  : exc (json * list json) :=
  r <- py_item bdc_data Lit.Result ;;
  pessoa <- py_first r ;;
  basic <- py_get pessoa Lit.BasicData (JObj []) ;;
  nome <- py_get basic Lit.Name (JStr Lit.Nome_nao_informado) ;;
  processos <- py_get pessoa Lit.Processes (JObj []) ;;
  lawsuits <- py_get processos Lit.Lawsuits (JArr []) ;;
  ls <- py_iter lawsuits ;;
  ret (nome, ls).

(** The [try] block of [analyze_absolution]. *)
Definition analyze_absolution_try (bdc_data : json) (cpf : pystr)
  : exc Result :=
  nr <- no_result bdc_data ;;
  if nr then
    ret {| cpf := cpf;
           nome := JStr Lit.Nao_encontrado;
           foi_absolvido := None;
           total_processos_criminais := 0;
           total_absolvicoes := 0;
           detalhes_absolvicoes := [];
           status := dados_nao_encontrados |}
  else
    nl <- pessoa_nome_lawsuits bdc_data ;;
    let (nome, lawsuits) := nl in
    processos_criminais <- filter_reu nome lawsuits ;;
    let total_processos := List.length processos_criminais in
    absolvicoes <- scan_procs processos_criminais [] ;;
    let total_absolvicoes := List.length absolvicoes in
    ret {| cpf := cpf;
           nome := nome;
           foi_absolvido := Some (Nat.ltb 0 total_absolvicoes);
           total_processos_criminais := total_processos;
           total_absolvicoes := total_absolvicoes;
           detalhes_absolvicoes := absolvicoes;
           status := sucesso |}.

(** [analyze_absolution]: the [try] block and its [except Exception]. *)
Definition analyze_absolution (bdc_data : json) (cpf : pystr) : Result :=
  match analyze_absolution_try bdc_data cpf with
  | inr r => r
  | inl e =>
      {| cpf := cpf;
         nome := JStr Lit.Erro_no_processamento;
         foi_absolvido := None;
         total_processos_criminais := 0;
         total_absolvicoes := 0;
         detalhes_absolvicoes := [];
         status := erro e |}
  end.
End Keyword.

(* ------------------------------------------------------------------ *)
(** ** The contextual classifier ([batch_processor_llm.py]) *)

Module LLM.

(** The dict the contextual classifier and its batch return. *)
Record Result : Type := {
  cpf : pystr;
  nome : json;
  foi_absolvido : json;
  confianca_analise : json;
  justificativa : json;
  detalhes_ia : json;
  total_processos_criminais : nat;
  status : status_tag
}.

(** What varies in the prompt sent to the reasoning service. *)
Record request : Type := {
  req_nome : pystr;
  req_cpf : pystr;
  req_decisoes : pystr
}.

(** What a call to the service can end in: the request raises, the body
    of the answer is not JSON ([json.loads] raises), or it parses. *)
Inductive reply : Type :=
| CallFails (detail : pystr)
| BodyUnparseable (detail : pystr)
| BodyJson (j : json).

(** The service answers a request knowing the requests sent before. *)
Definition service : Type := list request -> request -> reply.

(** "Não informado" *)
Definition Nao_informado : pystr := u "N" ++ [227%N] ++ u "o informado".
(** "Nenhuma decisão disponível para análise" *)
Definition Nenhuma_decisao : pystr :=
  u "Nenhuma decis" ++ [227%N] ++ u "o dispon" ++ [237%N]
    ++ u "vel para an" ++ [225%N] ++ u "lise".
Definition Sem_dados_suficientes := u "Sem dados suficientes".
(** "Erro na análise IA: " *)
Definition Erro_na_analise_IA : pystr :=
  u "Erro na an" ++ [225%N] ++ u "lise IA: ".
Definition Falha_no_processamento := u "Falha no processamento".
(** "Dados não encontrados na base" *)
Definition Dados_nao_encontrados : pystr :=
  u "Dados n" ++ [227%N] ++ u "o encontrados na base".
(** "CPF não localizado" *)
Definition CPF_nao_localizado : pystr :=
  u "CPF n" ++ [227%N] ++ u "o localizado".
Definition Erro_durante_processamento := u "Erro durante processamento: ".
(** "Falha na análise" *)
Definition Falha_na_analise : pystr := u "Falha na an" ++ [225%N] ++ u "lise".
Definition Erro_na_API := u "Erro na API: ".
Definition Falha_na_consulta := u "Falha na consulta de dados".
(** "Exceção durante processamento: " *)
Definition Excecao_durante : pystr :=
  u "Exce" ++ [231; 227]%N ++ u "o durante processamento: ".

Definition ia_dict (f c j d : json) : json :=
  JObj [ (Lit.foi_absolvido, f); (Lit.confianca_analise, c);
         (Lit.justificativa, j); (Lit.detalhes_ia, d) ].

Section Classifier.
Context `{PyBuiltins}.
Variable llm : service.

(** The dict of the [except] branch of [analyze_with_llm]. *)
Definition ia_failure (detail : pystr) : json :=
  ia_dict JNull (JInt 0) (JStr (Erro_na_analise_IA ++ detail))
          (JStr Falha_no_processamento).

(** The holes of the f-string prompt. *)
Definition build_request (texto_decisoes : pystr) (dados_pessoa : json)
  : exc request :=
  n <- py_get dados_pessoa Lit.nome (JStr Nao_informado) ;;
  c <- py_get dados_pessoa Lit.cpf (JStr Nao_informado) ;;
  ret {| req_nome := py_str n; req_cpf := py_str c;
         req_decisoes := texto_decisoes |}.

(** [analyze_with_llm]: the answer and the requests sent so far. *)
Definition analyze_with_llm (log : list request)
           (texto_decisoes : pystr) (dados_pessoa : json)
  : json * list request :=
  if negb (truthy (JStr (py_strip texto_decisoes))) then
    (ia_dict JNull (JInt 0) (JStr Nenhuma_decisao)
             (JStr Sem_dados_suficientes), log)
  else
    match build_request texto_decisoes dados_pessoa with
    | inl e => (ia_failure (exn_str e), log)
    | inr req =>
        match llm log req with
        | CallFails detail => (ia_failure detail, log ++ [req])
        | BodyUnparseable detail => (ia_failure detail, log ++ [req])
        | BodyJson resultado_ia => (resultado_ia, log ++ [req])
        end
    end.

(** [f"Decisão {i+1} ({data_decisao}): {conteudo_decisao}"] for each
    decision with content; [i] counts from the start of [decisoes]. *)
Fixpoint textos_decisoes (i : nat) (decisoes : list json)
  : exc (list pystr) :=
  match decisoes with
  | [] => ret []
  | decisao :: rest =>
      conteudo <- py_get decisao Lit.DecisionContent (JStr []) ;;
      data_decisao <- py_get decisao Lit.DecisionDate (JStr []) ;;
      tl <- textos_decisoes (S i) rest ;;
      ret (if truthy conteudo then
             (u "Decis" ++ [227%N] ++ u "o "
                ++ u (NilEmpty.string_of_uint (Nat.to_uint (S i)))
                ++ u " (" ++ py_str data_decisao ++ u "): "
                ++ py_str conteudo) :: tl
           else tl)
  end.

(** [textos_processo] of one lawsuit. *)
Definition textos_processo (proc : json) : exc (list pystr) :=
  c <- py_get proc Lit.Content JNull ;;
  d <- py_get proc Lit.Decision JNull ;;
  de <- py_get proc Lit.Description JNull ;;
  decisoes <- py_get proc Lit.Decisions (JArr []) ;;
  ds <- py_iter decisoes ;;
  tds <- textos_decisoes 0 ds ;;
  ret ((if truthy c
        then [u "Conte" ++ [250%N] ++ u "do: " ++ py_str c] else [])
       ++ (if truthy d
           then [u "Decis" ++ [227%N] ++ u "o: " ++ py_str d] else [])
       ++ (if truthy de
           then [u "Descri" ++ [231; 227]%N ++ u "o: " ++ py_str de]
           else [])
       ++ tds).

(** The block appended to [texto_completo_decisoes], if any. *)
Definition bloco_processo (proc : json) : exc (list pystr) :=
  numero <- numero_processo proc ;;
  tribunal <- py_get proc Lit.CourtName (JStr []) ;;
  textos <- textos_processo proc ;;
  ret (match textos with
       | [] => []
       | _ => [[10%N] ++ u "PROCESSO " ++ py_str numero ++ u " - "
                 ++ py_str tribunal ++ u ":" ++ [10%N]
                 ++ py_join [10%N] textos ++ [10%N] ++ u "---"
                 ++ [10%N]]
       end).

(** [for proc in lawsuits]: [processos_criminais] and
    [texto_completo_decisoes]. *)
Fixpoint collect (nome : json) (lawsuits : list json)
  : exc (list json * list pystr) :=
  match lawsuits with
  | [] => ret ([], [])
  | proc :: rest =>
      b <- proc_is_reu nome proc ;;
      if b then
        bl <- bloco_processo proc ;;
        tl <- collect nome rest ;;
        ret (proc :: fst tl, bl ++ snd tl)
      else collect nome rest
  end.

(** What [analyze_absolution_with_llm] knows before it asks the
    service: nothing ([None], no result set), or the name, the number
    of qualifying lawsuits and the narrative. *)
Definition prepare (bdc_data : json)
  : exc (option (json * nat * pystr)) :=
  nr <- no_result bdc_data ;;
  if nr then ret None
  else
    nl <- pessoa_nome_lawsuits bdc_data ;;
    let (nome, lawsuits) := nl in
    pt <- collect nome lawsuits ;;
    ret (Some (nome, List.length (fst pt), py_join [10%N] (snd pt))).

(** The dict of the [except] branch of [analyze_absolution_with_llm]. *)
Definition erro_result (cpf : pystr) (e : pyexn) : Result :=
  {| cpf := cpf;
     nome := JStr Lit.Erro_no_processamento;
     foi_absolvido := JNull;
     confianca_analise := JInt 0;
     justificativa := JStr (Erro_durante_processamento ++ exn_str e);
     detalhes_ia := JStr Falha_na_analise;
     total_processos_criminais := 0;
     status := erro e |}.

(** The final dict, read off [resultado_ia] with [.get]. *)
Definition from_ia (cpf : pystr) (nome : json) (total : nat)
           (resultado_ia : json) : exc Result :=
  f <- py_get resultado_ia Lit.foi_absolvido JNull ;;
  c <- py_get resultado_ia Lit.confianca_analise (JInt 0) ;;
  j <- py_get resultado_ia Lit.justificativa (JStr []) ;;
  d <- py_get resultado_ia Lit.detalhes_ia (JStr []) ;;
  ret {| cpf := cpf;
         nome := nome;
         foi_absolvido := f;
         confianca_analise := c;
         justificativa := j;
         detalhes_ia := d;
         total_processos_criminais := total;
         status := sucesso |}.

(** [analyze_absolution_with_llm]: the result and the requests sent to
    the service so far. *)
Definition analyze_absolution_with_llm (log : list request)
           (bdc_data : json) (cpf : pystr) : Result * list request :=
  match prepare bdc_data with
  | inl e => (erro_result cpf e, log)
  | inr None =>
      ({| cpf := cpf;
          nome := JStr Lit.Nao_encontrado;
          foi_absolvido := JNull;
          confianca_analise := JInt 0;
          justificativa := JStr Dados_nao_encontrados;
          detalhes_ia := JStr CPF_nao_localizado;
          total_processos_criminais := 0;
          status := dados_nao_encontrados |}, log)
  | inr (Some (nome, total_processos, texto_para_ia)) =>
      let dados_pessoa :=
        JObj [(Lit.nome, nome); (Lit.cpf, JStr cpf)] in
      let (resultado_ia, log') :=
        analyze_with_llm log texto_para_ia dados_pessoa in
      match from_ia cpf nome total_processos resultado_ia with
      | inl e => (erro_result cpf e, log')
      | inr r => (r, log')
      end
  end.
End Classifier.
End LLM.

(* ------------------------------------------------------------------ *)
(** ** Fetching one identifier *)

(** What the POST to the provider ends in: an exception (transport,
    [raise_for_status], a body that is not JSON) or the parsed body. *)
Inductive http_reply : Type :=
| HttpFails (detail : pystr)
| HttpJson (body : json).

Definition error_dict (cpf detail : pystr) : json :=
  JObj [(Lit.cpf, JStr cpf); (Lit.error, JStr detail)].

(** [fetch_single_cpf_data]: the dict returned and the queries sent to the
    provider (the digits put into ["q": f"doc{{{cpf_sanitizado}}}"]).  The
    two files differ in the constant dataset selector only. *)
Definition fetch_single_cpf_data `{PyBuiltins}
           (post : pystr -> http_reply) (cpf : pystr)
  : json * list pystr :=
  let cpf_sanitizado := List.filter is_decimal cpf in
  if negb (Nat.eqb (List.length cpf_sanitizado) 11) then
    (error_dict cpf Lit.CPF_invalido, [])
  else
    match post cpf_sanitizado with
    | HttpFails detail => (error_dict cpf detail, [cpf_sanitizado])
    | HttpJson body => (body, [cpf_sanitizado])
    end.

(* ------------------------------------------------------------------ *)
(** ** The batch loop, shared by the two [process_batch] *)

Definition exn_text_str `{PyBuiltins} (e : exn_text) : pystr :=
  match e with
  | Builtin b => exn_str b
  | Message m => m
  end.

Section BatchRunner.
Context `{PyBuiltins}.

(** [R]: the result dicts; [W]: what classifying can change (the log of
    the reasoning service); [C]: whatever the callback keeps. *)
Variables R W C : Type.

(** The dict built when ["error" in bdc_data]. *)
Variable api_error_result : pystr -> json -> R.
(** The dict built by [except Exception as exc]. *)
Variable excecao_result : pystr -> exn_text -> R.
(** [analyze_absolution] or [analyze_absolution_with_llm]. *)
Variable classify : W -> json -> pystr -> R * W.

(** A progress callback: called with [(i, total, result)], it updates
    its own state and returns ([None]) or raises.  It reads the dict it is
    handed; a callback that rewrites that dict is not modelled. *)
Definition callback : Type := C -> nat -> nat -> R -> C * option exn_text.

Record run : Type := {
  results : list R;
  calls : list (nat * nat * R);
  cb_state : C;
  world : W
}.

(** The lines of the [try] block that compute [result]. *)
Definition unit_result (w : W) (bdc_data : json) (cpf : pystr)
  : exc (R * W) :=
  has_error <- py_in Lit.error bdc_data ;;
  if has_error then
    detail <- py_item bdc_data Lit.error ;;
    ret (api_error_result cpf detail, w)
  else ret (classify w bdc_data cpf).

(** One turn of [for i, future in enumerate(as_completed(...), 1)]. *)
Definition step (progress_callback : option callback) (total i : nat)
           (cpf : pystr) (bdc_data : json) (st : run) : run :=
  match unit_result (world st) bdc_data cpf with
  | inl e =>
      {| results := results st ++ [excecao_result cpf (Builtin e)];
         calls := calls st;
         cb_state := cb_state st;
         world := world st |}
  | inr (result, w') =>
      let results' := results st ++ [result] in
      match progress_callback with
      | None =>
          {| results := results'; calls := calls st;
             cb_state := cb_state st; world := w' |}
      | Some cb =>
          let calls' := calls st ++ [(i, total, result)] in
          match cb (cb_state st) i total result with
          | (s', None) =>
              {| results := results'; calls := calls';
                 cb_state := s'; world := w' |}
          | (s', Some exc) =>
              {| results := results' ++ [excecao_result cpf exc];
                 calls := calls'; cb_state := s'; world := w' |}
          end
      end
  end.

(** The futures in the order [as_completed] yields them: [order] lists
    task numbers, task [k] is [fetch_single_cpf_data(cpfs[k])], and the
    provider answers task [k] with [post k]. *)
Fixpoint loop (post : nat -> pystr -> http_reply) (cpfs : list pystr)
         (progress_callback : option callback) (order : list nat)
         (i : nat) (st : run) : run :=
  match order with
  | [] => st
  | k :: rest =>
      let cpf := nth k cpfs [] in
      let bdc_data := fst (fetch_single_cpf_data (post k) cpf) in
      loop post cpfs progress_callback rest (S i)
           (step progress_callback (List.length cpfs) i cpf bdc_data st)
  end.

Definition process_batch_with (post : nat -> pystr -> http_reply)
           (order : list nat) (cpfs : list pystr)
           (progress_callback : option callback) (s0 : C) (w0 : W)
  : run :=
  loop post cpfs progress_callback order 1
       {| results := []; calls := []; cb_state := s0; world := w0 |}.
End BatchRunner.

(** An order in which [as_completed] can hand over the futures of [n]
    tasks: each task once. *)
Definition schedule (n : nat) (order : list nat) : Prop :=
  Permutation order (seq 0 n).

Section Batches.
Context `{PyBuiltins}.
Variable C : Type.

(** [process_batch] of [batch_processor.py]. *)
Definition process_batch :=
  @process_batch_with _ Result unit C
    (fun cpf detail =>
       {| cpf := cpf;
          nome := JStr Lit.Erro_na_consulta;
          foi_absolvido := None;
          total_processos_criminais := 0;
          total_absolvicoes := 0;
          detalhes_absolvicoes := [];
          status := erro_api detail |})
    (fun cpf exc =>
       {| cpf := cpf;
          nome := JStr Lit.Erro_na_consulta;
          foi_absolvido := None;
          total_processos_criminais := 0;
          total_absolvicoes := 0;
          detalhes_absolvicoes := [];
          status := excecao exc |})
    (fun w bdc_data cpf => (analyze_absolution bdc_data cpf, w)).

(** [process_batch] of [batch_processor_llm.py]. *)
Definition process_batch_llm (llm : LLM.service) :=
  @process_batch_with _ LLM.Result (list LLM.request) C
    (fun cpf detail =>
       {| LLM.cpf := cpf;
          LLM.nome := JStr Lit.Erro_na_consulta;
          LLM.foi_absolvido := JNull;
          LLM.confianca_analise := JInt 0;
          LLM.justificativa := JStr (LLM.Erro_na_API ++ py_str detail);
          LLM.detalhes_ia := JStr LLM.Falha_na_consulta;
          LLM.total_processos_criminais := 0;
          LLM.status := erro_api detail |})
    (fun cpf exc =>
       {| LLM.cpf := cpf;
          LLM.nome := JStr Lit.Erro_na_consulta;
          LLM.foi_absolvido := JNull;
          LLM.confianca_analise := JInt 0;
          LLM.justificativa :=
            JStr (LLM.Excecao_durante ++ exn_text_str exc);
          LLM.detalhes_ia := JStr LLM.Falha_no_processamento;
          LLM.total_processos_criminais := 0;
          LLM.status := excecao exc |})
    (fun log bdc_data cpf =>
       LLM.analyze_absolution_with_llm llm log bdc_data cpf).
End Batches.

(* ------------------------------------------------------------------ *)
(** ** Summary statistics *)

(** [float(n)] of a count; exact below 2^53, where [a / b] on two [int]s
    is the IEEE quotient of the two conversions. *)
Definition float_of_nat (n : nat) : float :=
  PrimFloat.of_uint63 (Uint63.of_Z (Z.of_nat n)).

(** [(count / total * 100) if total > 0 else 0]: the [int] [0] or a
    [float]. *)
Definition percentual (count total : nat) : pynum :=
  if Nat.ltb 0 total
  then PFloat (PrimFloat.mul
                 (PrimFloat.div (float_of_nat count) (float_of_nat total))
                 100%float)
  else PInt 0.

(** [sum(1 for r in results if p(r))] *)
Definition count_if {A} (p : A -> bool) (l : list A) : nat :=
  List.length (List.filter p l).

(** The least magnitude that no longer fits a [float]: 2^1024 - 2^970,
    half-way between the largest [float] and 2^1024. *)
Definition float_limit : Z := (2 ^ 1024 - 2 ^ 970)%Z.

(** [|a / b|] reaches [float_limit] ([b > 0]). *)
Definition quotient_overflows (a b : Z) : bool :=
  (b * float_limit <=? Z.abs a)%Z.

(** The [float] nearest to [a / b] ([b > 0]), ties to even: the quotient
    is taken with at least 64 bits and a sticky bit, then rounded to
    binary64. *)
Definition nearest_float (a b : Z) : float :=
  let k := Z.max 0 (64 + Z.log2 b - Z.log2 (Z.abs a)) in
  let n := (Z.abs a * 2 ^ k)%Z in
  let m := (2 * (n / b) + (if n mod b =? 0 then 0 else 1))%Z in
  SF2Prim (binary_normalize prec emax
                            (if (a <? 0)%Z then (- m)%Z else m)
                            (- k - 1) false).

(** [a / b] on two [int]s, [b > 0]: the correctly rounded quotient, or
    [OverflowError] ("integer division result too large for a float"). *)
Definition int_true_div (a b : Z) : exc float :=
  if quotient_overflows a b then raise OverflowError
  else ret (nearest_float a b).

(** [float(z)], the conversion [+] applies to an [int] that meets a
    [float] ("int too large to convert to float"). *)
Definition float_of_int (z : Z) : exc float := int_true_div z 1.

(** [a + b] on two numbers. *)
Definition num_add (a b : pynum) : exc pynum :=
  match a, b with
  | PInt x, PInt y => ret (PInt (x + y)%Z)
  | PInt x, PFloat g =>
      f <- float_of_int x ;; ret (PFloat (PrimFloat.add f g))
  | PFloat f, PInt y =>
      g <- float_of_int y ;; ret (PFloat (PrimFloat.add f g))
  | PFloat f, PFloat g => ret (PFloat (PrimFloat.add f g))
  end.

(** [total / n] for a count [n > 0]. *)
Definition num_div (total : pynum) (n : nat) : exc pynum :=
  match total with
  | PInt s => f <- int_true_div s (Z.of_nat n) ;; ret (PFloat f)
  | PFloat f => ret (PFloat (PrimFloat.div f (float_of_nat n)))
  end.

Record Stats : Type := {
  total_processados : nat;
  total_absolvidos : nat;
  total_nao_absolvidos : nat;
  total_sem_dados : nat;
  percentual_absolvidos : pynum;
  percentual_nao_absolvidos : pynum;
  percentual_sem_dados : pynum
}.

Definition is_True (o : option bool) : bool :=
  match o with Some true => true | _ => false end.
Definition is_False (o : option bool) : bool :=
  match o with Some false => true | _ => false end.
Definition is_None (o : option bool) : bool :=
  match o with None => true | _ => false end.

(** [get_summary_stats] of [batch_processor.py]. *)
Definition get_summary_stats (results : list Result) : Stats :=
  let total := List.length results in
  let absolvidos := count_if (fun r => is_True (foi_absolvido r)) results in
  let nao_absolvidos :=
    count_if (fun r => is_False (foi_absolvido r)) results in
  let sem_dados := count_if (fun r => is_None (foi_absolvido r)) results in
  {| total_processados := total;
     total_absolvidos := absolvidos;
     total_nao_absolvidos := nao_absolvidos;
     total_sem_dados := sem_dados;
     percentual_absolvidos := percentual absolvidos total;
     percentual_nao_absolvidos := percentual nao_absolvidos total;
     percentual_sem_dados := percentual sem_dados total |}.

Module LLMStats.

Record Stats : Type := {
  total_processados : nat;
  total_absolvidos : nat;
  total_nao_absolvidos : nat;
  total_sem_dados : nat;
  percentual_absolvidos : pynum;
  percentual_nao_absolvidos : pynum;
  percentual_sem_dados : pynum;
  confianca_media_ia : pynum;
  analises_com_alta_confianca : nat;
  analises_com_baixa_confianca : nat
}.

(** [v is True], [v is False], [v is None] on a JSON value. *)
Definition is_True (v : json) : bool :=
  match v with JBool true => true | _ => false end.
Definition is_False (v : json) : bool :=
  match v with JBool false => true | _ => false end.
Definition is_None (v : json) : bool :=
  match v with JNull => true | _ => false end.

(** An operand of [+], [>=] and [<] next to a number. *)
Definition as_num (v : json) : exc pynum :=
  match as_number v with
  | Some x => ret x
  | None => raise TypeError
  end.

(** [sum(confiancas)]: from the [int] [0], one [+] per item, from left
    to right. *)
Fixpoint py_sum (acc : pynum) (l : list json) : exc pynum :=
  match l with
  | [] => ret acc
  | v :: l' => x <- as_num v ;; acc' <- num_add acc x ;; py_sum acc' l'
  end.

(** [c >= 80] and [c < 50] on a number; both are [False] on NaN. *)
Definition ge_80 (c : pynum) : bool :=
  match c with
  | PInt z => Z.leb 80 z
  | PFloat f => PrimFloat.leb 80 f
  end.

Definition lt_50 (c : pynum) : bool :=
  match c with
  | PInt z => Z.ltb z 50
  | PFloat f => PrimFloat.ltb f 50
  end.

(** [get_summary_stats] of [batch_processor_llm.py]. *)
Definition get_summary_stats (results : list LLM.Result) : exc Stats :=
  let total := List.length results in
  let absolvidos :=
    count_if (fun r => is_True (LLM.foi_absolvido r)) results in
  let nao_absolvidos :=
    count_if (fun r => is_False (LLM.foi_absolvido r)) results in
  let sem_dados :=
    count_if (fun r => is_None (LLM.foi_absolvido r)) results in
  let confiancas :=
    List.filter (fun c => negb (is_None c))
                (List.map LLM.confianca_analise results) in
  confianca_media <-
    match confiancas with
    | [] => ret (PInt 0)
    | _ =>
        total_conf <- py_sum (PInt 0) confiancas ;;
        num_div total_conf (List.length confiancas)
    end ;;
  cs <- map_exc as_num confiancas ;;
  ret {| total_processados := total;
         total_absolvidos := absolvidos;
         total_nao_absolvidos := nao_absolvidos;
         total_sem_dados := sem_dados;
         percentual_absolvidos := percentual absolvidos total;
         percentual_nao_absolvidos := percentual nao_absolvidos total;
         percentual_sem_dados := percentual sem_dados total;
         confianca_media_ia := confianca_media;
         analises_com_alta_confianca := count_if ge_80 cs;
         analises_com_baixa_confianca := count_if lt_50 cs |}.
End LLMStats.

(* ------------------------------------------------------------------ *)
(** ** A concrete reading of the built-ins, for computing examples *)

(** Case mapping on ASCII and on the accented letters of Latin-1, decimal
    digits [0-9]; on such text this is what Python computes. *)
Definition upper_cp (c : N) : N :=
  (if (97 <=? c) && (c <=? 122) then c - 32
   else if (224 <=? c) && (c <=? 254) && negb (c =? 247) then c - 32
   else c)%N.

Definition lower_cp (c : N) : N :=
  (if (65 <=? c) && (c <=? 90) then c + 32
   else if (192 <=? c) && (c <=? 222) && negb (c =? 215) then c + 32
   else c)%N.

Definition repr_simple (v : json) : pystr :=
  match v with
  | JNull => u "None"
  | JBool true => u "True"
  | JBool false => u "False"
  | JStr s => s
  | _ => u "<value>"
  end.

Definition exn_name (e : pyexn) : pystr :=
  match e with
  | AttributeError => u "AttributeError"
  | TypeError => u "TypeError"
  | KeyError => u "KeyError"
  | IndexError => u "IndexError"
  | OverflowError => u "OverflowError"
  end.

Definition latin1 : PyBuiltins := {|
  py_upper := List.map upper_cp;
  py_lower := List.map lower_cp;
  is_decimal := fun c => ((48 <=? c) && (c <=? 57))%N;
  py_repr := repr_simple;
  exn_str := exn_name
|}.

(* ------------------------------------------------------------------ *)
(** ** Vocabulary for the statements *)

Section Vocabulary.
Context `{PyBuiltins}.

(** [processos_criminais] as [analyze_absolution] computes it from a
    payload that has a result set. *)
Definition processos_criminais (bdc_data : json) : exc (list json) :=
  nl <- pessoa_nome_lawsuits bdc_data ;;
  filter_reu (fst nl) (snd nl).

(** A text field of a party entry as the specification reads it: the
    recorded string, or the empty string when the key is absent. *)
Definition party_text (parte : json) (k : pystr) : pystr :=
  match parte with
  | JObj m => match lookup k m with Some (JStr s) => s | _ => [] end
  | _ => []
  end.

Definition party_subtype (parte : json) : pystr :=
  match parte with
  | JObj m =>
      match lookup Lit.PartyDetails m with
      | Some d => party_text d Lit.SpecificType
      | None => []
      end
  | _ => []
  end.

(** The match rule of the specification (section 4.3), word for word:
    role label DEFENDANT or RÉU, or subtype RÉU, case-insensitively, and
    the trimmed, uppercased person name inside the trimmed, uppercased
    party name. *)
Definition spec_party_matches (nome : pystr) (parte : json) : bool :=
  (str_eqb (py_upper (party_text parte Lit.Type_)) Lit.DEFENDANT
   || str_eqb (py_upper (party_text parte Lit.Type_)) Lit.REU
   || str_eqb (py_upper (party_subtype parte)) Lit.REU)
  && substr (py_upper (py_strip nome))
            (py_upper (py_strip (party_text parte Lit.Name))).

Definition parties_of (proc : json) : list json :=
  match proc with
  | JObj m => match lookup Lit.Parties m with
              | Some (JArr ps) => ps
              | _ => []
              end
  | _ => []
  end.

Definition court_is_criminal (proc : json) : bool :=
  match proc with
  | JObj m => match lookup Lit.CourtType m with
              | Some (JStr s) => str_eqb s Lit.CRIMINAL
              | _ => false
              end
  | _ => false
  end.

(** [isDefendant] of the specification. *)
Definition spec_is_defendant (nome : pystr) (proc : json) : bool :=
  court_is_criminal proc && existsb (spec_party_matches nome)
                                    (parties_of proc).

(** A value that is absent or a string. *)
Definition opt_str (o : option json) : bool :=
  match o with
  | None | Some (JStr _) => true
  | _ => false
  end.

(** A party entry shaped as the data model says: an object whose role
    label, name and detailed-role subtype, where present, are strings. *)
Definition party_typed (parte : json) : bool :=
  match parte with
  | JObj m =>
      opt_str (lookup Lit.Type_ m) && opt_str (lookup Lit.Name m)
      && match lookup Lit.PartyDetails m with
         | None => true
         | Some (JObj d) => opt_str (lookup Lit.SpecificType d)
         | Some _ => false
         end
  | _ => false
  end.

(** A lawsuit entry whose party list, where present, is a list of such
    entries. *)
Definition lawsuit_typed (proc : json) : bool :=
  match proc with
  | JObj m =>
      match lookup Lit.Parties m with
      | None => true
      | Some (JArr ps) => forallb party_typed ps
      | Some _ => false
      end
  | _ => false
  end.
(** A lawsuit none of whose scanned fields holds a keyword. *)
Definition sem_palavra (proc : json) : Prop :=
  exists numero campos,
    numero_processo proc = inr numero /\
    campos_decisao proc = inr campos /\
    forall s, In (JStr s) campos -> has_keyword s = false.

End Vocabulary.

(** The request [analyze_absolution_with_llm] sends for a person. *)
Definition request_for `{PyBuiltins} (nome : json) (cpf texto : pystr)
  : LLM.request :=
  {| LLM.req_nome := py_str nome; LLM.req_cpf := cpf;
     LLM.req_decisoes := texto |}.

(** The value under [k] in a dict, or [dflt]. *)
Definition value_or (o : list (pystr * json)) (k : pystr) (dflt : json)
  : json :=
  match lookup k o with
  | Some v => v
  | None => dflt
  end.

(** The result dict of the contextual classifier with status [sucesso]. *)
Definition llm_sucesso (cpf : pystr) (nome : json) (total : nat)
           (f c j d : json) : LLM.Result :=
  {| LLM.cpf := cpf; LLM.nome := nome; LLM.foi_absolvido := f;
     LLM.confianca_analise := c; LLM.justificativa := j;
     LLM.detalhes_ia := d; LLM.total_processos_criminais := total;
     LLM.status := sucesso |}.

(** The callback, if there is one, always returns. *)
Definition callback_returns {R C} (progress_callback : option (callback R C))
  : Prop :=
  match progress_callback with
  | None => True
  | Some cb => forall s i t r, snd (cb s i t r) = None
  end.


(** A confidence value [sum] and [>=] accept: absent, a number or a
    bool. *)
Definition confianca_numeric (v : json) : bool :=
  match v with
  | JNull | JInt _ | JFloat _ | JBool _ => true
  | _ => false
  end.




(** [confiancas]: the confidences that are not [None]. *)
Definition nao_nulas (l : list json) : list json :=
  List.filter (fun c => negb (LLMStats.is_None c)) l.

(* ------------------------------------------------------------------ *)
(** ** Concrete inputs used below *)

Module Ex.
Local Open Scope string_scope.

Definition str (s : string) : json := JStr (u s).
Definition entries (l : list (string * json)) : list (pystr * json) :=
  List.map (fun kv => (u (fst kv), snd kv)) l.
Definition obj (l : list (string * json)) : json := JObj (entries l).

(** A provider payload for one person with the given lawsuits. *)
Definition payload (lawsuits : list json) : json :=
  obj [("Result",
        JArr [obj [("BasicData", obj [("Name", str "Joao Silva")]);
                   ("Processes", obj [("Lawsuits", JArr lawsuits)])]])].

Definition reu : json :=
  obj [("Type", str "Defendant"); ("Name", str " JOAO SILVA ")].

(** A party whose name the provider left null. *)
Definition sem_nome : json := obj [("Type", str "AUTHOR"); ("Name", JNull)].

Definition absolvido_campos : list (pystr * json) :=
  entries [("CourtType", str "CRIMINAL"); ("Parties", JArr [reu]);
           ("Decision", str "O reu foi ABSOLVIDO")].
Definition absolvido : json := JObj absolvido_campos.

(** No keyword in [Decision], one in [Content]; no case number. *)
Definition arquivado : json :=
  obj [("CourtType", str "CRIMINAL"); ("Parties", JArr [reu]);
       ("Decision", str "Reu condenado");
       ("Content", str "Inquerito arquivado")].

Definition condenado : json :=
  obj [("CourtType", str "CRIMINAL"); ("Parties", JArr [reu]);
       ("Decision", str "Reu condenado")].

Definition civel_campos : list (pystr * json) :=
  entries [("CourtType", str "CIVIL"); ("Parties", JArr [reu]);
           ("Decision", str "absolvido")].
Definition civel : json := JObj civel_campos.

Definition autor_sem_nome : json :=
  obj [("CourtType", str "CRIMINAL"); ("Parties", JArr [sem_nome; reu]);
       ("Decision", str "absolvido")].

(** A CRIMINAL lawsuit whose only party is not a defendant and has a
    null name. *)
Definition criminal_sem_nome : json :=
  obj [("CourtType", str "CRIMINAL"); ("Parties", JArr [sem_nome])].

(** A lawsuit of the person whose only text is in [Summary]. *)
Definition so_summary : json :=
  obj [("CourtType", str "CRIMINAL"); ("Parties", JArr [reu]);
       ("Summary", str "Reu absolvido")].

(** A lawsuit of the person whose case number is the float NaN, with a
    keyword in two fields. *)
Definition numero_nan : json :=
  obj [("CourtType", str "CRIMINAL"); ("Parties", JArr [reu]);
       ("CaseNumber", JFloat nan);
       ("Decision", str "Reu absolvido");
       ("Content", str "Inquerito arquivado")].

Definition cpf_ok : pystr := u "123.456.789-01".
Definition cpf_curto : pystr := u "123".

(** A callback that counts its calls and returns. *)
Definition conta {R} : @callback R nat :=
  fun n _ _ _ => (S n, None).

(** A callback that always raises. *)
Definition falha {R} : @callback R nat :=
  fun n _ _ _ => (S n, Some (Message (u "boom"))).

(** A provider that answers every query with the same reply. *)
Definition sempre (r : http_reply) : nat -> pystr -> http_reply :=
  fun _ _ => r.

(** A provider whose answer to the first task is the JSON body
    [null], and a person without lawsuits for the others. *)
Definition nulo_primeiro : nat -> pystr -> http_reply :=
  fun k _ => match k with
             | 0 => HttpJson JNull
             | _ => HttpJson (payload [])
             end.

(** A reasoning service that answers every request the same way. *)
Definition ia (r : LLM.reply) : LLM.service := fun _ _ => r.

(** An answer that parses but breaks the contract: the outcome is a
    string, the confidence is 150 and two keys are missing. *)
Definition fora_do_contrato : list (pystr * json) :=
  [ (Lit.foi_absolvido, str "talvez");
    (Lit.confianca_analise, JInt 150) ].

Definition kw (o : option bool) : Result :=
  {| cpf := cpf_ok; nome := str "x"; foi_absolvido := o;
     total_processos_criminais := 0; total_absolvicoes := 0;
     detalhes_absolvicoes := []; status := sucesso |}.


Definition ll (f c : json) : LLM.Result :=
  {| LLM.cpf := cpf_ok; LLM.nome := str "x"; LLM.foi_absolvido := f;
     LLM.confianca_analise := c; LLM.justificativa := str "";
     LLM.detalhes_ia := str ""; LLM.total_processos_criminais := 1;
     LLM.status := sucesso |}.
End Ex.

(* ------------------------------------------------------------------ *)
(** ** The dicts of the two batches, by name *)

(** The [erro_api] dict of [process_batch] in [batch_processor.py]. *)
Definition erro_api_result (cpf0 : pystr) (detail : json) : Result :=
  {| cpf := cpf0;
     nome := JStr Lit.Erro_na_consulta;
     foi_absolvido := None;
     total_processos_criminais := 0;
     total_absolvicoes := 0;
     detalhes_absolvicoes := [];
     status := erro_api detail |}.

(** The [erro_api] dict of [process_batch] in [batch_processor_llm.py]. *)
Definition erro_api_result_llm `{PyBuiltins} (cpf0 : pystr) (detail : json)
  : LLM.Result :=
  {| LLM.cpf := cpf0;
     LLM.nome := JStr Lit.Erro_na_consulta;
     LLM.foi_absolvido := JNull;
     LLM.confianca_analise := JInt 0;
     LLM.justificativa := JStr (LLM.Erro_na_API ++ py_str detail);
     LLM.detalhes_ia := JStr LLM.Falha_na_consulta;
     LLM.total_processos_criminais := 0;
     LLM.status := erro_api detail |}.

(* ------------------------------------------------------------------ *)
(** ** Further vocabulary *)

(** A value that is [None], a bool, an [int], a string, or a [float]
    other than NaN. *)
Definition scalar (v : json) : bool :=
  match v with
  | JNull | JBool _ | JInt _ | JStr _ => true
  | JFloat f => PrimFloat.eqb f f
  | _ => false
  end.

(** The keywords of [palavras_absolvicao] that speak of missing or
    insufficient evidence. *)
Definition palavras_de_prova : list pystr :=
  [ u "n" ++ [227%N] ++ u "o h" ++ [225%N] ++ u " elementos";
    u "nao ha elementos";
    u "aus" ++ [234%N] ++ u "ncia de provas"; u "ausencia de provas";
    u "insufici" ++ [234%N] ++ u "ncia de provas";
    u "insuficiencia de provas" ].

Section MoreVocabulary.
Context `{PyBuiltins}.

(** The lawsuit is scanned with a case number that equals itself. *)
Definition numero_escalar (proc : json) : Prop :=
  exists numero, numero_processo proc = inr numero /\ scalar numero = true.

(** No lawsuit of the list has the case number of an earlier one. *)
Definition numeros_distintos (procs : list json) : Prop :=
  ForallOrdPairs
    (fun p q => forall n m,
         numero_processo p = inr n -> numero_processo q = inr m ->
         py_eq n m = false) procs.

(** Each lawsuit scanned alone, from an empty list of findings. *)
Definition scan_each (procs : list json) : exc (list (list Finding)) :=
  map_exc (fun proc => scan_proc proc []) procs.

(** The test of the first loop, as a boolean: the lawsuit qualifies. *)
Definition qualifies (nome : json) (proc : json) : bool :=
  match proc_is_reu nome proc with
  | inr true => true
  | _ => false
  end.

(** The role part of the match rule. *)
Definition spec_role_matches (parte : json) : bool :=
  str_eqb (py_upper (party_text parte Lit.Type_)) Lit.DEFENDANT
  || str_eqb (py_upper (party_text parte Lit.Type_)) Lit.REU
  || str_eqb (py_upper (party_subtype parte)) Lit.REU.
End MoreVocabulary.

(** How many times an identifier occurs in a list. *)
Definition ocorrencias (c : pystr) (l : list pystr) : nat :=
  count_if (str_eqb c) l.

(** The value under [k] of a lawsuit or decision record, [None] when the
    key is absent. *)
Definition campo_de (proc : json) (k : pystr) : json :=
  match proc with
  | JObj m => value_or m k JNull
  | _ => JNull
  end.

(** The lawsuit has text for the contextual classifier: a truthy
    [Content], [Decision] or [Description], or a decision with a truthy
    [DecisionContent].  [Summary] is not among them. *)
Definition tem_texto (proc : json) : bool :=
  truthy (campo_de proc Lit.Content)
  || truthy (campo_de proc Lit.Decision)
  || truthy (campo_de proc Lit.Description)
  || match campo_de proc Lit.Decisions with
     | JArr ds =>
         existsb (fun d => truthy (campo_de d Lit.DecisionContent)) ds
     | _ => false
     end.

(** The payloads without a result set: a dict without the key ["Result"]
    or with a falsy value under it, a list with no item ["Result"], a
    string that does not contain "Result". *)
Definition sem_result_set (bdc_data : json) : Prop :=
  (exists m, bdc_data = JObj m /\
             (lookup Lit.Result m = None \/
              exists v, lookup Lit.Result m = Some v /\ truthy v = false))
  \/ (exists l, bdc_data = JArr l /\ ~ In (JStr Lit.Result) l)
  \/ (exists s, bdc_data = JStr s /\ substr Lit.Result s = false).

(* ------------------------------------------------------------------ *)
(** ** The upload and the table of the two Streamlit scripts
       ([app_streamlit_lote.py], [app_streamlit_lote_llm.py]) *)

(** [content.split('\n')] *)
Fixpoint split_nl (content : pystr) : list pystr :=
  match content with
  | [] => [[]]
  | c :: rest =>
      if (c =? 10)%N then [] :: split_nl rest
      else match split_nl rest with
           | line :: lines => (c :: line) :: lines
           | [] => [[c]]
           end
  end.

(** The TXT branch:
    [[line.strip() for line in content.split('\n') if line.strip()]];
    [content] is the uploaded file once decoded. *)
Definition cpfs_from_txt (content : pystr) : list pystr :=
  List.map py_strip
           (List.filter (fun line => truthy (JStr (py_strip line)))
                        (split_nl content)).

(** [cpf.replace('.', '').replace('-', '')] *)
Definition sem_pontuacao (cpf : pystr) : pystr :=
  List.filter (fun c => negb (c =? 45)%N)
              (List.filter (fun c => negb (c =? 46)%N) cpf).

(** "Limpar CPFs inválidos":
    [[cpf for cpf in cpfs_to_analyze
      if len(cpf.replace('.', '').replace('-', '')) >= 11]] *)
Definition limpar_cpfs (cpfs_to_analyze : list pystr) : list pystr :=
  List.filter (fun cpf => Nat.leb 11 (List.length (sem_pontuacao cpf)))
              cpfs_to_analyze.

(** What a TXT upload leaves in [cpfs_to_analyze]. *)
Definition carregar_txt (content : pystr) : list pystr :=
  limpar_cpfs (cpfs_from_txt content).

(** The three texts of the column 'Foi Absolvido': "Sim", "Não" and
    "Sem dados" (each with its icon). *)
Inductive rotulo : Type :=
| Sim
| Nao
| Sem_dados.

Definition rotulo_eqb (a b : rotulo) : bool :=
  match a, b with
  | Sim, Sim | Nao, Nao | Sem_dados, Sem_dados => true
  | _, _ => false
  end.

(** The label of a row in [app_streamlit_lote.py]:
    [Sim if foi_absolvido is True else (Nao if ... is False else ...)]. *)
Definition rotulo_de (o : option bool) : rotulo :=
  match o with
  | Some true => Sim
  | Some false => Nao
  | None => Sem_dados
  end.

(** The same in [app_streamlit_lote_llm.py], on a JSON value. *)
Definition rotulo_llm (v : json) : rotulo :=
  match v with
  | JBool true => Sim
  | JBool false => Nao
  | _ => Sem_dados
  end.

(** The options of "Filtrar por resultado". *)
Inductive filtro : Type :=
| Todos
| Apenas_Absolvidos
| Apenas_Nao_Absolvidos
| Apenas_Sem_Dados.

(** [table_data]: one row per result, with its label (the other columns
    of a row are fields of the result). *)
Definition table_data (results : list Result) : list (Result * rotulo) :=
  List.map (fun r => (r, rotulo_de (foi_absolvido r))) results.

Definition table_data_llm (results : list LLM.Result)
  : list (LLM.Result * rotulo) :=
  List.map (fun r => (r, rotulo_llm (LLM.foi_absolvido r))) results.

(** [filtered_df] after the [if]/[elif] on [status_filter], as displayed
    when no name is typed into the name filter (and, in the contextual
    script, the confidence filter is left on 'Todas'). *)
Definition filtrar {A} (status_filter : filtro) (rows : list (A * rotulo))
  : list (A * rotulo) :=
  match status_filter with
  | Todos => rows
  | Apenas_Absolvidos =>
      List.filter (fun row => rotulo_eqb (snd row) Sim) rows
  | Apenas_Nao_Absolvidos =>
      List.filter (fun row => rotulo_eqb (snd row) Nao) rows
  | Apenas_Sem_Dados =>
      List.filter (fun row => rotulo_eqb (snd row) Sem_dados) rows
  end.

(** An outcome of the contextual classifier that is not [True], [False]
    or [None]. *)
Definition fora_do_tri_estado (v : json) : bool :=
  negb (LLMStats.is_True v || LLMStats.is_False v || LLMStats.is_None v).

(* ------------------------------------------------------------------ *)
(** ** The error monad *)

Lemma bind_inr {A B} (c : exc A) (f : A -> exc B) (b : B) :
  bind c f = inr b -> exists a, c = inr a /\ f a = inr b.
Proof.
  destruct c as [e | a]; simpl; intros E; [discriminate | eauto].
Qed.

Lemma bind_inl {A B} (c : exc A) (f : A -> exc B) (e : pyexn) :
  c = inl e -> bind c f = inl e.
Proof. intros ->; reflexivity. Qed.

Ltac inv_bind H :=
  let a := fresh "a" in
  let E := fresh "E" in
  apply bind_inr in H; destruct H as (a & E & H).

(* ------------------------------------------------------------------ *)
(** ** The keyword classifier *)

Section KeywordFacts.
Context `{PyBuiltins}.

Lemma scan_campos_sem_palavra proc numero campos :
  (forall s, In (JStr s) campos -> has_keyword s = false) ->
  scan_campos proc numero campos [] = inr [].
Proof.
  induction campos as [| c rest IH]; intros Hno; [reflexivity |].
  assert (Hrest : forall s, In (JStr s) rest -> has_keyword s = false)
    by (intros s Hs; apply Hno; right; exact Hs).
  destruct c as [| b | z | fl | s | l | m]; simpl; auto.
  rewrite (Hno s) by (left; reflexivity).
  destruct (py_strip s); simpl; auto.
Qed.

Lemma scan_procs_sem_palavra procs :
  Forall sem_palavra procs -> scan_procs procs [] = inr [].
Proof.
  induction 1 as [| proc rest (numero & campos & En & Ec & Hno) _ IH];
    [reflexivity |].
  simpl. unfold scan_proc. rewrite En, Ec. simpl.
  rewrite scan_campos_sem_palavra by exact Hno. exact IH.
Qed.

(** What [analyze_absolution] returns on a payload with a result set:
    the success dict when nothing raised, the error dict otherwise. *)
Lemma analyze_absolution_with_result bdc_data cpf0 :
  no_result bdc_data = inr false ->
  (exists nome0 lawsuits procs finds,
      pessoa_nome_lawsuits bdc_data = inr (nome0, lawsuits) /\
      filter_reu nome0 lawsuits = inr procs /\
      scan_procs procs [] = inr finds /\
      analyze_absolution bdc_data cpf0 =
        {| cpf := cpf0; nome := nome0;
           foi_absolvido := Some (Nat.ltb 0 (List.length finds));
           total_processos_criminais := List.length procs;
           total_absolvicoes := List.length finds;
           detalhes_absolvicoes := finds;
           status := sucesso |})
  \/ (exists e,
         analyze_absolution bdc_data cpf0 =
           {| cpf := cpf0; nome := JStr Lit.Erro_no_processamento;
              foi_absolvido := None;
              total_processos_criminais := 0;
              total_absolvicoes := 0;
              detalhes_absolvicoes := [];
              status := erro e |}).
Proof.
  intros Hnr. unfold analyze_absolution, analyze_absolution_try.
  rewrite Hnr. simpl.
  destruct (pessoa_nome_lawsuits bdc_data) as [e | [nome0 lawsuits]];
    simpl; [right; eauto |].
  destruct (filter_reu nome0 lawsuits) as [e | procs] eqn:Ef;
    simpl; [right; eauto |].
  destruct (scan_procs procs []) as [e | finds] eqn:Es;
    simpl; [right; eauto |].
  left. exists nome0, lawsuits, procs, finds. auto.
Qed.

(** C3, as amended: on a payload with a result set the keyword
    classifier either raised inside its [try] (status [erro], outcome
    unknown) or succeeded, and when it succeeded [foi_absolvido] is the
    boolean [total_absolvicoes > 0], the count being the number of
    recorded findings; qualifying lawsuits without any keyword give
    [False] and a count of 0. *)
Theorem C3_outcome_is_findings_positive bdc_data cpf0 :
  no_result bdc_data = inr false ->
  let r := analyze_absolution bdc_data cpf0 in
  (status r = sucesso \/
   exists e, status r = erro e /\ foi_absolvido r = None) /\
  (status r = sucesso ->
   foi_absolvido r = Some (Nat.ltb 0 (total_absolvicoes r)) /\
   total_absolvicoes r = List.length (detalhes_absolvicoes r)) /\
  (forall procs,
      processos_criminais bdc_data = inr procs ->
      Forall sem_palavra procs ->
      status r = sucesso /\
      foi_absolvido r = Some false /\
      total_absolvicoes r = 0 /\
      total_processos_criminais r = List.length procs).
Proof.
  intros Hnr r.
  destruct (analyze_absolution_with_result bdc_data cpf0 Hnr)
    as [(nome0 & lawsuits & procs & finds & Ep & Ef & Es & Er) | (e & Er)];
    subst r; rewrite Er; simpl.
  - split; [left; reflexivity |]. split; [auto |].
    intros procs' Hq Hno. unfold processos_criminais in Hq.
    rewrite Ep in Hq. simpl in Hq. rewrite Ef in Hq.
    injection Hq as <-.
    rewrite (scan_procs_sem_palavra Hno) in Es. injection Es as <-.
    simpl. auto.
  - split; [right; eauto |]. split; [discriminate |].
    intros procs' Hq Hno. exfalso.
    unfold analyze_absolution, analyze_absolution_try in Er.
    rewrite Hnr in Er. simpl in Er.
    unfold processos_criminais in Hq.
    destruct (pessoa_nome_lawsuits bdc_data) as [e' | [nome0 lawsuits]];
      simpl in *; [discriminate |].
    rewrite Hq in Er. simpl in Er.
    rewrite (scan_procs_sem_palavra Hno) in Er. simpl in Er.
    discriminate.
Qed.
End KeywordFacts.

(** C3, the claim as worded fails: a result set is there, yet a party
    whose name is null makes [.strip()] raise and the outcome is
    unknown. *)
Lemma C3_counterexample :
  ~ (forall bdc_data cpf0,
        no_result bdc_data = inr false ->
        exists b,
          foi_absolvido (analyze_absolution (H := latin1) bdc_data cpf0)
          = Some b).
Proof.
  intros Hclaim.
  destruct (Hclaim (Ex.payload [Ex.autor_sem_nome]) Ex.cpf_ok eq_refl)
    as [b Hb].
  vm_compute in Hb. discriminate.
Qed.

Lemma C3_witness :
  no_result (Ex.payload [Ex.condenado]) = inr false /\
  foi_absolvido (analyze_absolution (H := latin1)
                   (Ex.payload [Ex.condenado]) Ex.cpf_ok) = Some false /\
  total_processos_criminais
    (analyze_absolution (H := latin1)
       (Ex.payload [Ex.condenado]) Ex.cpf_ok) = 1.
Proof.
  split; [reflexivity |].
  pose proof (@C3_outcome_is_findings_positive
                latin1 (Ex.payload [Ex.condenado]) Ex.cpf_ok eq_refl)
    as (_ & _ & Hp).
  destruct (Hp [Ex.condenado] eq_refl) as (_ & Hf & _ & Hn).
  - constructor; [| constructor].
    eexists; eexists. split; [reflexivity |]. split; [reflexivity |].
    intros s [E | [E | [E | [E | []]]]]; injection E as <-; reflexivity.
  - split; [exact Hf | exact Hn].
Defined.

(* ------------------------------------------------------------------ *)
(** ** The defendant filter *)

Section DefendantFilter.
Context `{PyBuiltins}.

Lemma parte_is_reu_typed nome0 parte :
  party_typed parte = true ->
  parte_is_reu (JStr nome0) parte = inr (spec_party_matches nome0 parte).
Proof.
  destruct parte as [| b | z | fl | s | l | m]; try discriminate.
  unfold party_typed, parte_is_reu, spec_party_matches, party_subtype,
    party_text, py_get.
  intros Ht. apply andb_prop in Ht as [Ht Hd].
  apply andb_prop in Ht as [Ht Hn].
  destruct (lookup Lit.Type_ m) as [[| ? | ? | ? | t | ? | ?] |];
    try discriminate;
    (destruct (lookup Lit.Name m) as [[| ? | ? | ? | n | ? | ?] |];
     try discriminate;
     (destruct (lookup Lit.PartyDetails m) as [[| ? | ? | ? | ? | ? | d] |];
      try discriminate; simpl;
      [ destruct (lookup Lit.SpecificType d) as [[| ? | ? | ? | e | ? | ?] |];
        try discriminate; simpl |
        change (lookup Lit.SpecificType []) with (@None json); simpl ];
      match goal with
      | |- (if ?c then _ else _) = _ => destruct c; reflexivity
      end)).
Qed.

Lemma is_reu_typed nome0 partes :
  forallb party_typed partes = true ->
  is_reu (JStr nome0) partes
  = inr (existsb (spec_party_matches nome0) partes).
Proof.
  induction partes as [| parte rest IH]; [reflexivity |].
  simpl. intros Ht. apply andb_prop in Ht as [Hp Hr].
  rewrite (parte_is_reu_typed nome0 parte Hp). simpl.
  destruct (spec_party_matches nome0 parte); [reflexivity |].
  simpl. exact (IH Hr).
Qed.

(** A party the loop accepts satisfies the rule of the specification,
    whatever else the payload holds. *)
Lemma parte_is_reu_sound nome0 parte :
  parte_is_reu (JStr nome0) parte = inr true ->
  spec_party_matches nome0 parte = true.
Proof.
  destruct parte as [| b | z | fl | s | l | m]; try discriminate.
  unfold parte_is_reu, spec_party_matches, party_subtype, party_text,
    py_get.
  destruct (lookup Lit.Type_ m) as [[| ? | ? | ? | t | ? | ?] |];
    try discriminate;
    (destruct (lookup Lit.Name m) as [[| ? | ? | ? | n | ? | ?] |];
     try discriminate;
     (destruct (lookup Lit.PartyDetails m) as [[| ? | ? | ? | ? | ? | d] |];
      try discriminate; simpl;
      [ destruct (lookup Lit.SpecificType d) as [[| ? | ? | ? | e | ? | ?] |];
        try discriminate; simpl |
        change (lookup Lit.SpecificType []) with (@None json); simpl ];
      match goal with
      | |- (if ?c then _ else _) = _ -> _ =>
          destruct c; simpl; intros E; [injection E as E; exact E
                                       | discriminate]
      end)).
Qed.

Lemma is_reu_sound nome0 partes :
  is_reu (JStr nome0) partes = inr true ->
  existsb (spec_party_matches nome0) partes = true.
Proof.
  induction partes as [| parte rest IH]; [discriminate |].
  simpl. destruct (parte_is_reu (JStr nome0) parte) as [e | [|]] eqn:Ep;
    simpl; try discriminate; intros E.
  - rewrite (parte_is_reu_sound _ _ Ep). reflexivity.
  - rewrite (IH E). apply orb_true_r.
Qed.

Lemma court_is_criminal_eq m :
  py_eq (match lookup Lit.CourtType m with
         | Some v => v
         | None => JNull
         end) (JStr Lit.CRIMINAL)
  = court_is_criminal (JObj m).
Proof.
  unfold court_is_criminal.
  destruct (lookup Lit.CourtType m) as [[| ? | ? | ? | ? | ? | ?] |];
    reflexivity.
Qed.

Lemma proc_is_reu_sound nome0 m :
  proc_is_reu (JStr nome0) (JObj m) = inr true ->
  court_is_criminal (JObj m) = true /\
  exists parte, In parte (parties_of (JObj m)) /\
                spec_party_matches nome0 parte = true.
Proof.
  intros E. unfold proc_is_reu in E. cbn [py_get bind ret] in E.
  rewrite court_is_criminal_eq in E.
  destruct (court_is_criminal (JObj m)); [| discriminate].
  split; [reflexivity |].
  unfold parties_of.
  destruct (lookup Lit.Parties m) as [[| ? | ? | ? | s | ps | pm] |];
    simpl in E; try discriminate.
  - destruct s; simpl in E; discriminate.
  - apply is_reu_sound in E. apply existsb_exists in E. exact E.
  - destruct pm as [| [k v] pm]; simpl in E; discriminate.
Qed.

Lemma proc_is_reu_typed nome0 m :
  lawsuit_typed (JObj m) = true ->
  proc_is_reu (JStr nome0) (JObj m)
  = inr (spec_is_defendant nome0 (JObj m)).
Proof.
  intros Ht. unfold proc_is_reu, spec_is_defendant.
  cbn [py_get bind ret]. rewrite court_is_criminal_eq.
  destruct (court_is_criminal (JObj m)); [| reflexivity].
  unfold lawsuit_typed in Ht. unfold parties_of.
  destruct (lookup Lit.Parties m) as [[| ? | ? | ? | ? | ps | ?] |];
    try discriminate; cbn [py_iter bind ret andb]; [| reflexivity].
  apply is_reu_typed. exact Ht.
Qed.

(** The scan of one party returns only on a well-typed party. *)
Lemma parte_is_reu_returns nome0 parte b :
  parte_is_reu (JStr nome0) parte = inr b -> party_typed parte = true.
Proof.
  destruct parte as [| ? | ? | ? | ? | ? | m]; try discriminate.
  unfold party_typed, parte_is_reu, py_get. cbn [bind ret].
  destruct (lookup Lit.Type_ m) as [[| ? | ? | ? | t | ? | ?] |];
    try discriminate;
    (destruct (lookup Lit.Name m) as [[| ? | ? | ? | n | ? | ?] |];
     try discriminate;
     (destruct (lookup Lit.PartyDetails m) as [[| ? | ? | ? | ? | ? | d] |];
      try discriminate; cbn [as_str bind ret opt_str andb];
      [ destruct (lookup Lit.SpecificType d) as [[| ? | ? | ? | e | ? | ?] |];
        try discriminate; reflexivity
      | reflexivity ])).
Qed.

(** C5, as amended.  For a lawsuit record [JObj m] and a person name:
    (1) a court type other than CRIMINAL never makes the person a
    defendant, whatever the parties hold; (2) a person the code counts
    as defendant satisfies the rule (CRIMINAL, and a party whose role
    label uppercases to DEFENDANT or RÉU or whose subtype uppercases to
    RÉU, and whose trimmed uppercased name contains the trimmed
    uppercased person name); (3) when the lawsuit is well typed, that is
    its party list is absent or a list, every party is an object, the
    role label and the name of a party are absent or strings, and its
    [PartyDetails] is absent or an object whose [SpecificType] is absent
    or a string, the check does not raise and the person is counted if
    and only if the rule holds; (4) the scan of one party returns exactly
    when the party is well typed in this sense, so that, for instance, a
    party whose [PartyDetails] is null makes it raise. *)
Theorem C5_defendant_rule (nome0 : pystr) (m : list (pystr * json)) :
  (court_is_criminal (JObj m) = false ->
   forall n : json, proc_is_reu n (JObj m) = inr false) /\
  (proc_is_reu (JStr nome0) (JObj m) = inr true ->
   court_is_criminal (JObj m) = true /\
   exists parte, In parte (parties_of (JObj m)) /\
                 spec_party_matches nome0 parte = true) /\
  (lawsuit_typed (JObj m) = true ->
   (exists b, proc_is_reu (JStr nome0) (JObj m) = inr b) /\
   (proc_is_reu (JStr nome0) (JObj m) = inr true <->
    court_is_criminal (JObj m) = true /\
    exists parte, In parte (parties_of (JObj m)) /\
                  spec_party_matches nome0 parte = true)) /\
  (forall parte,
      (exists b, parte_is_reu (JStr nome0) parte = inr b) <->
      party_typed parte = true).
Proof.
  split; [| split; [apply proc_is_reu_sound | split]].
  - intros Hc n. unfold proc_is_reu. cbn [py_get bind ret].
    rewrite court_is_criminal_eq, Hc. reflexivity.
  - intros Ht. pose proof (proc_is_reu_typed nome0 m Ht) as E.
    split; [eauto |]. split; [apply proc_is_reu_sound |].
    intros (Hc & parte & Hin & Hm). rewrite E. f_equal.
    unfold spec_is_defendant. rewrite Hc.
    apply existsb_exists. eauto.
  - intros parte. split.
    + intros [b E]. exact (parte_is_reu_returns _ _ E).
    + intros Ht. rewrite (parte_is_reu_typed nome0 parte Ht). eauto.
Qed.

(** With a string for the person's name, well-typed lawsuits that fail
    the rule are all left out, and nothing raises. *)
Lemma filter_reu_none nome0 lawsuits :
  Forall (fun proc => lawsuit_typed proc = true /\
                      spec_is_defendant nome0 proc = false) lawsuits ->
  filter_reu (JStr nome0) lawsuits = inr [].
Proof.
  induction 1 as [| proc rest [Ht Hs] _ IH]; [reflexivity |].
  cbn [filter_reu].
  destruct proc as [| ? | ? | ? | ? | ? | m]; try discriminate.
  rewrite (proc_is_reu_typed nome0 m Ht), Hs. cbn [bind ret].
  rewrite IH. reflexivity.
Qed.

(** C2, as amended.  On a payload with a non-empty result entry:
    (1) when the defendant filter runs to its end and selects no lawsuit,
    the keyword classifier answers "not absolved" ([foi_absolvido] is
    [False], not [None]), with zero counts and status [sucesso];
    (2) when the filter raises on an ill-typed entry (a party whose name
    is null, say), the answer is unknown ([None]) with zero counts and
    status [erro], whatever the other lawsuits hold;
    (3) the filter runs to its end and selects nothing whenever the name
    of the person is a string and every lawsuit is well typed and fails
    the defendant rule. *)
Theorem C2_no_qualifying_lawsuit_is_not_absolved bdc_data cpf0 :
  no_result bdc_data = inr false ->
  let r := analyze_absolution bdc_data cpf0 in
  (processos_criminais bdc_data = inr [] ->
   foi_absolvido r = Some false /\
   total_processos_criminais r = 0 /\
   total_absolvicoes r = 0 /\
   detalhes_absolvicoes r = [] /\
   status r = sucesso) /\
  (forall e,
      processos_criminais bdc_data = inl e ->
      foi_absolvido r = None /\
      total_processos_criminais r = 0 /\
      total_absolvicoes r = 0 /\
      detalhes_absolvicoes r = [] /\
      status r = erro e) /\
  (forall nome0 lawsuits,
      pessoa_nome_lawsuits bdc_data = inr (JStr nome0, lawsuits) ->
      Forall (fun proc => lawsuit_typed proc = true /\
                          spec_is_defendant nome0 proc = false) lawsuits ->
      processos_criminais bdc_data = inr []).
Proof.
  intros Hnr. cbv zeta.
  unfold analyze_absolution, analyze_absolution_try, processos_criminais.
  rewrite Hnr. cbn [bind].
  destruct (pessoa_nome_lawsuits bdc_data) as [e | [nome1 lawsuits1]];
    cbn [bind fst snd].
  - split; [discriminate |]. split; [| discriminate].
    intros e' E. injection E as <-. repeat split.
  - split; [intros Hq; rewrite Hq; repeat split |].
    split; [intros e Hq; rewrite Hq; repeat split |].
    intros nome0 lawsuits E Hall. injection E as -> ->.
    exact (@filter_reu_none nome0 lawsuits Hall).
Qed.
End DefendantFilter.

(** C5, the claim as worded fails: the lawsuit is CRIMINAL and its second
    party is the person as defendant, but the first party has a null
    name, [.strip()] raises and the person is not counted. *)
Lemma C5_counterexample :
  ~ (forall (nome0 : pystr) (proc : json),
        proc_is_reu (H := latin1) (JStr nome0) proc = inr true <->
        court_is_criminal proc = true /\
        exists parte, In parte (parties_of proc) /\
                      spec_party_matches (H := latin1) nome0 parte = true).
Proof.
  intros Hclaim.
  destruct (Hclaim (u "Joao Silva") Ex.autor_sem_nome) as [_ Hback].
  assert (E : proc_is_reu (H := latin1) (JStr (u "Joao Silva"))
                          Ex.autor_sem_nome = inr true).
  { apply Hback. split; [reflexivity |].
    exists Ex.reu. split; [right; left; reflexivity | reflexivity]. }
  vm_compute in E. discriminate.
Qed.

Lemma C5_witness :
  lawsuit_typed Ex.absolvido = true /\
  proc_is_reu (H := latin1) (JStr (u "Joao Silva")) Ex.absolvido = inr true /\
  proc_is_reu (H := latin1) (JStr (u "Joao Silva")) Ex.civel = inr false.
Proof.
  split; [reflexivity |]. split.
  - refine (proj2 (proj2 (proj1 (proj2 (proj2
              (@C5_defendant_rule latin1 (u "Joao Silva")
                                  Ex.absolvido_campos))) eq_refl)) _).
    split; [reflexivity |].
    exists Ex.reu. split; [left; reflexivity | reflexivity].
  - exact (proj1 (@C5_defendant_rule latin1 (u "Joao Silva")
                                     Ex.civel_campos)
                 eq_refl (JStr (u "Joao Silva"))).
Defined.

(** C2, the claim as worded fails: a payload with one person and no
    lawsuit at all gets [False], not [None]. *)
Lemma C2_counterexample :
  ~ (forall bdc_data cpf0,
        no_result bdc_data = inr false ->
        processos_criminais (H := latin1) bdc_data = inr [] ->
        foi_absolvido (analyze_absolution (H := latin1) bdc_data cpf0)
        = None).
Proof.
  intros Hclaim.
  specialize (Hclaim (Ex.payload []) Ex.cpf_ok eq_refl eq_refl).
  vm_compute in Hclaim. discriminate.
Qed.

Lemma C2_witness :
  no_result (Ex.payload [Ex.civel]) = inr false /\
  foi_absolvido (analyze_absolution (H := latin1)
                   (Ex.payload [Ex.civel]) Ex.cpf_ok) = Some false /\
  no_result (Ex.payload [Ex.criminal_sem_nome]) = inr false /\
  foi_absolvido (analyze_absolution (H := latin1)
                   (Ex.payload [Ex.criminal_sem_nome]) Ex.cpf_ok) = None.
Proof.
  split; [reflexivity |]. split.
  - refine (proj1 (proj1 (@C2_no_qualifying_lawsuit_is_not_absolved
                            latin1 (Ex.payload [Ex.civel]) Ex.cpf_ok
                            eq_refl) _)).
    refine (proj2 (proj2 (@C2_no_qualifying_lawsuit_is_not_absolved
                            latin1 (Ex.payload [Ex.civel]) Ex.cpf_ok
                            eq_refl))
                  (u "Joao Silva") [Ex.civel] eq_refl _).
    repeat constructor.
  - split; [reflexivity |].
    exact (proj1 (proj1 (proj2 (@C2_no_qualifying_lawsuit_is_not_absolved
                                  latin1 (Ex.payload [Ex.criminal_sem_nome])
                                  Ex.cpf_ok eq_refl))
                        AttributeError eq_refl)).
Defined.

(* ------------------------------------------------------------------ *)
(** ** The scan of one lawsuit *)

Section Scan.
Context `{PyBuiltins}.

Lemma last_is_snoc absolvicoes f numero :
  last_is (absolvicoes ++ [f]) numero = py_eq (processo f) numero.
Proof. unfold last_is. rewrite rev_app_distr. reflexivity. Qed.

Lemma new_finding_fields proc numero campo f :
  new_finding proc numero campo = inr f ->
  processo f = numero /\
  tipo_decisao f = _classify_absolution_type campo /\
  trecho_decisao f = trecho campo.
Proof.
  unfold new_finding. intros E.
  repeat inv_bind E. injection E as <-. auto.
Qed.

(** The intended behaviour, which holds as long as the last finding
    recorded so far does not carry this lawsuit's case number: the first
    non-blank string field with a keyword yields the one finding of the
    lawsuit, and the fields after it are not scanned. *)
Lemma scan_campos_first_match proc numero before campo after absolvicoes f :
  (forall s, In (JStr s) before ->
             py_strip s = [] \/ has_keyword s = false) ->
  py_strip campo <> [] ->
  has_keyword campo = true ->
  last_is absolvicoes numero = false ->
  py_eq numero numero = true ->
  new_finding proc numero campo = inr f ->
  scan_campos proc numero (before ++ JStr campo :: after) absolvicoes
  = inr (absolvicoes ++ [f]).
Proof.
  intros Hbefore Hnb Hkw Hlast Hrefl Hf.
  induction before as [| c rest IH]; simpl.
  - destruct (py_strip campo) eqn:Es; [contradiction | simpl].
    rewrite Hkw, Hf. simpl. rewrite last_is_snoc.
    destruct (new_finding_fields _ _ _ Hf) as (-> & _ & _).
    rewrite Hrefl. reflexivity.
  - assert (Hrest : forall s, In (JStr s) rest ->
                              py_strip s = [] \/ has_keyword s = false)
      by (intros s Hs; apply Hbefore; right; exact Hs).
    destruct c as [| b | z | fl | s | l | m]; auto.
    destruct (Hbefore s (or_introl eq_refl)) as [Eb | Ek].
    + rewrite Eb. simpl. auto.
    + destruct (py_strip s); simpl; auto.
      rewrite Ek. simpl. rewrite Hlast. auto.
Qed.
(** A lawsuit adds at most one finding, as long as its case number equals
    itself (always so for a string, a number or a missing number). *)
Lemma scan_campos_at_most_one proc numero campos : forall absolvicoes out,
  py_eq numero numero = true ->
  scan_campos proc numero campos absolvicoes = inr out ->
  out = absolvicoes \/ exists f, out = absolvicoes ++ [f].
Proof.
  induction campos as [| c rest IH]; intros absolvicoes out Hrefl E.
  - injection E as <-. left. reflexivity.
  - destruct c as [| b | z | fl | s | l | m]; simpl in E; eauto.
    destruct (py_strip s); simpl in E; eauto.
    destruct (has_keyword s).
    + destruct (new_finding proc numero s) as [e | f] eqn:Ef;
        simpl in E; [discriminate |].
      rewrite last_is_snoc in E.
      destruct (new_finding_fields _ _ _ Ef) as (Ep & _ & _).
      rewrite Ep, Hrefl in E. injection E as <-. eauto.
    + simpl in E. destruct (last_is absolvicoes numero).
      * injection E as <-. left. reflexivity.
      * eauto.
Qed.
End Scan.

(** C4, where the code departs from the claim.  The person is defendant
    in two criminal lawsuits that carry no case number.  The first is
    decided by absolution.  The second has no keyword in [Decision] and
    "arquivado" in [Content], a scanned field; scanned alone it yields an
    archival finding.  After the first lawsuit, the scan of the second
    stops at [Decision], because the last finding recorded carries the
    same case number, and its keyword is never seen: one finding for two
    lawsuits. *)
Theorem C4_shared_case_number_stops_scan :
  let both := analyze_absolution (H := latin1)
                (Ex.payload [Ex.absolvido; Ex.arquivado]) Ex.cpf_ok in
  let alone := analyze_absolution (H := latin1)
                 (Ex.payload [Ex.arquivado]) Ex.cpf_ok in
  total_processos_criminais both = 2 /\
  (exists campos,
      campos_decisao Ex.arquivado = inr campos /\
      In (JStr (u "Inquerito arquivado")) campos /\
      has_keyword (H := latin1) (u "Inquerito arquivado") = true) /\
  List.map tipo_decisao (detalhes_absolvicoes alone) = [Arquivamento] /\
  total_absolvicoes both = 1 /\
  List.map tipo_decisao (detalhes_absolvicoes both) = [Absolvicao].
Proof.
  cbv zeta. split; [reflexivity |]. split.
  - eexists. split; [reflexivity |]. split; [| reflexivity].
    right; left; reflexivity.
  - repeat split; reflexivity.
Qed.

(* ------------------------------------------------------------------ *)
(** ** The contextual classifier *)

Section Contextual.
Context `{PyBuiltins}.
Variable llm : LLM.service.

Lemma build_request_person nome0 cpf0 texto :
  LLM.build_request texto (JObj [(Lit.nome, nome0); (Lit.cpf, JStr cpf0)])
  = inr (request_for nome0 cpf0 texto).
Proof. reflexivity. Qed.

Lemma strip_truthy (s : pystr) :
  truthy (JStr (py_strip s)) = false <-> py_strip s = [].
Proof.
  simpl. destruct (py_strip s); split; intros E;
    congruence || reflexivity.
Qed.

Lemma from_ia_object cpf0 nome0 total o :
  LLM.from_ia cpf0 nome0 total (JObj o)
  = inr (llm_sucesso cpf0 nome0 total
           (value_or o Lit.foi_absolvido JNull)
           (value_or o Lit.confianca_analise (JInt 0))
           (value_or o Lit.justificativa (JStr []))
           (value_or o Lit.detalhes_ia (JStr []))).
Proof. reflexivity. Qed.

(** C7.  [analyze_with_llm]: a narrative that is empty or all
    whitespace gives the "no decision available" dict without a request
    to the service; on a non-blank narrative a failing call, a body
    that does not parse and a failure while the prompt is built all
    give the dict with unknown outcome, confidence 0 and the failure
    detail in the rationale.  [analyze_absolution_with_llm] carries
    these values into its result, so nothing is raised to the caller. *)
Theorem C7_blank_narrative_and_service_failure (log : list LLM.request) :
  (forall texto dados,
      py_strip texto = [] ->
      LLM.analyze_with_llm llm log texto dados
      = (LLM.ia_dict JNull (JInt 0) (JStr LLM.Nenhuma_decisao)
                     (JStr LLM.Sem_dados_suficientes), log)) /\
  (forall texto dados req detail,
      py_strip texto <> [] ->
      LLM.build_request texto dados = inr req ->
      llm log req = LLM.CallFails detail \/
      llm log req = LLM.BodyUnparseable detail ->
      LLM.analyze_with_llm llm log texto dados
      = (LLM.ia_dict JNull (JInt 0)
                     (JStr (LLM.Erro_na_analise_IA ++ detail))
                     (JStr LLM.Falha_no_processamento), log ++ [req])) /\
  (forall texto dados e,
      py_strip texto <> [] ->
      LLM.build_request texto dados = inl e ->
      LLM.analyze_with_llm llm log texto dados
      = (LLM.ia_dict JNull (JInt 0)
                     (JStr (LLM.Erro_na_analise_IA ++ exn_str e))
                     (JStr LLM.Falha_no_processamento), log)) /\
  (forall bdc_data cpf0 nome0 total texto,
      LLM.prepare bdc_data = inr (Some (nome0, total, texto)) ->
      (py_strip texto = [] ->
       LLM.analyze_absolution_with_llm llm log bdc_data cpf0
       = (llm_sucesso cpf0 nome0 total JNull (JInt 0)
                      (JStr LLM.Nenhuma_decisao)
                      (JStr LLM.Sem_dados_suficientes), log)) /\
      (forall detail,
          py_strip texto <> [] ->
          llm log (request_for nome0 cpf0 texto) = LLM.CallFails detail \/
          llm log (request_for nome0 cpf0 texto)
          = LLM.BodyUnparseable detail ->
          LLM.analyze_absolution_with_llm llm log bdc_data cpf0
          = (llm_sucesso cpf0 nome0 total JNull (JInt 0)
                         (JStr (LLM.Erro_na_analise_IA ++ detail))
                         (JStr LLM.Falha_no_processamento),
             log ++ [request_for nome0 cpf0 texto]))).
Proof.
  assert (Hblank : forall texto dados,
             py_strip texto = [] ->
             LLM.analyze_with_llm llm log texto dados
             = (LLM.ia_dict JNull (JInt 0) (JStr LLM.Nenhuma_decisao)
                            (JStr LLM.Sem_dados_suficientes), log)).
  { intros texto dados E. unfold LLM.analyze_with_llm.
    rewrite (proj2 (strip_truthy texto) E). reflexivity. }
  assert (Hfail : forall texto dados req detail,
             py_strip texto <> [] ->
             LLM.build_request texto dados = inr req ->
             llm log req = LLM.CallFails detail \/
             llm log req = LLM.BodyUnparseable detail ->
             LLM.analyze_with_llm llm log texto dados
             = (LLM.ia_failure detail, log ++ [req])).
  { intros texto dados req detail Hnb Hreq Hrep.
    unfold LLM.analyze_with_llm.
    destruct (truthy (JStr (py_strip texto))) eqn:Et;
      [| apply strip_truthy in Et; contradiction].
    simpl. rewrite Hreq. destruct Hrep as [-> | ->]; reflexivity. }
  split; [exact Hblank |]. split; [exact Hfail |]. split.
  - intros texto dados e Hnb Hreq. unfold LLM.analyze_with_llm.
    destruct (truthy (JStr (py_strip texto))) eqn:Et;
      [| apply strip_truthy in Et; contradiction].
    simpl. rewrite Hreq. reflexivity.
  - intros bdc_data cpf0 nome0 total texto Hprep. split.
    + intros E. unfold LLM.analyze_absolution_with_llm.
      rewrite Hprep, (Hblank _ _ E). reflexivity.
    + intros detail Hnb Hrep. unfold LLM.analyze_absolution_with_llm.
      rewrite Hprep.
      rewrite (Hfail _ _ _ detail Hnb (build_request_person _ _ _) Hrep).
      reflexivity.
Qed.

(** C10.  When the narrative is not blank and the body of the answer
    parses as a JSON object, the four values are copied from it with
    [.get] and nothing else: a missing outcome is [None], a missing
    confidence is [0], a missing rationale or detail is the empty
    string, the status is [sucesso].  So an answer whose outcome is the
    string "talvez" and whose confidence is 150 reaches the result
    unchanged. *)
Theorem C10_parsed_answer_is_copied (log : list LLM.request)
        bdc_data cpf0 nome0 total texto :
  LLM.prepare bdc_data = inr (Some (nome0, total, texto)) ->
  py_strip texto <> [] ->
  (forall o,
      llm log (request_for nome0 cpf0 texto) = LLM.BodyJson (JObj o) ->
      LLM.analyze_absolution_with_llm llm log bdc_data cpf0
      = (llm_sucesso cpf0 nome0 total
           (value_or o Lit.foi_absolvido JNull)
           (value_or o Lit.confianca_analise (JInt 0))
           (value_or o Lit.justificativa (JStr []))
           (value_or o Lit.detalhes_ia (JStr [])),
         log ++ [request_for nome0 cpf0 texto])) /\
  (llm log (request_for nome0 cpf0 texto)
   = LLM.BodyJson (JObj Ex.fora_do_contrato) ->
   LLM.analyze_absolution_with_llm llm log bdc_data cpf0
   = (llm_sucesso cpf0 nome0 total (Ex.str "talvez") (JInt 150)
                  (JStr []) (JStr []),
      log ++ [request_for nome0 cpf0 texto])).
Proof.
  intros Hprep Hnb.
  assert (Hcopy : forall o,
             llm log (request_for nome0 cpf0 texto)
             = LLM.BodyJson (JObj o) ->
             LLM.analyze_absolution_with_llm llm log bdc_data cpf0
             = (llm_sucesso cpf0 nome0 total
                  (value_or o Lit.foi_absolvido JNull)
                  (value_or o Lit.confianca_analise (JInt 0))
                  (value_or o Lit.justificativa (JStr []))
                  (value_or o Lit.detalhes_ia (JStr [])),
                log ++ [request_for nome0 cpf0 texto])).
  { intros o Hrep. unfold LLM.analyze_absolution_with_llm.
    rewrite Hprep. unfold LLM.analyze_with_llm.
    destruct (truthy (JStr (py_strip texto))) eqn:Et;
      [| apply strip_truthy in Et; contradiction].
    simpl negb. cbv iota. rewrite build_request_person, Hrep.
    rewrite from_ia_object. reflexivity. }
  split; [exact Hcopy |].
  intros Hrep. rewrite (Hcopy _ Hrep). reflexivity.
Qed.
End Contextual.

Lemma C7_witness :
  (* one person, no lawsuit: the narrative is empty, no request is sent *)
  LLM.analyze_absolution_with_llm (H := latin1)
    (Ex.ia (LLM.CallFails (u "timeout"))) [] (Ex.payload []) Ex.cpf_ok
  = (llm_sucesso Ex.cpf_ok (Ex.str "Joao Silva") 0 JNull (JInt 0)
                 (JStr LLM.Nenhuma_decisao)
                 (JStr LLM.Sem_dados_suficientes), []) /\
  (* one qualifying lawsuit with text, and the call fails *)
  fst (LLM.analyze_absolution_with_llm (H := latin1)
         (Ex.ia (LLM.CallFails (u "timeout"))) []
         (Ex.payload [Ex.absolvido]) Ex.cpf_ok)
  = llm_sucesso Ex.cpf_ok (Ex.str "Joao Silva") 1 JNull (JInt 0)
                (JStr (LLM.Erro_na_analise_IA ++ u "timeout"))
                (JStr LLM.Falha_no_processamento).
Proof.
  pose proof (@C7_blank_narrative_and_service_failure
                latin1 (Ex.ia (LLM.CallFails (u "timeout"))) [])
    as (_ & _ & _ & Hc).
  split.
  - refine (proj1 (Hc (Ex.payload []) Ex.cpf_ok _ _ _ eq_refl) eq_refl).
  - erewrite (proj2 (Hc (Ex.payload [Ex.absolvido]) Ex.cpf_ok _ _ _ eq_refl)
                (u "timeout")).
    + reflexivity.
    + vm_compute. discriminate.
    + left. reflexivity.
Defined.

Lemma C10_witness :
  fst (LLM.analyze_absolution_with_llm (H := latin1)
         (Ex.ia (LLM.BodyJson (JObj Ex.fora_do_contrato))) []
         (Ex.payload [Ex.absolvido]) Ex.cpf_ok)
  = llm_sucesso Ex.cpf_ok (Ex.str "Joao Silva") 1
                (Ex.str "talvez") (JInt 150) (JStr []) (JStr []).
Proof.
  erewrite (proj2 (@C10_parsed_answer_is_copied
                     latin1 (Ex.ia (LLM.BodyJson (JObj Ex.fora_do_contrato)))
                     [] (Ex.payload [Ex.absolvido]) Ex.cpf_ok
                     _ _ _ eq_refl _)).
  - reflexivity.
  - reflexivity.
  Unshelve. vm_compute. discriminate.
Defined.

(* ------------------------------------------------------------------ *)
(** ** The batch loop *)

Section BatchFacts.
Context `{PyBuiltins}.
Variables R W C : Type.
Variable api_error_result : pystr -> json -> R.
Variable excecao_result : pystr -> exn_text -> R.
Variable classify : W -> json -> pystr -> R * W.
Variable post : nat -> pystr -> http_reply.
Variable cpfs : list pystr.
Variable progress_callback : option (callback R C).

Local Abbreviation total := (List.length cpfs).
Local Abbreviation cpf_of_task := (fun k => nth k cpfs []).
Local Abbreviation bdc_of_task k :=
  (fst (fetch_single_cpf_data (post k) (nth k cpfs []))).
Local Abbreviation turn :=
  (step api_error_result excecao_result classify progress_callback
        (List.length cpfs)).
Local Abbreviation run_from :=
  (loop api_error_result excecao_result classify post cpfs
        progress_callback).

(** A turn only appends to [results]. *)
Lemma step_appends i cpf0 bdc_data (st : run R W C) :
  exists extra,
    results (turn i cpf0 bdc_data st) = results st ++ extra.
Proof.
  unfold step.
  destruct (unit_result api_error_result classify (world st)
                        bdc_data cpf0) as [e | [r w']]; simpl.
  - eauto.
  - destruct progress_callback as [cb |]; simpl; [| eauto].
    destruct (cb (cb_state st) i total r) as [s' [exc |]]; simpl.
    + exists [r; excecao_result cpf0 exc]. rewrite <- app_assoc.
      reflexivity.
    + eauto.
Qed.

Lemma loop_keeps order : forall i (st : run R W C) r,
  In r (results st) -> In r (results (run_from order i st)).
Proof.
  induction order as [| k rest IH]; intros i st r Hin; [exact Hin |].
  simpl. apply IH.
  destruct (step_appends i (nth k cpfs []) (bdc_of_task k) st)
    as [extra E].
  rewrite E. apply in_or_app. left. exact Hin.
Qed.

(** A unit whose result does not depend on what was classified before
    it leaves that result in the output, whenever it completes. *)
Lemma loop_has_result order k r :
  In k order ->
  (forall w, unit_result api_error_result classify w
                         (bdc_of_task k) (nth k cpfs []) = inr (r, w)) ->
  forall i (st : run R W C), In r (results (run_from order i st)).
Proof.
  intros Hin Hunit.
  induction order as [| k' rest IH]; intros i st; [contradiction |].
  simpl. destruct Hin as [-> | Hin]; [| apply IH; exact Hin].
  apply loop_keeps.
  unfold step. rewrite Hunit.
  destruct progress_callback as [cb |]; simpl.
  - destruct (cb (cb_state st) i (List.length cpfs) r)
      as [s' [exc |]]; simpl.
    + rewrite <- app_assoc. apply in_or_app. right. left. reflexivity.
    + apply in_or_app. right. left. reflexivity.
  - apply in_or_app. right. left. reflexivity.
Qed.

(** A fetched payload that is a dict never makes the [try] block
    raise before the callback. *)
Lemma unit_result_dict w m cpf0 :
  exists r w', unit_result api_error_result classify w (JObj m) cpf0
               = inr (r, w').
Proof.
  unfold unit_result, py_in, py_item.
  destruct (lookup Lit.error m) as [v |]; simpl.
  - eauto.
  - destruct (classify w (JObj m) cpf0) as [r w']. eauto.
Qed.

Lemma step_calls_dict cb i cpf0 m (st : run R W C) :
  progress_callback = Some cb ->
  exists r,
    calls (turn i cpf0 (JObj m) st) = calls st ++ [(i, total, r)] /\
    In r (results (turn i cpf0 (JObj m) st)).
Proof.
  intros Ecb. unfold step.
  destruct (unit_result_dict (world st) m cpf0) as (r & w' & ->).
  rewrite Ecb. exists r.
  destruct (cb (cb_state st) i total r) as [s' [exc |]]; simpl.
  - split; [reflexivity |]. rewrite <- app_assoc.
    apply in_or_app. right. left. reflexivity.
  - split; [reflexivity |]. apply in_or_app. right. left. reflexivity.
Qed.

(** Where the claim C9 holds: when every fetched payload is a dict, a
    callback, raising or not, is called once per turn, with the numbers
    [i], [i+1], ... in this order, with the batch size, and with a
    result that is in the output. *)
Lemma loop_calls_dict cb order : forall i (st : run R W C),
  progress_callback = Some cb ->
  (forall k, In k order -> exists m, bdc_of_task k = JObj m) ->
  List.map (fun c => fst (fst c)) (calls (run_from order i st))
  = List.map (fun c => fst (fst c)) (calls st)
    ++ seq i (List.length order) /\
  (forall c, In c (calls (run_from order i st)) ->
             In c (calls st) \/
             (snd (fst c) = total /\
              In (snd c) (results (run_from order i st)))).
Proof.
  induction order as [| k rest IH]; intros i st Ecb Hd;
    cbn [loop List.length seq].
  - rewrite app_nil_r. auto.
  - destruct (Hd k (or_introl eq_refl)) as [m Em].
    assert (Hd' : forall k', In k' rest ->
                             exists m', bdc_of_task k' = JObj m')
      by (intros k' Hk; apply Hd; right; exact Hk).
    rewrite Em.
    destruct (step_calls_dict i (nth k cpfs []) m st Ecb)
      as (r & Ec & Hr).
    destruct (IH (S i) (turn i (nth k cpfs []) (JObj m) st) Ecb Hd')
      as [Hn Hc].
    split.
    + rewrite Hn, Ec, map_app, <- app_assoc. reflexivity.
    + intros c Hin. destruct (Hc c Hin) as [Hold | Hnew]; [| auto].
      rewrite Ec in Hold. apply in_app_or in Hold as [Hold | [<- | []]];
        [auto |].
      right. split; [reflexivity |]. cbn [snd].
      apply loop_keeps. exact Hr.
Qed.

(** The identifier a result dict carries. *)
Variable cpf_of : R -> pystr.
Hypothesis cpf_of_api : forall c d, cpf_of (api_error_result c d) = c.
Hypothesis cpf_of_excecao : forall c e, cpf_of (excecao_result c e) = c.
Hypothesis cpf_of_classify :
  forall w b c, cpf_of (fst (classify w b c)) = c.

Lemma unit_result_cpf w bdc_data cpf0 r w' :
  unit_result api_error_result classify w bdc_data cpf0 = inr (r, w') ->
  cpf_of r = cpf0.
Proof.
  unfold unit_result. intros E. inv_bind E.
  destruct a.
  - inv_bind E. injection E as <- _. apply cpf_of_api.
  - injection E as E. rewrite <- (cpf_of_classify w bdc_data cpf0), E.
    reflexivity.
Qed.

(** With a callback that returns, each turn appends one result, and it
    carries the identifier of the task. *)
Lemma step_one_result i cpf0 bdc_data (st : run R W C) :
  callback_returns progress_callback ->
  List.map cpf_of (results (turn i cpf0 bdc_data st))
  = List.map cpf_of (results st) ++ [cpf0].
Proof.
  intros Hret. unfold step.
  destruct (unit_result api_error_result classify (world st)
                        bdc_data cpf0) as [e | [r w']] eqn:Eu; simpl.
  - rewrite map_app. simpl. rewrite cpf_of_excecao. reflexivity.
  - apply unit_result_cpf in Eu.
    unfold callback_returns in Hret.
    destruct progress_callback as [cb |]; simpl.
    + specialize (Hret (cb_state st) i total r).
      destruct (cb (cb_state st) i total r) as [s' [exc |]];
        simpl in *; [discriminate |].
      rewrite map_app. simpl. rewrite Eu. reflexivity.
    + rewrite map_app. simpl. rewrite Eu. reflexivity.
Qed.

Lemma loop_identifiers order : forall i (st : run R W C),
  callback_returns progress_callback ->
  List.map cpf_of (results (run_from order i st))
  = List.map cpf_of (results st) ++ List.map cpf_of_task order.
Proof.
  induction order as [| k rest IH]; intros i st Hret; simpl.
  - rewrite app_nil_r. reflexivity.
  - rewrite IH by exact Hret.
      rewrite step_one_result by exact Hret.
    rewrite <- app_assoc. reflexivity.
Qed.

Lemma tasks_in_order : List.map cpf_of_task (seq 0 total) = cpfs.
Proof.
  apply nth_ext with (d := []) (d' := []).
  - rewrite length_map, length_seq. reflexivity.
  - intros n Hn. rewrite length_map, length_seq in Hn.
    rewrite (nth_indep _ [] (nth 0 cpfs [])).
    + rewrite (map_nth (fun k => nth k cpfs []) (seq 0 _) 0 n).
      rewrite seq_nth by exact Hn. reflexivity.
    + rewrite length_map, length_seq. exact Hn.
Qed.

(** Where the first sentence of the claim C1 holds: with no callback,
    or one that returns, every schedule gives one result per identifier
    and the identifiers of the results are those of the input. *)
Lemma batch_preserves_identifiers order s0 w0 :
  schedule total order ->
  callback_returns progress_callback ->
  let out := results (process_batch_with api_error_result excecao_result
                        classify post order cpfs progress_callback s0 w0) in
  List.length out = List.length cpfs /\
  Permutation (List.map cpf_of out) cpfs.
Proof.
  intros Hs Hret out.
  assert (E : List.map cpf_of out = List.map cpf_of_task order).
  { unfold out, process_batch_with.
    rewrite loop_identifiers by exact Hret. reflexivity. }
  assert (P : Permutation (List.map cpf_of out) cpfs).
  { rewrite E. eapply Permutation_trans.
    - apply Permutation_map. exact Hs.
    - rewrite tasks_in_order. apply Permutation_refl. }
  split; [| exact P].
  rewrite <- (length_map cpf_of out). apply Permutation_length. exact P.
Qed.
End BatchFacts.

(* ------------------------------------------------------------------ *)
(** ** Identifiers that are not valid *)

Section InvalidIdentifier.
Context `{PyBuiltins}.

(** C6.  An identifier that does not keep exactly 11 digits gives the
    "CPF inválido" error dict with no query sent to the provider; the
    batch turns that dict into the [erro_api] result (unknown outcome,
    zero counts) whatever the classifier is and without changing what
    the classifier can change; and that result is in the output of
    [process_batch] for every schedule and every callback. *)
Theorem C6_invalid_identifier_short_circuits (cpf0 : pystr) :
  List.length (List.filter is_decimal cpf0) <> 11 ->
  (forall post,
      fetch_single_cpf_data post cpf0
      = (error_dict cpf0 Lit.CPF_invalido, [])) /\
  (forall (R W : Type) (api_error_result : pystr -> json -> R)
          (classify : W -> json -> pystr -> R * W) (w : W) post,
      unit_result api_error_result classify w
                  (fst (fetch_single_cpf_data post cpf0)) cpf0
      = inr (api_error_result cpf0 (JStr Lit.CPF_invalido), w)) /\
  (forall (C : Type) post order (cpfs : list pystr)
          (progress_callback : option (callback Result C)) s0 k,
      schedule (List.length cpfs) order ->
      k < List.length cpfs ->
      nth k cpfs [] = cpf0 ->
      In {| cpf := cpf0;
            nome := JStr Lit.Erro_na_consulta;
            foi_absolvido := None;
            total_processos_criminais := 0;
            total_absolvicoes := 0;
            detalhes_absolvicoes := [];
            status := erro_api (JStr Lit.CPF_invalido) |}
         (results (process_batch post order cpfs progress_callback
                                 s0 tt))).
Proof.
  intros Hbad.
  assert (Hfetch : forall post,
             fetch_single_cpf_data post cpf0
             = (error_dict cpf0 Lit.CPF_invalido, [])).
  { intros post. unfold fetch_single_cpf_data.
    destruct (Nat.eqb_spec (List.length (List.filter is_decimal cpf0)) 11)
      as [E | _]; [contradiction | reflexivity]. }
  assert (Hunit : forall (R W : Type) (api_error_result : pystr -> json -> R)
                         (classify : W -> json -> pystr -> R * W)
                         (w : W) post,
             unit_result api_error_result classify w
                         (fst (fetch_single_cpf_data post cpf0)) cpf0
             = inr (api_error_result cpf0 (JStr Lit.CPF_invalido), w)).
  { intros. rewrite Hfetch. reflexivity. }
  split; [exact Hfetch |]. split; [exact Hunit |].
  intros C post order cpfs pcb s0 k Hs Hk Hnth.
  unfold process_batch, process_batch_with.
  apply loop_has_result with (k := k).
  - apply Permutation_in with (l := seq 0 (List.length cpfs)).
    + apply Permutation_sym. exact Hs.
    + apply in_seq. lia.
  - intros w. cbv beta. rewrite Hnth. apply Hunit.
Qed.
End InvalidIdentifier.

Lemma C6_witness :
  List.length (List.filter (is_decimal (PyBuiltins := latin1)) Ex.cpf_curto)
  <> 11 /\
  fetch_single_cpf_data (H := latin1)
                        (Ex.sempre (HttpJson (Ex.payload [])) 0)
                        Ex.cpf_curto
  = (error_dict Ex.cpf_curto Lit.CPF_invalido, []).
Proof.
  assert (Hbad : List.length
                   (List.filter (is_decimal (PyBuiltins := latin1))
                                Ex.cpf_curto) <> 11)
    by (vm_compute; discriminate).
  split; [exact Hbad |].
  exact (proj1 (@C6_invalid_identifier_short_circuits
                  latin1 Ex.cpf_curto Hbad) _).
Defined.

(* ------------------------------------------------------------------ *)
(** ** The two batches *)

Section TwoBatches.
Context `{PyBuiltins}.

Lemma analyze_absolution_cpf bdc_data cpf0 :
  cpf (analyze_absolution bdc_data cpf0) = cpf0.
Proof.
  unfold analyze_absolution, analyze_absolution_try.
  destruct (no_result bdc_data) as [e | [|]]; simpl; try reflexivity.
  destruct (pessoa_nome_lawsuits bdc_data) as [e | [nome0 lawsuits]];
    simpl; try reflexivity.
  destruct (filter_reu nome0 lawsuits) as [e | procs];
    simpl; try reflexivity.
  destruct (scan_procs procs []) as [e | finds]; reflexivity.
Qed.

Lemma analyze_absolution_with_llm_cpf llm log bdc_data cpf0 :
  LLM.cpf (fst (LLM.analyze_absolution_with_llm llm log bdc_data cpf0))
  = cpf0.
Proof.
  unfold LLM.analyze_absolution_with_llm.
  destruct (LLM.prepare bdc_data) as [e | [[[nome0 total] texto] |]];
    try reflexivity.
  destruct (LLM.analyze_with_llm llm log texto _) as [resultado_ia log'].
  destruct (LLM.from_ia cpf0 nome0 total resultado_ia) as [e | r] eqn:E;
    [reflexivity |].
  unfold LLM.from_ia in E. repeat inv_bind E. injection E as <-.
  reflexivity.
Qed.

(** The keyword batch with no callback or one that returns: as many
    results as identifiers, carrying the same identifiers. *)
Lemma process_batch_preserves_identifiers
      (C : Type) post order (cpfs : list pystr)
      (progress_callback : option (callback Result C)) s0 :
  schedule (List.length cpfs) order ->
  callback_returns progress_callback ->
  let out := results (process_batch post order cpfs progress_callback
                                    s0 tt) in
  List.length out = List.length cpfs /\
  Permutation (List.map cpf out) cpfs.
Proof.
  intros Hs Hret. unfold process_batch.
  apply batch_preserves_identifiers; auto.
  intros w b c. apply analyze_absolution_cpf.
Qed.

(** The same for the contextual batch. *)
Lemma process_batch_llm_preserves_identifiers
      (C : Type) llm post order (cpfs : list pystr)
      (progress_callback : option (callback LLM.Result C)) s0 log :
  schedule (List.length cpfs) order ->
  callback_returns progress_callback ->
  let out := results (process_batch_llm llm post order cpfs
                                        progress_callback s0 log) in
  List.length out = List.length cpfs /\
  Permutation (List.map LLM.cpf out) cpfs.
Proof.
  intros Hs Hret. unfold process_batch_llm.
  apply batch_preserves_identifiers; auto.
  intros w b c. apply analyze_absolution_with_llm_cpf.
Qed.

(** The keyword batch when every task fetched a dict: the callback is
    called with 1, 2, ..., [len(cpfs)], with the batch size, and with a
    result of the output. *)
Lemma process_batch_calls_when_dicts
      (C : Type) post order (cpfs : list pystr)
      (cb : callback Result C) s0 :
  schedule (List.length cpfs) order ->
  (forall k, k < List.length cpfs ->
             exists m, fst (fetch_single_cpf_data (post k) (nth k cpfs []))
                       = JObj m) ->
  let out := process_batch post order cpfs (Some cb) s0 tt in
  List.map (fun c => fst (fst c)) (calls out)
  = seq 1 (List.length cpfs) /\
  (forall c, In c (calls out) ->
             snd (fst c) = List.length cpfs /\
             In (snd c) (results out)).
Proof.
  intros Hs Hd out.
  assert (Hd' : forall k, In k order ->
                          exists m,
                            fst (fetch_single_cpf_data
                                   (post k) (nth k cpfs [])) = JObj m).
  { intros k Hk. apply Hd.
    apply (Permutation_in _ Hs) in Hk. apply in_seq in Hk. lia. }
  unfold out, process_batch, process_batch_with.
  match goal with
  | |- context [loop ?a ?e ?c post cpfs (Some cb) order 1 ?st] =>
      destruct (@loop_calls_dict _ _ _ _ a e c post cpfs (Some cb) cb
                                 order 1 st eq_refl Hd') as [Hn Hc]
  end.
  split.
  - rewrite Hn. simpl. rewrite (Permutation_length Hs), length_seq.
    reflexivity.
  - intros c Hin. destruct (Hc c Hin) as [[] | Hnew]. exact Hnew.
Qed.
(** The same for the contextual batch. *)
Lemma process_batch_llm_calls_when_dicts
      (C : Type) llm post order (cpfs : list pystr)
      (cb : callback LLM.Result C) s0 log :
  schedule (List.length cpfs) order ->
  (forall k, k < List.length cpfs ->
             exists m, fst (fetch_single_cpf_data (post k) (nth k cpfs []))
                       = JObj m) ->
  let out := process_batch_llm llm post order cpfs (Some cb) s0 log in
  List.map (fun c => fst (fst c)) (calls out)
  = seq 1 (List.length cpfs) /\
  (forall c, In c (calls out) ->
             snd (fst c) = List.length cpfs /\
             In (snd c) (results out)).
Proof.
  intros Hs Hd out.
  assert (Hd' : forall k, In k order ->
                          exists m,
                            fst (fetch_single_cpf_data
                                   (post k) (nth k cpfs [])) = JObj m).
  { intros k Hk. apply Hd.
    apply (Permutation_in _ Hs) in Hk. apply in_seq in Hk. lia. }
  unfold out, process_batch_llm, process_batch_with.
  match goal with
  | |- context [loop ?a ?e ?c post cpfs (Some cb) order 1 ?st] =>
      destruct (@loop_calls_dict _ _ _ _ a e c post cpfs (Some cb) cb
                                 order 1 st eq_refl Hd') as [Hn Hc]
  end.
  split.
  - rewrite Hn. simpl. rewrite (Permutation_length Hs), length_seq.
    reflexivity.
  - intros c Hin. destruct (Hc c Hin) as [[] | Hnew]. exact Hnew.
Qed.
End TwoBatches.

(** C1, where the code departs from the claim: one identifier, a
    callback that raises.  The result is appended, then the callback
    raises inside the same [try], and the [except] branch appends a
    second dict for the same identifier: two results for one input, in
    the keyword batch and in the contextual batch. *)
Theorem C1_raising_callback_duplicates_result :
  let post := Ex.sempre (HttpJson (Ex.payload [Ex.absolvido])) in
  let kw := results (process_batch (H := latin1) post [0] [Ex.cpf_ok]
                                   (Some Ex.falha) 0 tt) in
  let ll := results (process_batch_llm (H := latin1)
                       (Ex.ia (LLM.BodyJson (JObj Ex.fora_do_contrato)))
                       post [0] [Ex.cpf_ok] (Some Ex.falha) 0 []) in
  schedule 1 [0] /\
  List.length kw = 2 /\
  List.map cpf kw = [Ex.cpf_ok; Ex.cpf_ok] /\
  List.map status kw = [sucesso; excecao (Message (u "boom"))] /\
  List.length ll = 2 /\
  List.map LLM.cpf ll = [Ex.cpf_ok; Ex.cpf_ok] /\
  List.map LLM.status ll = [sucesso; excecao (Message (u "boom"))].
Proof.
  cbv zeta. split; [apply Permutation_refl |].
  repeat split; vm_compute; reflexivity.
Qed.

(** C9, where the code departs from the claim: the provider answers the
    first task with the JSON body [null].  ["error" in None] raises
    inside the [try], the [except] branch appends the [excecao] result
    and does not call the callback.  With one identifier the callback is
    never called; with two, it is called once, with the number 2. *)
Theorem C9_except_branch_skips_callback :
  let one := process_batch (H := latin1) Ex.nulo_primeiro [0] [Ex.cpf_ok]
                           (Some Ex.conta) 0 tt in
  let two := process_batch (H := latin1) Ex.nulo_primeiro [0; 1]
                           [Ex.cpf_ok; Ex.cpf_ok] (Some Ex.conta) 0 tt in
  let two_llm := process_batch_llm (H := latin1)
                   (Ex.ia (LLM.CallFails (u "timeout")))
                   Ex.nulo_primeiro [0; 1] [Ex.cpf_ok; Ex.cpf_ok]
                   (Some Ex.conta) 0 [] in
  schedule 1 [0] /\ schedule 2 [0; 1] /\
  List.map status (results one) = [excecao (Builtin TypeError)] /\
  calls one = [] /\ cb_state one = 0 /\
  List.map status (results two) = [excecao (Builtin TypeError); sucesso] /\
  List.map (fun c => fst (fst c)) (calls two) = [2] /\
  List.map LLM.status (results two_llm)
  = [excecao (Builtin TypeError); sucesso] /\
  List.map (fun c => fst (fst c)) (calls two_llm) = [2].
Proof.
  cbv zeta. split; [apply Permutation_refl |].
  split; [apply Permutation_refl |].
  repeat split; vm_compute; reflexivity.
Qed.

(* ------------------------------------------------------------------ *)
(** ** Summary statistics *)



(** The arithmetic of the mean raises nothing but [OverflowError]. *)
Lemma int_true_div_error a b e :
  int_true_div a b = inl e -> e = OverflowError.
Proof.
  unfold int_true_div, raise, ret.
  destruct (quotient_overflows a b); congruence.
Qed.

Lemma num_add_error a b e : num_add a b = inl e -> e = OverflowError.
Proof.
  destruct a as [x | f], b as [y | g]; simpl; try discriminate;
    unfold float_of_int; intros E;
    match type of E with
    | bind ?c _ = _ => destruct c as [e' | f'] eqn:Ed; simpl in E;
                       [injection E as <-; exact (int_true_div_error _ _ Ed)
                       | discriminate]
    end.
Qed.

Lemma num_div_error t n e : num_div t n = inl e -> e = OverflowError.
Proof.
  destruct t as [s | f]; simpl; [| discriminate].
  destruct (int_true_div s (Z.of_nat n)) as [e' | f'] eqn:Ed; simpl;
    [| discriminate].
  intros E. injection E as <-. exact (int_true_div_error _ _ Ed).
Qed.

Lemma as_num_error v e : LLMStats.as_num v = inl e -> e = TypeError.
Proof.
  unfold LLMStats.as_num, raise, ret. destruct (as_number v); congruence.
Qed.

Lemma py_sum_error l : forall acc e,
  LLMStats.py_sum acc l = inl e -> e = TypeError \/ e = OverflowError.
Proof.
  induction l as [| v rest IH]; intros acc e E; [discriminate |].
  simpl in E.
  destruct (LLMStats.as_num v) as [e1 | x] eqn:Ev; simpl in E.
  - injection E as <-. left. exact (as_num_error _ Ev).
  - destruct (num_add acc x) as [e2 | acc'] eqn:Ea; simpl in E.
    + injection E as <-. right. exact (num_add_error _ _ Ea).
    + exact (IH _ _ E).
Qed.

Lemma map_as_num_error l : forall e,
  map_exc LLMStats.as_num l = inl e -> e = TypeError.
Proof.
  induction l as [| v rest IH]; intros e E; [discriminate |].
  simpl in E.
  destruct (LLMStats.as_num v) as [e1 | x] eqn:Ev; simpl in E.
  - injection E as <-. exact (as_num_error _ Ev).
  - destruct (map_exc LLMStats.as_num rest) as [e2 | xs] eqn:Er;
      simpl in E; [| discriminate].
    injection E as <-. exact (IH _ eq_refl).
Qed.

Lemma nao_nulas_cons v l :
  nao_nulas (v :: l)
  = if LLMStats.is_None v then nao_nulas l else v :: nao_nulas l.
Proof. unfold nao_nulas. simpl. destruct (LLMStats.is_None v); reflexivity. Qed.

(** The operands [>=] and [<] accept are the confidences that are
    numbers. *)
Lemma as_num_numeric l :
  forallb confianca_numeric l = true <->
  exists cs, map_exc LLMStats.as_num (nao_nulas l) = inr cs.
Proof.
  induction l as [| v rest IH].
  - split; [intros _; exists []; reflexivity | reflexivity].
  - rewrite nao_nulas_cons. cbn [forallb]. split.
    + intros Hn. apply andb_prop in Hn as [Hv Hr].
      destruct (proj1 IH Hr) as [cs E].
      destruct v; try discriminate; cbn [LLMStats.is_None map_exc];
        rewrite E; eexists; reflexivity.
    + intros [cs E]. destruct (LLMStats.is_None v) eqn:En.
      * destruct v; try discriminate. apply IH. eauto.
      * cbn [map_exc] in E. inv_bind E. inv_bind E.
        apply andb_true_intro. split; [| apply IH; eauto].
        destruct v; try reflexivity; cbv in E0; discriminate.
Qed.










(* ------------------------------------------------------------------ *)
(** ** Further properties: fetching *)

Section Fetching.
Context `{PyBuiltins}.

Lemma filter_all_decimal (s : pystr) :
  forallb is_decimal (List.filter is_decimal s) = true.
Proof.
  apply forallb_forall. intros c Hc. apply filter_In in Hc. tauto.
Qed.

(** [fetch_single_cpf_data] sends at most one query, exactly one when the
    identifier keeps 11 digits and none otherwise, and a query it sends is
    those 11 digits: nothing else of the raw identifier reaches the
    provider. *)
Theorem X1_fetch_sends_only_eleven_digits post (cpf0 : pystr) :
  let sent := snd (fetch_single_cpf_data post cpf0) in
  let digits := List.filter is_decimal cpf0 in
  (sent = [] \/ sent = [digits]) /\
  (sent = [digits] <-> List.length digits = 11) /\
  (forall q, In q sent ->
             List.length q = 11 /\ forallb is_decimal q = true).
Proof.
  cbv zeta. unfold fetch_single_cpf_data.
  destruct (Nat.eqb_spec (List.length (List.filter is_decimal cpf0)) 11)
    as [E | E]; cbn [negb].
  - assert (Hq : forall q, In q [List.filter is_decimal cpf0] ->
                           List.length q = 11 /\
                           forallb is_decimal q = true).
    { intros q [<- | []]. split; [exact E | apply filter_all_decimal]. }
    destruct (post (List.filter is_decimal cpf0)); cbn [snd];
      (split; [right; reflexivity | split; [tauto | exact Hq]]).
  - cbn [snd]. split; [left; reflexivity |].
    split; [split; [discriminate | contradiction] |].
    intros q [].
Qed.

(** A request that fails (transport, status, body that is not JSON) on a
    valid identifier gives the error dict with the raw identifier and the
    failure text; the batch turns it into the [erro_api] result, whatever
    the classifier is, and that result is in the output of both batches
    for every schedule and callback. *)
Theorem X2_transport_failure_becomes_erro_api (cpf0 detail : pystr) :
  List.length (List.filter is_decimal cpf0) = 11 ->
  (forall post,
      post (List.filter is_decimal cpf0) = HttpFails detail ->
      fst (fetch_single_cpf_data post cpf0) = error_dict cpf0 detail) /\
  (forall (C : Type) post order (cpfs : list pystr)
          (progress_callback : option (callback Result C)) s0 k,
      schedule (List.length cpfs) order ->
      k < List.length cpfs ->
      nth k cpfs [] = cpf0 ->
      post k (List.filter is_decimal cpf0) = HttpFails detail ->
      In (erro_api_result cpf0 (JStr detail))
         (results (process_batch post order cpfs progress_callback
                                 s0 tt))) /\
  (forall (C : Type) llm post order (cpfs : list pystr)
          (progress_callback : option (callback LLM.Result C)) s0 log k,
      schedule (List.length cpfs) order ->
      k < List.length cpfs ->
      nth k cpfs [] = cpf0 ->
      post k (List.filter is_decimal cpf0) = HttpFails detail ->
      In (erro_api_result_llm cpf0 (JStr detail))
         (results (process_batch_llm llm post order cpfs progress_callback
                                     s0 log))).
Proof.
  intros Hok.
  assert (Hfetch : forall post,
             post (List.filter is_decimal cpf0) = HttpFails detail ->
             fst (fetch_single_cpf_data post cpf0) = error_dict cpf0 detail).
  { intros post Hp. unfold fetch_single_cpf_data.
    rewrite Hok, Hp. reflexivity. }
  assert (Hin : forall k order (cpfs : list pystr),
             schedule (List.length cpfs) order ->
             k < List.length cpfs -> In k order).
  { intros k order cpfs Hs Hk.
    apply Permutation_in with (l := seq 0 (List.length cpfs)).
    - apply Permutation_sym. exact Hs.
    - apply in_seq. lia. }
  split; [exact Hfetch |]. split.
  - intros C post order cpfs pcb s0 k Hs Hk Hnth Hp.
    unfold process_batch, process_batch_with.
    apply loop_has_result with (k := k); [eapply Hin; eauto |].
    intros w. cbv beta. rewrite Hnth, (Hfetch _ Hp). reflexivity.
  - intros C llm post order cpfs pcb s0 log k Hs Hk Hnth Hp.
    unfold process_batch_llm, process_batch_with.
    apply loop_has_result with (k := k); [eapply Hin; eauto |].
    intros w. cbv beta. rewrite Hnth, (Hfetch _ Hp). reflexivity.
Qed.
End Fetching.

Lemma X2_witness :
  List.length (List.filter (is_decimal (PyBuiltins := latin1)) Ex.cpf_ok)
  = 11 /\
  fst (fetch_single_cpf_data (H := latin1)
         (Ex.sempre (HttpFails (u "timeout")) 0) Ex.cpf_ok)
  = error_dict Ex.cpf_ok (u "timeout").
Proof.
  split; [reflexivity |].
  exact (proj1 (@X2_transport_failure_becomes_erro_api
                  latin1 Ex.cpf_ok (u "timeout") eq_refl) _ eq_refl).
Defined.

(* ------------------------------------------------------------------ *)
(** ** Further properties: the batch loop under any callback *)

Section BatchAnyCallback.
Context `{PyBuiltins}.
Variables R W C : Type.
Variable api_error_result : pystr -> json -> R.
Variable excecao_result : pystr -> exn_text -> R.
Variable classify : W -> json -> pystr -> R * W.
Variable post : nat -> pystr -> http_reply.
Variable cpfs : list pystr.
Variable progress_callback : option (callback R C).
Variable cpf_of : R -> pystr.
Hypothesis cpf_of_api : forall c d, cpf_of (api_error_result c d) = c.
Hypothesis cpf_of_excecao : forall c e, cpf_of (excecao_result c e) = c.
Hypothesis cpf_of_classify :
  forall w b c, cpf_of (fst (classify w b c)) = c.

Local Abbreviation turn :=
  (step api_error_result excecao_result classify progress_callback
        (List.length cpfs)).
Local Abbreviation run_from :=
  (loop api_error_result excecao_result classify post cpfs
        progress_callback).

Lemma ocorrencias_app c (l l' : list pystr) :
  ocorrencias c (l ++ l') = ocorrencias c l + ocorrencias c l'.
Proof.
  unfold ocorrencias, count_if. rewrite filter_app, length_app. reflexivity.
Qed.

Lemma ocorrencias_nil c : ocorrencias c [] = 0.
Proof. reflexivity. Qed.

Lemma ocorrencias_cons c x (l : list pystr) :
  ocorrencias c (x :: l)
  = (if str_eqb c x then 1 else 0) + ocorrencias c l.
Proof.
  unfold ocorrencias, count_if. simpl. destruct (str_eqb c x); reflexivity.
Qed.

Lemma ocorrencias_perm c (l l' : list pystr) :
  Permutation l l' -> ocorrencias c l = ocorrencias c l'.
Proof.
  induction 1 as [| x l l' _ IH | x y l | l l' l'' _ IH1 _ IH2].
  - reflexivity.
  - rewrite !ocorrencias_cons, IH. reflexivity.
  - rewrite !ocorrencias_cons. lia.
  - congruence.
Qed.

(** A turn appends one dict for its identifier, or two when the callback
    raised. *)
Lemma step_once_or_twice i cpf0 bdc_data (st : run R W C) :
  List.map cpf_of (results (turn i cpf0 bdc_data st))
  = List.map cpf_of (results st) ++ [cpf0]
  \/ List.map cpf_of (results (turn i cpf0 bdc_data st))
     = List.map cpf_of (results st) ++ [cpf0; cpf0].
Proof.
  unfold step.
  destruct (unit_result api_error_result classify (world st)
                        bdc_data cpf0) as [e | [r w']] eqn:Eu; simpl.
  - left. rewrite map_app. simpl. rewrite cpf_of_excecao. reflexivity.
  - apply (unit_result_cpf api_error_result classify cpf_of
             cpf_of_api cpf_of_classify) in Eu.
    destruct progress_callback as [cb |]; simpl.
    + destruct (cb (cb_state st) i (List.length cpfs) r)
        as [s' [exc |]]; simpl.
      * right. rewrite !map_app. simpl.
        rewrite Eu, cpf_of_excecao, <- app_assoc. reflexivity.
      * left. rewrite map_app. simpl. rewrite Eu. reflexivity.
    + left. rewrite map_app. simpl. rewrite Eu. reflexivity.
Qed.

Lemma loop_once_or_twice order : forall i (st : run R W C),
  let before := List.map cpf_of (results st) in
  let after := List.map cpf_of (results (run_from order i st)) in
  List.length before + List.length order <= List.length after /\
  List.length after <= List.length before + 2 * List.length order /\
  (forall c, In c after <->
             In c before \/ In c (List.map (fun k => nth k cpfs []) order)).
Proof.
  induction order as [| k rest IH]; intros i st; cbv zeta;
    cbn [loop List.length List.map].
  - split; [lia |]. split; [lia |]. intros c. simpl. tauto.
  - specialize (IH (S i)
                   (turn i (nth k cpfs [])
                         (fst (fetch_single_cpf_data (post k)
                                                     (nth k cpfs []))) st)).
    cbv zeta in IH. destruct IH as (Hlo & Hhi & Hin).
    destruct (step_once_or_twice
                i (nth k cpfs [])
                (fst (fetch_single_cpf_data (post k) (nth k cpfs []))) st)
      as [E | E]; rewrite E in Hlo, Hhi, Hin;
      rewrite length_app in Hlo, Hhi; simpl in Hlo, Hhi;
      (split; [lia |]; split; [lia |]);
      intros c; rewrite (Hin c), in_app_iff; simpl; tauto.
Qed.

(** Each turn adds one or two dicts for the identifier of its task. *)
Lemma loop_occurrences order : forall i (st : run R W C) c,
  let before := List.map cpf_of (results st) in
  let after := List.map cpf_of (results (run_from order i st)) in
  let asked := List.map (fun k => nth k cpfs []) order in
  ocorrencias c before + ocorrencias c asked <= ocorrencias c after /\
  ocorrencias c after <= ocorrencias c before + 2 * ocorrencias c asked.
Proof.
  induction order as [| k rest IH]; intros i st c; cbv zeta;
    cbn [loop List.map].
  - rewrite ocorrencias_nil. lia.
  - specialize (IH (S i)
                   (turn i (nth k cpfs [])
                         (fst (fetch_single_cpf_data (post k)
                                                     (nth k cpfs []))) st)
                   c).
    cbv zeta in IH. destruct IH as (Hlo & Hhi).
    rewrite ocorrencias_cons.
    destruct (step_once_or_twice
                i (nth k cpfs [])
                (fst (fetch_single_cpf_data (post k) (nth k cpfs []))) st)
      as [E | E]; rewrite E in Hlo, Hhi;
      rewrite ocorrencias_app, !ocorrencias_cons, ocorrencias_nil
        in Hlo, Hhi;
      destruct (str_eqb c (nth k cpfs [])); lia.
Qed.
End BatchAnyCallback.

Section BatchesAnyCallback.
Context `{PyBuiltins}.

(** Whatever the callback does and whatever the provider answers, no
    identifier is lost and none is answered more than twice: in both
    batches every identifier has, for each of its occurrences in the
    input, at least one result and at most two (two when the callback
    raised).  Hence the output has between n and 2n results for n
    identifiers, and the identifiers found in it are exactly those of the
    input. *)
Theorem X3_batch_never_loses_an_identifier
        (C : Type) llm post order (cpfs : list pystr)
        (cb : option (callback Result C))
        (cb_llm : option (callback LLM.Result C)) s0 log :
  schedule (List.length cpfs) order ->
  let kw := results (process_batch post order cpfs cb s0 tt) in
  let ll := results (process_batch_llm llm post order cpfs cb_llm s0 log) in
  List.length cpfs <= List.length kw <= 2 * List.length cpfs /\
  (forall c, In c (List.map cpf kw) <-> In c cpfs) /\
  List.length cpfs <= List.length ll <= 2 * List.length cpfs /\
  (forall c, In c (List.map LLM.cpf ll) <-> In c cpfs) /\
  (forall c, ocorrencias c cpfs <= ocorrencias c (List.map cpf kw)
             <= 2 * ocorrencias c cpfs) /\
  (forall c, ocorrencias c cpfs <= ocorrencias c (List.map LLM.cpf ll)
             <= 2 * ocorrencias c cpfs).
Proof.
  intros Hs kw ll.
  assert (Hlen : List.length order = List.length cpfs)
    by (rewrite (Permutation_length Hs); apply length_seq).
  assert (P : Permutation (List.map (fun k => nth k cpfs []) order) cpfs).
  { eapply Permutation_trans.
    - apply Permutation_map. exact Hs.
    - rewrite tasks_in_order. apply Permutation_refl. }
  assert (Hmem : forall c,
             In c (List.map (fun k => nth k cpfs []) order) <-> In c cpfs).
  { intros c. split; intros Hc.
    - exact (Permutation_in _ P Hc).
    - exact (Permutation_in _ (Permutation_sym P) Hc). }
  split; [| split; [| split; [| split; [| split]]]].
  - unfold kw, process_batch, process_batch_with.
    match goal with
    | |- context [loop ?a ?e ?c post cpfs cb order 1 ?st] =>
        destruct (@loop_once_or_twice _ _ _ _ a e c post cpfs cb cpf
                    (fun _ _ => eq_refl) (fun _ _ => eq_refl)
                    (fun w b c0 => analyze_absolution_cpf b c0)
                    order 1 st) as (Hlo & Hhi & _)
    end.
    rewrite !length_map in Hlo, Hhi. rewrite <- Hlen.
    split; [exact Hlo | exact Hhi].
  - intros c. unfold kw, process_batch, process_batch_with.
    match goal with
    | |- context [loop ?a ?e ?c0 post cpfs cb order 1 ?st] =>
        destruct (@loop_once_or_twice _ _ _ _ a e c0 post cpfs cb cpf
                    (fun _ _ => eq_refl) (fun _ _ => eq_refl)
                    (fun w b c1 => analyze_absolution_cpf b c1)
                    order 1 st) as (_ & _ & Hin)
    end.
    rewrite (Hin c). simpl. rewrite Hmem. tauto.
  - unfold ll, process_batch_llm, process_batch_with.
    match goal with
    | |- context [loop ?a ?e ?c post cpfs cb_llm order 1 ?st] =>
        destruct (@loop_once_or_twice _ _ _ _ a e c post cpfs cb_llm LLM.cpf
                    (fun _ _ => eq_refl) (fun _ _ => eq_refl)
                    (fun w b c0 =>
                       analyze_absolution_with_llm_cpf llm w b c0)
                    order 1 st) as (Hlo & Hhi & _)
    end.
    rewrite !length_map in Hlo, Hhi. rewrite <- Hlen.
    split; [exact Hlo | exact Hhi].
  - intros c. unfold ll, process_batch_llm, process_batch_with.
    match goal with
    | |- context [loop ?a ?e ?c0 post cpfs cb_llm order 1 ?st] =>
        destruct (@loop_once_or_twice _ _ _ _ a e c0 post cpfs cb_llm LLM.cpf
                    (fun _ _ => eq_refl) (fun _ _ => eq_refl)
                    (fun w b c1 =>
                       analyze_absolution_with_llm_cpf llm w b c1)
                    order 1 st) as (_ & _ & Hin)
    end.
    rewrite (Hin c). simpl. rewrite Hmem. tauto.
  - intros c. unfold kw, process_batch, process_batch_with.
    match goal with
    | |- context [loop ?a ?e ?c0 post cpfs cb order 1 ?st] =>
        destruct (@loop_occurrences _ _ _ _ a e c0 post cpfs cb cpf
                    (fun _ _ => eq_refl) (fun _ _ => eq_refl)
                    (fun w b c1 => analyze_absolution_cpf b c1)
                    order 1 st c) as (Hlo & Hhi)
    end.
    rewrite (ocorrencias_perm c P) in Hlo, Hhi.
    cbn [results List.map] in Hlo, Hhi.
    rewrite ocorrencias_nil in Hlo, Hhi.
    split; [exact Hlo | exact Hhi].
  - intros c. unfold ll, process_batch_llm, process_batch_with.
    match goal with
    | |- context [loop ?a ?e ?c0 post cpfs cb_llm order 1 ?st] =>
        destruct (@loop_occurrences _ _ _ _ a e c0 post cpfs cb_llm LLM.cpf
                    (fun _ _ => eq_refl) (fun _ _ => eq_refl)
                    (fun w b c1 =>
                       analyze_absolution_with_llm_cpf llm w b c1)
                    order 1 st c) as (Hlo & Hhi)
    end.
    rewrite (ocorrencias_perm c P) in Hlo, Hhi.
    cbn [results List.map] in Hlo, Hhi.
    rewrite ocorrencias_nil in Hlo, Hhi.
    split; [exact Hlo | exact Hhi].
Qed.

(** With no callback, or one that returns, the results come in the order
    in which [as_completed] hands over the futures, which need not be the
    order of the input: the i-th result carries the identifier of the
    i-th future handed over, in both batches.  As every future is handed
    over once, the identifiers of the results are then a rearrangement of
    the input, one result each. *)
Theorem X4_results_in_yield_order
        (C : Type) llm post order (cpfs : list pystr)
        (cb : option (callback Result C))
        (cb_llm : option (callback LLM.Result C)) s0 log :
  callback_returns cb ->
  callback_returns cb_llm ->
  let kw := results (process_batch post order cpfs cb s0 tt) in
  let ll := results (process_batch_llm llm post order cpfs cb_llm s0 log) in
  List.map cpf kw = List.map (fun k => nth k cpfs []) order /\
  List.map LLM.cpf ll = List.map (fun k => nth k cpfs []) order /\
  (schedule (List.length cpfs) order ->
   Permutation (List.map cpf kw) cpfs /\
   Permutation (List.map LLM.cpf ll) cpfs).
Proof.
  intros Hr Hrl kw ll.
  assert (Ekw : List.map cpf kw = List.map (fun k => nth k cpfs []) order).
  { unfold kw, process_batch, process_batch_with.
    rewrite loop_identifiers; auto.
    intros w b c. apply analyze_absolution_cpf. }
  assert (Ell : List.map LLM.cpf ll
                = List.map (fun k => nth k cpfs []) order).
  { unfold ll, process_batch_llm, process_batch_with.
    rewrite loop_identifiers; auto.
    intros w b c. apply analyze_absolution_with_llm_cpf. }
  split; [exact Ekw |]. split; [exact Ell |].
  intros Hs. rewrite Ekw, Ell.
  assert (P : Permutation (List.map (fun k => nth k cpfs []) order) cpfs).
  { eapply Permutation_trans.
    - apply Permutation_map. exact Hs.
    - rewrite tasks_in_order. apply Permutation_refl. }
  split; exact P.
Qed.
End BatchesAnyCallback.

Lemma X3_witness :
  schedule 2 [1; 0] /\
  List.length
    (results (process_batch (H := latin1) Ex.nulo_primeiro [1; 0]
                            [Ex.cpf_ok; Ex.cpf_curto] (Some Ex.falha) 0 tt))
  <= 4.
Proof.
  assert (Hs : schedule (List.length [Ex.cpf_ok; Ex.cpf_curto]) [1; 0])
    by apply perm_swap.
  split; [exact Hs |].
  pose proof (@X3_batch_never_loses_an_identifier
                latin1 nat (Ex.ia (LLM.CallFails (u "timeout")))
                Ex.nulo_primeiro [1; 0] [Ex.cpf_ok; Ex.cpf_curto]
                (Some Ex.falha) None 0 [] Hs) as ((_ & Hhi) & _).
  exact Hhi.
Defined.

Lemma X4_witness :
  callback_returns (Some (@Ex.conta Result)) /\
  List.map cpf
    (results (process_batch (H := latin1) Ex.nulo_primeiro [1; 0]
                            [Ex.cpf_ok; Ex.cpf_curto] (Some Ex.conta) 0 tt))
  = [Ex.cpf_curto; Ex.cpf_ok].
Proof.
  assert (Hr : callback_returns (Some (@Ex.conta Result)))
    by (intros s i t r; reflexivity).
  split; [exact Hr |].
  exact (proj1 (@X4_results_in_yield_order
                  latin1 nat (Ex.ia (LLM.CallFails (u "timeout")))
                  Ex.nulo_primeiro [1; 0] [Ex.cpf_ok; Ex.cpf_curto]
                  (Some Ex.conta) None 0 [] Hr I)).
Defined.

(* ------------------------------------------------------------------ *)
(** ** Further properties: requests to the reasoning service *)

Section ServiceRequests.
Context `{PyBuiltins}.
Variable llm : LLM.service.

Lemma analyze_with_llm_log log texto dados :
  snd (LLM.analyze_with_llm llm log texto dados) = log \/
  exists req, snd (LLM.analyze_with_llm llm log texto dados) = log ++ [req].
Proof.
  unfold LLM.analyze_with_llm.
  destruct (negb (truthy (JStr (py_strip texto)))); [left; reflexivity |].
  destruct (LLM.build_request texto dados) as [e | req];
    [left; reflexivity |].
  right. exists req. destruct (llm log req); reflexivity.
Qed.

Lemma analyze_absolution_with_llm_log log bdc_data cpf0 :
  snd (LLM.analyze_absolution_with_llm llm log bdc_data cpf0) = log \/
  exists req,
    snd (LLM.analyze_absolution_with_llm llm log bdc_data cpf0)
    = log ++ [req].
Proof.
  unfold LLM.analyze_absolution_with_llm.
  destruct (LLM.prepare bdc_data) as [e | [[[nome0 total] texto] |]];
    try (left; reflexivity).
  pose proof (analyze_with_llm_log log texto
                (JObj [(Lit.nome, nome0); (Lit.cpf, JStr cpf0)])) as Hl.
  destruct (LLM.analyze_with_llm llm log texto _) as [resultado_ia log'].
  simpl in Hl.
  destruct (LLM.from_ia cpf0 nome0 total resultado_ia); exact Hl.
Qed.

Lemma step_llm_log (C : Type) (cb : option (callback LLM.Result C))
      a e total i cpf0 bdc_data
      (st : run LLM.Result (list LLM.request) C) :
  let st' := step a e (fun log b c =>
                         LLM.analyze_absolution_with_llm llm log b c)
                  cb total i cpf0 bdc_data st in
  world st' = world st \/ exists req, world st' = world st ++ [req].
Proof.
  cbv zeta. unfold step, unit_result.
  destruct (py_in Lit.error bdc_data) as [x | [|]]; simpl;
    [left; reflexivity | |].
  - destruct (py_item bdc_data Lit.error) as [x | d]; simpl.
    + left; reflexivity.
    + destruct cb as [f |]; [| left; reflexivity].
      destruct (f (cb_state st) i total (a cpf0 d)) as [s' [exc |]];
        left; reflexivity.
  - pose proof (analyze_absolution_with_llm_log (world st) bdc_data cpf0)
      as Hl.
    destruct (LLM.analyze_absolution_with_llm llm (world st) bdc_data cpf0)
      as [r w'].
    simpl in Hl.
    destruct cb as [f |]; [| exact Hl].
    destruct (f (cb_state st) i total r) as [s' [exc |]]; exact Hl.
Qed.

Lemma loop_llm_log (C : Type) (cb : option (callback LLM.Result C))
      a e post cpfs order :
  forall i (st : run LLM.Result (list LLM.request) C),
  exists sent,
    world (loop a e (fun log b c =>
                       LLM.analyze_absolution_with_llm llm log b c)
                post cpfs cb order i st) = world st ++ sent /\
    List.length sent <= List.length order.
Proof.
  induction order as [| k rest IH]; intros i st; cbn [loop List.length].
  - exists []. rewrite app_nil_r. split; [reflexivity | simpl; lia].
  - match goal with
    | |- context [loop _ _ _ _ _ _ rest (S i) ?st1] =>
        destruct (IH (S i) st1) as (sent & E & Hn);
        destruct (step_llm_log cb a e (List.length cpfs) i (nth k cpfs [])
                    (fst (fetch_single_cpf_data (post k) (nth k cpfs [])))
                    st) as [E1 | [req E1]]
    end; rewrite E, E1.
    + exists sent. split; [reflexivity | lia].
    + exists (req :: sent). rewrite <- app_assoc.
      split; [reflexivity | simpl; lia].
Qed.

(** The contextual classifier sends at most one request per person, and
    the contextual batch at most one per identifier: the log of the
    service only grows, by no more requests than there are identifiers. *)
Theorem X5_at_most_one_service_request_per_identifier
        (C : Type) post order (cpfs : list pystr)
        (cb : option (callback LLM.Result C)) s0 log :
  schedule (List.length cpfs) order ->
  (forall bdc_data cpf0,
      snd (LLM.analyze_absolution_with_llm llm log bdc_data cpf0) = log \/
      exists req,
        snd (LLM.analyze_absolution_with_llm llm log bdc_data cpf0)
        = log ++ [req]) /\
  exists sent,
    world (process_batch_llm llm post order cpfs cb s0 log) = log ++ sent /\
    List.length sent <= List.length cpfs.
Proof.
  intros Hs. split; [intros; apply analyze_absolution_with_llm_log |].
  unfold process_batch_llm, process_batch_with.
  match goal with
  | |- context [loop ?a ?e _ post cpfs cb order 1 ?st] =>
      destruct (loop_llm_log cb a e post cpfs order 1 st)
        as (sent & E & Hn)
  end.
  exists sent. split; [exact E |].
  rewrite (Permutation_length Hs), length_seq in Hn. exact Hn.
Qed.
End ServiceRequests.

Lemma X5_witness :
  schedule 2 [1; 0] /\
  exists sent,
    world (process_batch_llm (H := latin1)
             (Ex.ia (LLM.CallFails (u "timeout")))
             (Ex.sempre (HttpJson (Ex.payload [Ex.absolvido])))
             [1; 0] [Ex.cpf_ok; Ex.cpf_curto] (Some Ex.conta) 0 [])
    = [] ++ sent /\
    List.length sent <= 2.
Proof.
  assert (Hs : schedule (List.length [Ex.cpf_ok; Ex.cpf_curto]) [1; 0])
    by apply perm_swap.
  split; [exact Hs |].
  exact (proj2 (@X5_at_most_one_service_request_per_identifier
                  latin1 (Ex.ia (LLM.CallFails (u "timeout"))) nat
                  (Ex.sempre (HttpJson (Ex.payload [Ex.absolvido])))
                  [1; 0] [Ex.cpf_ok; Ex.cpf_curto] (Some Ex.conta) 0 []
                  Hs)).
Defined.

(* ------------------------------------------------------------------ *)
(** ** Further properties: the result of the keyword classifier *)

Section KeywordResult.
Context `{PyBuiltins}.

(** The three shapes [analyze_absolution] can return. *)
Lemma analyze_absolution_shapes bdc_data cpf0 :
  (exists nome0 lawsuits procs finds,
      pessoa_nome_lawsuits bdc_data = inr (nome0, lawsuits) /\
      filter_reu nome0 lawsuits = inr procs /\
      scan_procs procs [] = inr finds /\
      analyze_absolution bdc_data cpf0 =
        {| cpf := cpf0; nome := nome0;
           foi_absolvido := Some (Nat.ltb 0 (List.length finds));
           total_processos_criminais := List.length procs;
           total_absolvicoes := List.length finds;
           detalhes_absolvicoes := finds;
           status := sucesso |})
  \/ (exists e,
         analyze_absolution bdc_data cpf0 =
           {| cpf := cpf0; nome := JStr Lit.Erro_no_processamento;
              foi_absolvido := None;
              total_processos_criminais := 0;
              total_absolvicoes := 0;
              detalhes_absolvicoes := [];
              status := erro e |})
  \/ analyze_absolution bdc_data cpf0 =
       {| cpf := cpf0; nome := JStr Lit.Nao_encontrado;
          foi_absolvido := None;
          total_processos_criminais := 0;
          total_absolvicoes := 0;
          detalhes_absolvicoes := [];
          status := dados_nao_encontrados |}.
Proof.
  destruct (no_result bdc_data) as [e | [|]] eqn:Enr.
  - right. left. exists e.
    unfold analyze_absolution, analyze_absolution_try. rewrite Enr.
    reflexivity.
  - right. right.
    unfold analyze_absolution, analyze_absolution_try. rewrite Enr.
    reflexivity.
  - destruct (analyze_absolution_with_result bdc_data cpf0 Enr)
      as [Hs | He]; [left; exact Hs | right; left; exact He].
Qed.

(** Whatever the payload, the dict [analyze_absolution] returns is
    consistent: it carries the identifier it was given, the count of
    findings is the length of the list of findings, the outcome is [True]
    exactly when that list is not empty and [None] exactly when the status
    is not [sucesso], and without [sucesso] all counts are zero. *)
Theorem X6_keyword_result_is_consistent bdc_data cpf0 :
  let r := analyze_absolution bdc_data cpf0 in
  cpf r = cpf0 /\
  total_absolvicoes r = List.length (detalhes_absolvicoes r) /\
  (foi_absolvido r = Some true <-> detalhes_absolvicoes r <> []) /\
  (foi_absolvido r = None <-> status r <> sucesso) /\
  (status r <> sucesso ->
   total_processos_criminais r = 0 /\ detalhes_absolvicoes r = []).
Proof.
  cbv zeta.
  destruct (analyze_absolution_shapes bdc_data cpf0)
    as [(nome0 & lawsuits & procs & finds & _ & _ & _ & ->)
       | [(e & ->) | ->]]; simpl.
  - split; [reflexivity |]. split; [reflexivity |].
    split; [| split].
    + destruct finds; unfold Nat.ltb; simpl; split; intro; congruence.
    + split; [discriminate | congruence].
    + congruence.
  - repeat split; try congruence; try discriminate.
  - repeat split; try congruence; try discriminate.
Qed.

(** Every such value equals itself under [==]. *)
Lemma py_eq_scalar_refl v : scalar v = true -> py_eq v v = true.
Proof.
  destruct v as [| b | z | fl | s | l | m]; try discriminate; intros Hs.
  - reflexivity.
  - destruct b; reflexivity.
  - cbn. rewrite Z.eqb_refl. reflexivity.
  - exact Hs.
  - cbn. clear Hs. induction s as [| c s IH]; [reflexivity |].
    simpl. rewrite N.eqb_refl. exact IH.
Qed.

Lemma scan_procs_bound procs : forall absolvicoes out,
  Forall numero_escalar procs ->
  scan_procs procs absolvicoes = inr out ->
  List.length out <= List.length absolvicoes + List.length procs.
Proof.
  induction procs as [| proc rest IH]; intros absolvicoes out Hn E.
  - injection E as <-. simpl. lia.
  - inversion Hn as [| ? ? (numero & En & Hsc) Hrest]; subst.
    simpl in E. inv_bind E. unfold scan_proc in E0.
    rewrite En in E0. simpl in E0. inv_bind E0.
    apply scan_campos_at_most_one in E0;
      [| apply py_eq_scalar_refl; exact Hsc].
    apply IH in E; [| exact Hrest].
    destruct E0 as [-> | [f ->]]; [| rewrite length_app in E];
      simpl in *; lia.
Qed.

(** There are never more findings than qualifying lawsuits, as long as
    every case number is a string, an [int], a bool, a float other than
    NaN, or missing.  (A case number that is NaN differs from itself, the
    [break] after a finding never fires and one lawsuit can give several
    findings.) *)
Theorem X7_findings_bounded_by_lawsuits bdc_data cpf0 procs :
  processos_criminais bdc_data = inr procs ->
  Forall numero_escalar procs ->
  let r := analyze_absolution bdc_data cpf0 in
  total_absolvicoes r <= total_processos_criminais r.
Proof.
  intros Hq Hn. cbv zeta.
  destruct (analyze_absolution_shapes bdc_data cpf0)
    as [(nome0 & lawsuits & procs' & finds & Ep & Ef & Es & ->)
       | [(e & ->) | ->]]; simpl; try lia.
  unfold processos_criminais in Hq. rewrite Ep in Hq. simpl in Hq.
  rewrite Ef in Hq. injection Hq as ->.
  apply scan_procs_bound in Es; [simpl in Es; exact Es | exact Hn].
Qed.

Lemma filter_reu_is_filter nome0 lawsuits : forall procs,
  filter_reu nome0 lawsuits = inr procs ->
  procs = List.filter (qualifies nome0) lawsuits.
Proof.
  induction lawsuits as [| proc rest IH]; intros procs E.
  - injection E as <-. reflexivity.
  - simpl in E. inv_bind E. inv_bind E. injection E as <-.
    simpl. unfold qualifies at 1. rewrite E0.
    rewrite <- (IH _ E1). destruct a; reflexivity.
Qed.

(** The qualifying lawsuits are the lawsuits of the payload that pass the
    defendant test, in the order of the payload: none is added, none is
    counted twice, and their number is at most the number of lawsuits. *)
Theorem X8_qualifying_lawsuits_are_a_selection bdc_data cpf0 nome0 lawsuits :
  no_result bdc_data = inr false ->
  pessoa_nome_lawsuits bdc_data = inr (nome0, lawsuits) ->
  let r := analyze_absolution bdc_data cpf0 in
  total_processos_criminais r <= List.length lawsuits /\
  (status r = sucesso ->
   processos_criminais bdc_data
   = inr (List.filter (qualifies nome0) lawsuits) /\
   total_processos_criminais r
   = List.length (List.filter (qualifies nome0) lawsuits)).
Proof.
  intros Hnr Hp. cbv zeta.
  destruct (analyze_absolution_with_result bdc_data cpf0 Hnr)
    as [(nome1 & lawsuits1 & procs & finds & Ep & Ef & Es & ->)
       | (e & ->)]; simpl.
  - rewrite Hp in Ep. injection Ep as <- <-.
    pose proof (filter_reu_is_filter _ _ Ef) as ->.
    split; [apply filter_length_le |]. intros _.
    unfold processos_criminais. rewrite Hp. simpl.
    rewrite Ef. split; reflexivity.
  - split; [lia | discriminate].
Qed.
End KeywordResult.

Lemma X7_witness :
  processos_criminais (H := latin1)
    (Ex.payload [Ex.absolvido; Ex.arquivado; Ex.civel])
  = inr [Ex.absolvido; Ex.arquivado] /\
  total_absolvicoes
    (analyze_absolution (H := latin1)
       (Ex.payload [Ex.absolvido; Ex.arquivado; Ex.civel]) Ex.cpf_ok)
  <= total_processos_criminais
       (analyze_absolution (H := latin1)
          (Ex.payload [Ex.absolvido; Ex.arquivado; Ex.civel]) Ex.cpf_ok).
Proof.
  split; [reflexivity |].
  apply (@X7_findings_bounded_by_lawsuits
           latin1 (Ex.payload [Ex.absolvido; Ex.arquivado; Ex.civel])
           Ex.cpf_ok [Ex.absolvido; Ex.arquivado] eq_refl).
  repeat constructor; exists (JStr []); split; reflexivity.
Defined.

(** A case number that is NaN: one lawsuit with a keyword in two fields
    gets two findings. *)
Lemma nan_case_number_gives_two_findings :
  total_processos_criminais
    (analyze_absolution (H := latin1) (Ex.payload [Ex.numero_nan])
                        Ex.cpf_ok) = 1 /\
  total_absolvicoes
    (analyze_absolution (H := latin1) (Ex.payload [Ex.numero_nan])
                        Ex.cpf_ok) = 2.
Proof. split; vm_compute; reflexivity. Qed.

Lemma X8_witness :
  no_result (Ex.payload [Ex.absolvido; Ex.civel]) = inr false /\
  total_processos_criminais
    (analyze_absolution (H := latin1)
       (Ex.payload [Ex.absolvido; Ex.civel]) Ex.cpf_ok) <= 2.
Proof.
  split; [reflexivity |].
  exact (proj1 (@X8_qualifying_lawsuits_are_a_selection
                  latin1 (Ex.payload [Ex.absolvido; Ex.civel]) Ex.cpf_ok
                  (Ex.str "Joao Silva") [Ex.absolvido; Ex.civel]
                  eq_refl eq_refl)).
Defined.

(* ------------------------------------------------------------------ *)
(** ** Further properties: no data, blank names, excerpts, subtypes *)

Section MoreKeyword.
Context `{PyBuiltins}.

Lemma str_eqb_refl (s : pystr) : str_eqb s s = true.
Proof.
  induction s as [| c s IH]; [reflexivity |].
  simpl. rewrite N.eqb_refl. exact IH.
Qed.

Lemma str_eqb_eq (s t : pystr) : str_eqb s t = true -> s = t.
Proof.
  revert t. induction s as [| a s IH]; intros [| b t] E;
    try discriminate; [reflexivity |].
  simpl in E. apply andb_prop in E as [Ea Es].
  apply N.eqb_eq in Ea. rewrite Ea, (IH _ Es). reflexivity.
Qed.

(** Only the string itself [==] a string. *)
Lemma py_eq_str k v : py_eq (JStr k) v = true <-> v = JStr k.
Proof.
  split.
  - destruct v; try discriminate. cbn. intros E.
    rewrite (str_eqb_eq _ _ E). reflexivity.
  - intros ->. cbn. apply str_eqb_refl.
Qed.

Lemma no_item_iff k (l : list json) :
  existsb (py_eq (JStr k)) l = false <-> ~ In (JStr k) l.
Proof.
  split.
  - intros E Hin.
    assert (Ht : existsb (py_eq (JStr k)) l = true)
      by (apply existsb_exists; exists (JStr k);
          split; [exact Hin | apply py_eq_str; reflexivity]).
    congruence.
  - intros Hn. destruct (existsb (py_eq (JStr k)) l) eqn:E;
      [| reflexivity].
    apply existsb_exists in E as (v & Hin & Hv).
    apply py_eq_str in Hv. subst v. contradiction.
Qed.

(** The guard of both classifiers, by the shape of the payload. *)
Lemma no_result_true bdc_data :
  no_result bdc_data = inr true <-> sem_result_set bdc_data.
Proof.
  unfold no_result, sem_result_set, py_in, py_item. split.
  - destruct bdc_data as [| ? | ? | ? | s | l | m]; try discriminate;
      cbn [bind ret].
    + destruct (substr Lit.Result s) eqn:E; cbn [negb]; [discriminate |].
      intros _. right. right. eauto.
    + destruct (existsb (py_eq (JStr Lit.Result)) l) eqn:E; cbn [negb];
        [discriminate |].
      intros _. right. left. exists l.
      split; [reflexivity | apply no_item_iff; exact E].
    + destruct (lookup Lit.Result m) as [v |] eqn:E; cbn [negb bind ret].
      * intros Ev. injection Ev as Ev. left. exists m.
        split; [reflexivity |]. right. exists v.
        split; [exact E |]. destruct (truthy v); [discriminate |].
        reflexivity.
      * intros _. left. exists m. auto.
  - intros [(m & -> & Hm) | [(l & -> & Hl) | (s & -> & Hs)]];
      cbn [bind ret].
    + destruct Hm as [-> | (v & -> & Hv)]; cbn [negb bind ret];
        [| rewrite Hv]; reflexivity.
    + apply no_item_iff in Hl. rewrite Hl. reflexivity.
    + rewrite Hs. reflexivity.
Qed.

(** A payload dict without the key ["Result"], or with an empty or null
    value under it, gets the "dados_nao_encontrados" dict from both
    classifiers, with unknown outcome and zero counts, and the contextual
    one sends no request.  Both classifiers give that status exactly on
    the payloads without a result set: such a dict, a list with no item
    ["Result"], or a string that does not contain "Result". *)
Theorem X9_no_result_set_is_no_data
        (m : list (pystr * json)) cpf0 llm log :
  (lookup Lit.Result m = None \/
   exists v, lookup Lit.Result m = Some v /\ truthy v = false) ->
  analyze_absolution (JObj m) cpf0
  = {| cpf := cpf0; nome := JStr Lit.Nao_encontrado;
       foi_absolvido := None;
       total_processos_criminais := 0;
       total_absolvicoes := 0;
       detalhes_absolvicoes := [];
       status := dados_nao_encontrados |} /\
  LLM.analyze_absolution_with_llm llm log (JObj m) cpf0
  = ({| LLM.cpf := cpf0; LLM.nome := JStr Lit.Nao_encontrado;
        LLM.foi_absolvido := JNull;
        LLM.confianca_analise := JInt 0;
        LLM.justificativa := JStr LLM.Dados_nao_encontrados;
        LLM.detalhes_ia := JStr LLM.CPF_nao_localizado;
        LLM.total_processos_criminais := 0;
        LLM.status := dados_nao_encontrados |}, log) /\
  (forall bdc_data,
      status (analyze_absolution bdc_data cpf0) = dados_nao_encontrados
      <-> sem_result_set bdc_data) /\
  (forall bdc_data,
      LLM.status (fst (LLM.analyze_absolution_with_llm llm log bdc_data
                                                       cpf0))
      = dados_nao_encontrados
      <-> sem_result_set bdc_data).
Proof.
  intros Hm.
  assert (Hnr : no_result (JObj m) = inr true).
  { apply no_result_true. left. exists m. auto. }
  split; [| split; [| split]].
  - unfold analyze_absolution, analyze_absolution_try. rewrite Hnr.
    reflexivity.
  - unfold LLM.analyze_absolution_with_llm, LLM.prepare. rewrite Hnr.
    reflexivity.
  - intros bdc_data. rewrite <- no_result_true. split.
    + destruct (no_result bdc_data) as [e | [|]] eqn:Enr;
        [| reflexivity |].
      * unfold analyze_absolution, analyze_absolution_try. rewrite Enr.
        simpl. discriminate.
      * destruct (analyze_absolution_with_result bdc_data cpf0 Enr)
          as [(? & ? & ? & ? & _ & _ & _ & ->) | (e & ->)];
          simpl; discriminate.
    + intros Enr. unfold analyze_absolution, analyze_absolution_try.
      rewrite Enr. reflexivity.
  - intros bdc_data. rewrite <- no_result_true.
    unfold LLM.analyze_absolution_with_llm, LLM.prepare.
    destruct (no_result bdc_data) as [e | [|]] eqn:Enr; cbn [bind ret].
    + split; discriminate.
    + split; reflexivity.
    + split; [| discriminate].
      destruct (pessoa_nome_lawsuits bdc_data) as [e | [nome0 lawsuits]];
        cbn [bind ret]; [discriminate |].
      destruct (LLM.collect nome0 lawsuits) as [e | pt];
        cbn [bind ret]; [discriminate |].
      destruct (LLM.analyze_with_llm llm log _ _) as [resultado_ia log'].
      destruct (LLM.from_ia cpf0 nome0 (List.length (fst pt)) resultado_ia)
        as [e | r] eqn:Ei; cbn [fst]; [discriminate |].
      unfold LLM.from_ia in Ei. repeat inv_bind Ei. injection Ei as <-.
      discriminate.
Qed.

Lemma existsb_pointwise {A} (f g : A -> bool) (l : list A) :
  (forall a, f a = g a) -> existsb f l = existsb g l.
Proof.
  intros E. induction l as [| a l IH]; [reflexivity |].
  simpl. rewrite E, IH. reflexivity.
Qed.

Lemma substr_nil (s : pystr) : substr [] s = true.
Proof. destruct s; reflexivity. Qed.

(** When the name of the person is blank, the name test lets every party
    through: in a CRIMINAL lawsuit with well-typed parties the person is
    counted as defendant exactly when some party has a defendant role,
    whatever the names of the parties are. *)
Theorem X10_blank_name_matches_every_defendant
        (nome0 : pystr) (m : list (pystr * json)) :
  py_upper [] = [] ->
  py_strip nome0 = [] ->
  lawsuit_typed (JObj m) = true ->
  court_is_criminal (JObj m) = true ->
  proc_is_reu (JStr nome0) (JObj m)
  = inr (existsb spec_role_matches (parties_of (JObj m))).
Proof.
  intros Hup Hblank Ht Hc.
  rewrite (proc_is_reu_typed nome0 m Ht).
  unfold spec_is_defendant. rewrite Hc. simpl andb. f_equal.
  apply existsb_pointwise. intros parte.
  unfold spec_party_matches, spec_role_matches.
  rewrite Hblank, Hup, substr_nil. apply andb_true_r.
Qed.
End MoreKeyword.

(** The excerpt stored in a finding is the field itself when it has at
    most 200 characters, and its first 200 characters followed by "..."
    otherwise: never more than 203 characters, and always the same first
    200 as the field. *)
Theorem X11_excerpt_is_bounded (campo : pystr) :
  List.length (trecho campo) <= 203 /\
  (List.length campo <= 200 -> trecho campo = campo) /\
  (200 < List.length campo ->
   trecho campo = firstn 200 campo ++ u "..." /\
   List.length (trecho campo) = 203) /\
  firstn 200 (trecho campo) = firstn 200 campo.
Proof.
  unfold trecho.
  destruct (Nat.ltb_spec 200 (List.length campo)) as [Hl | Hs].
  - assert (Hf : List.length (firstn 200 campo) = 200)
      by (apply firstn_length_le; lia).
    split; [rewrite length_app, Hf; simpl; lia |].
    split; [lia |].
    split; [intros _; split; [reflexivity |];
            rewrite length_app, Hf; reflexivity |].
    rewrite firstn_app, Hf, Nat.sub_diag, firstn_O, app_nil_r.
    rewrite firstn_firstn, Nat.min_id. reflexivity.
  - split; [lia |]. split; [reflexivity |]. split; [lia | reflexivity].
Qed.

Lemma X9_witness :
  analyze_absolution (H := latin1) (Ex.obj [("Result", JArr [])]%string)
                     Ex.cpf_ok
  = {| cpf := Ex.cpf_ok; nome := JStr Lit.Nao_encontrado;
       foi_absolvido := None;
       total_processos_criminais := 0;
       total_absolvicoes := 0;
       detalhes_absolvicoes := [];
       status := dados_nao_encontrados |}.
Proof.
  refine (proj1 (@X9_no_result_set_is_no_data
                   latin1 (Ex.entries [("Result", JArr [])]%string)
                   Ex.cpf_ok (Ex.ia (LLM.CallFails (u "timeout"))) [] _)).
  right. exists (JArr []). split; reflexivity.
Defined.

Lemma X10_witness :
  py_upper (PyBuiltins := latin1) [] = [] /\
  py_strip (u "  ") = [] /\
  proc_is_reu (H := latin1) (JStr (u "  ")) Ex.absolvido = inr true.
Proof.
  split; [reflexivity |]. split; [reflexivity |].
  exact (@X10_blank_name_matches_every_defendant
           latin1 (u "  ") Ex.absolvido_campos
           eq_refl eq_refl eq_refl eq_refl).
Defined.

(* ------------------------------------------------------------------ *)
(** ** Further properties: keywords and subtypes *)

Lemma starts_with_iff (needle hay : pystr) :
  starts_with needle hay = true <-> exists post, hay = needle ++ post.
Proof.
  revert hay. induction needle as [| a n IH]; intros hay; simpl.
  - split; [intros _; exists hay; reflexivity | reflexivity].
  - destruct hay as [| b h]; simpl.
    + split; [discriminate | intros [post E]; discriminate].
    + rewrite andb_true_iff, N.eqb_eq, IH. split.
      * intros [-> [post ->]]. exists post. reflexivity.
      * intros [post E]. injection E as -> ->. split; eauto.
Qed.

Lemma substr_iff (needle hay : pystr) :
  substr needle hay = true <->
  exists pre post, hay = pre ++ needle ++ post.
Proof.
  induction hay as [| b h IH]; simpl.
  - rewrite orb_false_r, starts_with_iff. split.
    + intros [post E]. exists [], post. exact E.
    + intros (pre & post & E). destruct pre; simpl in E.
      * exists post. exact E.
      * discriminate.
  - rewrite orb_true_iff, starts_with_iff, IH. split.
    + intros [[post E] | (pre & post & ->)].
      * exists [], post. exact E.
      * exists (b :: pre), post. reflexivity.
    + intros (pre & post & E). destruct pre as [| c pre]; simpl in E.
      * left. exists post. exact E.
      * injection E as -> ->. right. exists pre, post. reflexivity.
Qed.

(** [in] on strings is transitive. *)
Lemma substr_trans (a b c : pystr) :
  substr a b = true -> substr b c = true -> substr a c = true.
Proof.
  rewrite !substr_iff. intros (p1 & q1 & ->) (p2 & q2 & ->).
  exists (p2 ++ p1), (q1 ++ q2). rewrite <- !app_assoc. reflexivity.
Qed.

Section Subtypes.
Context `{PyBuiltins}.

(** The subtype of a finding and the keyword that produced it agree: a
    text classified as absolution, dismissal, archival or extinction
    always holds a keyword, and a text with a keyword is classified
    "Outra forma de absolvição" only when the keyword is one of the six
    phrases about missing or insufficient evidence ("julgo improcedente"
    and "absolvo" never lead there, as they contain the stems
    "improcedent" and "absolv"). *)
Theorem X12_subtype_agrees_with_keyword (campo : pystr) :
  (_classify_absolution_type campo <> Outra_forma ->
   has_keyword campo = true) /\
  (has_keyword campo = true ->
   _classify_absolution_type campo = Outra_forma ->
   existsb (fun w => substr w (py_lower campo)) palavras_de_prova = true).
Proof.
  assert (Hj : substr (u "julgo improcedente") (py_lower campo) = true ->
               substr (u "improcedent") (py_lower campo) = true)
    by (apply substr_trans; reflexivity).
  assert (Ha : substr (u "absolvo") (py_lower campo) = true ->
               substr (u "absolv") (py_lower campo) = true)
    by (apply substr_trans; reflexivity).
  unfold has_keyword, _classify_absolution_type, palavras_absolvicao,
    palavras_de_prova.
  cbn [existsb].
  set (b1 := substr (u "absolv") (py_lower campo)) in *.
  set (b2 := substr (u "improcedent") (py_lower campo)) in *.
  set (b3 := substr (u "arquiv") (py_lower campo)) in *.
  set (b4 := substr (u "extin" ++ [231%N]) (py_lower campo)) in *.
  set (b5 := substr (u "n" ++ [227%N] ++ u "o procede") (py_lower campo))
    in *.
  set (b6 := substr (u "nao procede") (py_lower campo)) in *.
  set (b7 := substr (u "julgo improcedente") (py_lower campo)) in *.
  set (b8 := substr (u "absolvo") (py_lower campo)) in *.
  clearbody b1 b2 b3 b4 b5 b6 b7 b8.
  destruct b1, b2, b3, b4, b5, b6, b7, b8; cbn [orb];
    (split;
     [ intros Hc; try reflexivity; exfalso; apply Hc; reflexivity
     | intros Hk Ht; try discriminate; try exact Hk;
       try (specialize (Hj eq_refl); discriminate);
       try (specialize (Ha eq_refl); discriminate) ]).
Qed.
End Subtypes.

Lemma X12_witness :
  has_keyword (H := latin1) (u "Julgo IMPROCEDENTE a denuncia") = true /\
  _classify_absolution_type (H := latin1) (u "Julgo IMPROCEDENTE a denuncia")
  = Improcedencia.
Proof.
  split; [| reflexivity].
  apply (proj1 (@X12_subtype_agrees_with_keyword
                  latin1 (u "Julgo IMPROCEDENTE a denuncia"))).
  vm_compute. discriminate.
Defined.

(* ------------------------------------------------------------------ *)
(** ** Further properties: lawsuits with distinct case numbers *)

Section IndependentScans.
Context `{PyBuiltins}.

Lemma last_is_app absolvicoes acc numero :
  acc <> [] -> last_is (absolvicoes ++ acc) numero = last_is acc numero.
Proof.
  intros Hne. unfold last_is. rewrite rev_app_distr.
  destruct (rev acc) as [| f tl] eqn:E; [| reflexivity].
  apply (f_equal (@rev Finding)) in E. rewrite rev_involutive in E.
  contradiction.
Qed.

(** Findings recorded before a lawsuit do not change its scan, unless the
    last of them carries its case number. *)
Lemma scan_campos_prefix proc numero campos : forall absolvicoes acc,
  acc <> [] \/ last_is absolvicoes numero = false ->
  scan_campos proc numero campos (absolvicoes ++ acc)
  = match scan_campos proc numero campos acc with
    | inr out => inr (absolvicoes ++ out)
    | inl e => inl e
    end.
Proof.
  induction campos as [| c rest IH]; intros absolvicoes acc Hc;
    [reflexivity |].
  destruct c as [| b | z | fl | s | l | m]; simpl; auto.
  destruct (py_strip s) eqn:Es; simpl; auto.
  destruct (has_keyword s).
  - destruct (new_finding proc numero s) as [e | f]; simpl;
      [reflexivity |].
    rewrite !last_is_snoc.
    destruct (py_eq (processo f) numero).
    + rewrite <- app_assoc. reflexivity.
    + rewrite <- app_assoc. apply IH. left.
      destruct acc; discriminate.
  - simpl.
    assert (E : last_is (absolvicoes ++ acc) numero = last_is acc numero).
    { destruct acc as [| f acc'].
      - rewrite app_nil_r. destruct Hc as [Hc | Hc];
          [contradiction | exact Hc].
      - apply last_is_app. discriminate. }
    rewrite E. destruct (last_is acc numero); [reflexivity |].
    apply IH. exact Hc.
Qed.

(** What a scan appends carries the case number of the lawsuit. *)
Lemma scan_campos_new proc numero campos : forall acc out,
  scan_campos proc numero campos acc = inr out ->
  exists new, out = acc ++ new /\
              Forall (fun f => processo f = numero) new.
Proof.
  induction campos as [| c rest IH]; intros acc out E.
  - injection E as <-. exists []. rewrite app_nil_r. auto.
  - destruct c as [| b | z | fl | s | l | m]; simpl in E; auto.
    destruct (py_strip s); simpl in E; auto.
    destruct (has_keyword s).
    + destruct (new_finding proc numero s) as [e | f] eqn:Ef;
        simpl in E; [discriminate |].
      destruct (new_finding_fields _ _ _ Ef) as (Ep & _ & _).
      destruct (last_is (acc ++ [f]) numero).
      * injection E as <-. exists [f]. auto.
      * destruct (IH _ _ E) as (new & -> & Hnew).
        exists (f :: new). rewrite <- app_assoc. auto.
    + simpl in E. destruct (last_is acc numero).
      * injection E as <-. exists []. rewrite app_nil_r. auto.
      * auto.
Qed.

Lemma last_is_false_of_all absolvicoes numero :
  Forall (fun f => py_eq (processo f) numero = false) absolvicoes ->
  last_is absolvicoes numero = false.
Proof.
  intros Hall. unfold last_is.
  destruct (rev absolvicoes) as [| f tl] eqn:E; [reflexivity |].
  assert (Hin : In f absolvicoes)
    by (apply in_rev; rewrite E; left; reflexivity).
  exact (proj1 (Forall_forall _ _) Hall f Hin).
Qed.

Lemma scan_proc_raises proc e : forall acc,
  numero_processo proc = inl e -> scan_proc proc acc = inl e.
Proof. intros acc En. unfold scan_proc. rewrite En. reflexivity. Qed.

Lemma scan_proc_prefix proc numero acc :
  numero_processo proc = inr numero ->
  last_is acc numero = false ->
  scan_proc proc acc
  = match scan_proc proc [] with
    | inr out => inr (acc ++ out)
    | inl e => inl e
    end.
Proof.
  intros En Hlast. unfold scan_proc. rewrite En. cbn [bind].
  destruct (campos_decisao proc) as [e | campos]; cbn [bind];
    [reflexivity |].
  pose proof (@scan_campos_prefix proc numero campos acc []
                                  (or_intror Hlast)) as Ep.
  rewrite app_nil_r in Ep. exact Ep.
Qed.

Lemma scan_proc_new proc numero out :
  numero_processo proc = inr numero ->
  scan_proc proc [] = inr out ->
  Forall (fun f => processo f = numero) out.
Proof.
  intros En E. unfold scan_proc in E. rewrite En in E. cbn [bind] in E.
  destruct (campos_decisao proc) as [e | campos]; cbn [bind] in E;
    [discriminate |].
  destruct (@scan_campos_new _ _ _ _ _ E) as (new & Enew & Hnew).
  simpl in Enew. subst new. exact Hnew.
Qed.

Lemma scan_procs_independent procs : forall acc,
  numeros_distintos procs ->
  (forall f q m, In f acc -> In q procs -> numero_processo q = inr m ->
                 py_eq (processo f) m = false) ->
  scan_procs procs acc
  = match scan_each procs with
    | inr outs => inr (acc ++ List.concat outs)
    | inl e => inl e
    end.
Proof.
  induction procs as [| proc rest IH]; intros acc Hd Hacc.
  - simpl. rewrite app_nil_r. reflexivity.
  - inversion Hd as [| ? ? Hhead Hrest]; subst.
    unfold scan_each in *. cbn [scan_procs map_exc].
    destruct (numero_processo proc) as [e | numero] eqn:En.
    + rewrite (@scan_proc_raises proc e acc En),
        (@scan_proc_raises proc e [] En). reflexivity.
    + assert (Hlast : last_is acc numero = false).
      { apply last_is_false_of_all. apply Forall_forall. intros f Hf.
        apply (Hacc f proc numero Hf (or_introl eq_refl) En). }
      rewrite (@scan_proc_prefix proc numero acc En Hlast).
      destruct (scan_proc proc []) as [e | out] eqn:Es; cbn [bind];
        [reflexivity |].
      pose proof (@scan_proc_new proc numero out En Es) as Hnew.
      rewrite IH.
      * destruct (map_exc (fun proc0 => scan_proc proc0 []) rest);
          cbn [bind ret List.concat]; [reflexivity |].
        rewrite app_assoc. reflexivity.
      * exact Hrest.
      * intros f q m Hf Hq Em. apply in_app_or in Hf as [Hf | Hf].
        -- apply (Hacc f q m Hf (or_intror Hq) Em).
        -- rewrite (proj1 (Forall_forall _ _) Hnew f Hf).
           apply (proj1 (Forall_forall _ _) Hhead q Hq numero m
                        eq_refl Em).
Qed.

(** When no qualifying lawsuit has the case number of an earlier one,
    each lawsuit is scanned on its own: the findings of the person are
    the findings each lawsuit gets when scanned alone, in order. *)
Theorem X13_distinct_case_numbers_scan_independently procs :
  numeros_distintos procs ->
  scan_procs procs []
  = match scan_each procs with
    | inr outs => inr (List.concat outs)
    | inl e => inl e
    end.
Proof.
  intros Hd. apply (@scan_procs_independent procs [] Hd).
  intros f q m [].
Qed.
End IndependentScans.

Lemma X13_witness :
  numeros_distintos
    [Ex.absolvido; Ex.obj [("Number", Ex.str "0001")]%string] /\
  scan_procs (H := latin1)
    [Ex.absolvido; Ex.obj [("Number", Ex.str "0001")]%string] []
  = match scan_each (H := latin1)
            [Ex.absolvido; Ex.obj [("Number", Ex.str "0001")]%string] with
    | inr outs => inr (List.concat outs)
    | inl e => inl e
    end.
Proof.
  assert (Hd : numeros_distintos
                 [Ex.absolvido; Ex.obj [("Number", Ex.str "0001")]%string]).
  { repeat constructor. intros n m En Em.
    injection En as <-. injection Em as <-. reflexivity. }
  split; [exact Hd |].
  exact (@X13_distinct_case_numbers_scan_independently latin1 _ Hd).
Defined.

(* ------------------------------------------------------------------ *)
(** ** Further properties: the narrative of the contextual classifier *)

Section Narrative.
Context `{PyBuiltins}.
Variable llm : LLM.service.

Lemma collect_filter nome0 lawsuits : forall pt,
  LLM.collect nome0 lawsuits = inr pt ->
  filter_reu nome0 lawsuits = inr (fst pt).
Proof.
  induction lawsuits as [| proc rest IH]; intros pt E.
  - injection E as <-. reflexivity.
  - simpl in E. simpl.
    destruct (proc_is_reu nome0 proc) as [e | [|]]; cbn [bind] in *;
      [discriminate | |].
    + inv_bind E. inv_bind E. injection E as <-.
      rewrite (IH _ E1). reflexivity.
    + rewrite (IH _ E). reflexivity.
Qed.

Lemma collect_blocks nome0 lawsuits : forall pt,
  LLM.collect nome0 lawsuits = inr pt ->
  List.length (snd pt) <= List.length (fst pt) /\
  (forall b, In b (snd pt) -> In 80%N b).
Proof.
  induction lawsuits as [| proc rest IH]; intros pt E.
  - injection E as <-. simpl. split; [lia | intros b []].
  - simpl in E.
    destruct (proc_is_reu nome0 proc) as [e | [|]]; cbn [bind] in E;
      [discriminate | | apply IH; exact E].
    inv_bind E. inv_bind E. injection E as <-.
    destruct (IH _ E1) as [Hlen Hp].
    unfold LLM.bloco_processo in E0. repeat inv_bind E0.
    injection E0 as <-. cbn [fst snd].
    destruct a3 as [| t ts]; cbn [app List.length].
    + split; [lia | exact Hp].
    + split; [lia |].
      intros b [<- | Hb]; [| apply Hp; exact Hb].
      right. left. reflexivity.
Qed.

Lemma lstrip_keeps c (s : pystr) :
  In c s -> is_space c = false -> In c (lstrip s).
Proof.
  intros Hin Hc. induction s as [| d s IH]; [contradiction |].
  simpl. destruct (is_space d) eqn:Ed; [| exact Hin].
  destruct Hin as [-> | Hin]; [congruence | apply IH; exact Hin].
Qed.

(** A string with a character that is not whitespace is not blank. *)
Lemma strip_keeps c (s : pystr) :
  In c s -> is_space c = false -> In c (py_strip s).
Proof.
  intros Hin Hc. unfold py_strip.
  apply -> in_rev. apply lstrip_keeps; [| exact Hc].
  apply -> in_rev. apply lstrip_keeps; assumption.
Qed.

Lemma join_keeps c (sep b : pystr) parts :
  In b parts -> In c b -> In c (py_join sep parts).
Proof.
  intros Hb Hc. induction parts as [| p rest IH]; [contradiction |].
  destruct Hb as [-> | Hb].
  - destruct rest; simpl; [exact Hc |].
    apply in_or_app. left. exact Hc.
  - destruct rest as [| p' rest']; [contradiction |].
    change (py_join sep (p :: p' :: rest'))
      with (p ++ sep ++ py_join sep (p' :: rest')).
    apply in_or_app. right. apply in_or_app. right. apply IH. exact Hb.
Qed.

Lemma prepare_some bdc_data nome0 total texto :
  LLM.prepare bdc_data = inr (Some (nome0, total, texto)) ->
  exists lawsuits pt,
    pessoa_nome_lawsuits bdc_data = inr (nome0, lawsuits) /\
    LLM.collect nome0 lawsuits = inr pt /\
    total = List.length (fst pt) /\
    texto = py_join [10%N] (snd pt).
Proof.
  unfold LLM.prepare. intros E. inv_bind E.
  destruct a; [discriminate |].
  inv_bind E. destruct a as [nome1 lawsuits]. inv_bind E.
  injection E as <- <- <-.
  exists lawsuits, a. auto.
Qed.

(** The two classifiers select the same lawsuits: when both succeed on a
    payload they report the same name and the same number of criminal
    proceedings. *)
Theorem X14_classifiers_count_the_same_lawsuits log bdc_data cpf0 :
  let kw := analyze_absolution bdc_data cpf0 in
  let ll := fst (LLM.analyze_absolution_with_llm llm log bdc_data cpf0) in
  status kw = sucesso ->
  LLM.status ll = sucesso ->
  LLM.nome ll = nome kw /\
  LLM.total_processos_criminais ll = total_processos_criminais kw.
Proof.
  cbv zeta. intros Hk Hl.
  destruct (analyze_absolution_shapes bdc_data cpf0)
    as [(nome0 & lawsuits & procs & finds & Ep & Ef & _ & Ekw)
       | [(e & Ekw) | Ekw]]; rewrite Ekw in Hk |- *;
    try discriminate.
  clear Hk. simpl.
  unfold LLM.analyze_absolution_with_llm in *.
  destruct (LLM.prepare bdc_data) as [e | [[[nome1 total] texto] |]] eqn:Epr;
    try discriminate.
  destruct (prepare_some _ Epr) as (lawsuits1 & pt & Ep1 & Ec & -> & _).
  rewrite Ep in Ep1. injection Ep1 as <- <-.
  rewrite (collect_filter _ _ Ec) in Ef. injection Ef as <-.
  destruct (LLM.analyze_with_llm llm log texto _) as [resultado_ia log'].
  destruct (LLM.from_ia cpf0 nome0 (List.length (fst pt)) resultado_ia)
    as [e | r] eqn:Ei; [discriminate |].
  unfold LLM.from_ia in Ei. repeat inv_bind Ei. injection Ei as <-.
  split; reflexivity.
Qed.

Lemma truthy_default (m : list (pystr * json)) k :
  truthy (value_or m k (JStr [])) = truthy (value_or m k JNull).
Proof. unfold value_or. destruct (lookup k m); reflexivity. Qed.

(** The decisions add text exactly when one of them has a truthy
    [DecisionContent]. *)
Lemma textos_decisoes_nil ds : forall i tds,
  LLM.textos_decisoes i ds = inr tds ->
  (tds = [] <->
   existsb (fun d => truthy (campo_de d Lit.DecisionContent)) ds = false).
Proof.
  induction ds as [| d rest IH]; intros i tds E.
  - injection E as <-. split; reflexivity.
  - cbn [LLM.textos_decisoes] in E.
    destruct d as [| ? | ? | ? | ? | ? | dm]; try discriminate.
    cbn [py_get bind ret] in E. inv_bind E. injection E as <-.
    cbn [existsb campo_de].
    change (match lookup Lit.DecisionContent dm with
            | Some v => v
            | None => JStr []
            end) with (value_or dm Lit.DecisionContent (JStr [])).
    rewrite truthy_default.
    destruct (truthy (value_or dm Lit.DecisionContent JNull));
      cbn [orb]; [split; discriminate | exact (IH _ _ E0)].
Qed.

Lemma textos_processo_nil proc textos :
  LLM.textos_processo proc = inr textos ->
  (textos = [] <-> tem_texto proc = false).
Proof.
  destruct proc as [| ? | ? | ? | ? | ? | m]; try discriminate.
  unfold LLM.textos_processo, tem_texto, campo_de, value_or.
  cbn [py_get bind ret]. intros E. inv_bind E. inv_bind E.
  injection E as <-.
  assert (Hd : a0 = [] <->
               match match lookup Lit.Decisions m with
                     | Some v => v
                     | None => JNull
                     end with
               | JArr ds =>
                   existsb (fun d => truthy (campo_de d Lit.DecisionContent))
                           ds
               | _ => false
               end = false).
  { destruct (lookup Lit.Decisions m) as [[| ? | ? | ? | s | ds | dm] |];
      try discriminate.
    - destruct s as [| ch s]; [| injection E0 as <-; discriminate].
      injection E0 as <-. injection E1 as <-. split; reflexivity.
    - injection E0 as <-. exact (textos_decisoes_nil _ _ E1).
    - destruct dm as [| [k v] dm]; [| injection E0 as <-; discriminate].
      injection E0 as <-. injection E1 as <-. split; reflexivity.
    - injection E0 as <-. injection E1 as <-. split; reflexivity. }
  destruct (truthy match lookup Lit.Content m with
                   | Some v => v
                   | None => JNull
                   end);
    [cbn [orb app]; split; discriminate |].
  destruct (truthy match lookup Lit.Decision m with
                   | Some v => v
                   | None => JNull
                   end);
    [cbn [orb app]; split; discriminate |].
  destruct (truthy match lookup Lit.Description m with
                   | Some v => v
                   | None => JNull
                   end);
    [cbn [orb app]; split; discriminate |].
  cbn [orb app]. exact Hd.
Qed.

Lemma bloco_processo_nil proc bloco :
  LLM.bloco_processo proc = inr bloco ->
  (bloco = [] <-> tem_texto proc = false).
Proof.
  unfold LLM.bloco_processo. intros E. repeat inv_bind E.
  injection E as <-.
  pose proof (textos_processo_nil _ E2) as Ht.
  destruct a1 as [| t ts].
  - split; [intros _; apply Ht; reflexivity | reflexivity].
  - split; [discriminate |].
    intros Hf. apply Ht in Hf. discriminate.
Qed.

(** The narrative gets a block exactly for the qualifying lawsuits that
    have text. *)
Lemma collect_texts nome0 lawsuits : forall pt,
  LLM.collect nome0 lawsuits = inr pt ->
  (snd pt = [] <-> existsb tem_texto (fst pt) = false).
Proof.
  induction lawsuits as [| proc rest IH]; intros pt E.
  - injection E as <-. split; reflexivity.
  - cbn [LLM.collect] in E.
    destruct (proc_is_reu nome0 proc) as [e | [|]]; cbn [bind] in E;
      [discriminate | | exact (IH _ E)].
    inv_bind E. inv_bind E. injection E as <-. cbn [fst snd existsb].
    pose proof (bloco_processo_nil _ E0) as Hb.
    pose proof (IH _ E1) as Hr.
    destruct (tem_texto proc); cbn [orb].
    + split; [| discriminate].
      intros Hnil. apply app_eq_nil in Hnil as [Hnil _].
      apply Hb in Hnil. discriminate.
    + rewrite (proj2 Hb eq_refl). exact Hr.
Qed.

Lemma filter_reu_nil_collect nome0 lawsuits :
  filter_reu nome0 lawsuits = inr [] ->
  LLM.collect nome0 lawsuits = inr ([], []).
Proof.
  induction lawsuits as [| proc rest IH]; intros E; [reflexivity |].
  cbn [filter_reu] in E. inv_bind E. inv_bind E.
  cbn [LLM.collect]. rewrite E0. cbn [bind].
  destruct a; injection E as E; [discriminate |].
  subst a0. exact (IH E1).
Qed.

Lemma filter_reu_raises_collect nome0 lawsuits : forall e,
  filter_reu nome0 lawsuits = inl e ->
  exists e', LLM.collect nome0 lawsuits = inl e'.
Proof.
  induction lawsuits as [| proc rest IH]; intros e E; [discriminate |].
  cbn [filter_reu] in E. cbn [LLM.collect].
  destruct (proc_is_reu nome0 proc) as [e1 | b]; cbn [bind] in E |- *;
    [eauto |].
  destruct (filter_reu nome0 rest) as [e2 | tl] eqn:Er; cbn [bind] in E;
    [| discriminate].
  destruct (IH _ eq_refl) as [e' Ec].
  destruct b; [| eauto].
  destruct (LLM.bloco_processo proc) as [e3 | bl]; cbn [bind]; [eauto |].
  rewrite Ec. cbn [bind]. eauto.
Qed.

(** When the payload has a result set and the narrative is built without
    raising, the contextual classifier sends exactly one request if some
    qualifying lawsuit has text (a truthy [Content], [Decision] or
    [Description], or a decision with a truthy [DecisionContent]) and
    none otherwise; a lawsuit whose only text is in [Summary], which the
    keyword classifier scans, counts as having none.  The narrative is
    empty in the second case and not blank in the first (a block always
    holds the word PROCESSO).  The qualifying lawsuits are those the
    keyword classifier selects. *)
Theorem X15_one_request_iff_some_text log bdc_data cpf0 nome0 total texto :
  LLM.prepare bdc_data = inr (Some (nome0, total, texto)) ->
  exists procs,
    processos_criminais bdc_data = inr procs /\
    total = List.length procs /\
    let sent :=
      snd (LLM.analyze_absolution_with_llm llm log bdc_data cpf0) in
    (existsb tem_texto procs = false /\ texto = [] /\ sent = log) \/
    (existsb tem_texto procs = true /\ py_strip texto <> [] /\
     sent = log ++ [request_for nome0 cpf0 texto]).
Proof.
  intros E.
  destruct (prepare_some _ E) as (lawsuits & pt & Ep & Ec & Et & Ex).
  exists (fst pt).
  split; [unfold processos_criminais; rewrite Ep; cbn [bind fst snd];
          exact (collect_filter _ _ Ec) |].
  split; [exact Et |]. cbv zeta.
  pose proof (collect_texts _ _ Ec) as Htx.
  destruct (collect_blocks _ _ Ec) as [_ Hp].
  destruct (existsb tem_texto (fst pt)) eqn:Eh.
  - right. split; [reflexivity |].
    assert (Hnb : py_strip texto <> []).
    { destruct (snd pt) as [| b rest] eqn:Es;
        [pose proof (proj1 Htx eq_refl); discriminate |].
      intros Hblank.
      assert (Hin : In 80%N (py_strip (py_join [10%N] (b :: rest)))).
      { apply strip_keeps; [| reflexivity].
        apply join_keeps with (b := b); [left; reflexivity |].
        apply Hp. left. reflexivity. }
      rewrite <- Ex, Hblank in Hin. contradiction. }
    split; [exact Hnb |].
    unfold LLM.analyze_absolution_with_llm. rewrite E.
    unfold LLM.analyze_with_llm.
    destruct (truthy (JStr (py_strip texto))) eqn:Ett;
      [| apply strip_truthy in Ett; contradiction].
    cbn [negb]. rewrite build_request_person.
    destruct (llm log (request_for nome0 cpf0 texto)) as [d | d | j];
      cbv beta iota; try reflexivity.
    destruct (LLM.from_ia cpf0 nome0 total j); reflexivity.
  - left. split; [reflexivity |].
    assert (Hnil : texto = [])
      by (rewrite Ex, (proj2 Htx eq_refl); reflexivity).
    split; [exact Hnil |]. subst texto.
    unfold LLM.analyze_absolution_with_llm. rewrite E, Hnil. reflexivity.
Qed.

(** On a payload with a non-empty result entry: when the defendant
    filter runs to its end and selects no lawsuit, the contextual
    classifier answers unknown, with confidence 0 and status [sucesso],
    and sends no request, while the keyword classifier answers [False] on
    the same payload; when the filter raises on an ill-typed entry, both
    classifiers answer unknown with a status [erro] and no request is
    sent. *)
Theorem X16_contextual_without_lawsuit_is_unknown log bdc_data cpf0 :
  no_result bdc_data = inr false ->
  (processos_criminais bdc_data = inr [] ->
   exists nome0 lawsuits,
     pessoa_nome_lawsuits bdc_data = inr (nome0, lawsuits) /\
     LLM.analyze_absolution_with_llm llm log bdc_data cpf0
     = (llm_sucesso cpf0 nome0 0 JNull (JInt 0)
                    (JStr LLM.Nenhuma_decisao)
                    (JStr LLM.Sem_dados_suficientes), log) /\
     foi_absolvido (analyze_absolution bdc_data cpf0) = Some false) /\
  (forall e,
      processos_criminais bdc_data = inl e ->
      let ll := LLM.analyze_absolution_with_llm llm log bdc_data cpf0 in
      (exists e', LLM.status (fst ll) = erro e') /\
      LLM.foi_absolvido (fst ll) = JNull /\
      snd ll = log /\
      status (analyze_absolution bdc_data cpf0) = erro e /\
      foi_absolvido (analyze_absolution bdc_data cpf0) = None).
Proof.
  intros Hnr.
  unfold processos_criminais, LLM.analyze_absolution_with_llm, LLM.prepare,
    analyze_absolution, analyze_absolution_try.
  rewrite Hnr. cbn [bind].
  destruct (pessoa_nome_lawsuits bdc_data) as [e0 | [nome0 lawsuits]];
    cbn [bind fst snd].
  - split; [discriminate |].
    intros e E. injection E as <-. cbv zeta. cbn [fst snd].
    repeat split. eexists. reflexivity.
  - split.
    + intros Hq. exists nome0, lawsuits. split; [reflexivity |].
      rewrite (filter_reu_nil_collect _ _ Hq), Hq. cbn [bind ret fst snd].
      split; reflexivity.
    + intros e Hq. cbv zeta.
      destruct (filter_reu_raises_collect _ _ Hq) as [e' Ec].
      rewrite Ec, Hq. cbn [bind fst snd].
      repeat split. eexists. reflexivity.
Qed.
End Narrative.

Lemma X14_witness :
  status (analyze_absolution (H := latin1)
            (Ex.payload [Ex.absolvido; Ex.civel]) Ex.cpf_ok) = sucesso /\
  LLM.total_processos_criminais
    (fst (LLM.analyze_absolution_with_llm (H := latin1)
            (Ex.ia (LLM.BodyJson (JObj Ex.fora_do_contrato))) []
            (Ex.payload [Ex.absolvido; Ex.civel]) Ex.cpf_ok))
  = total_processos_criminais
      (analyze_absolution (H := latin1)
         (Ex.payload [Ex.absolvido; Ex.civel]) Ex.cpf_ok).
Proof.
  split; [reflexivity |].
  exact (proj2 (@X14_classifiers_count_the_same_lawsuits
                  latin1 (Ex.ia (LLM.BodyJson (JObj Ex.fora_do_contrato)))
                  [] (Ex.payload [Ex.absolvido; Ex.civel]) Ex.cpf_ok
                  eq_refl eq_refl)).
Defined.

Lemma X15_witness :
  snd (LLM.analyze_absolution_with_llm (H := latin1)
         (Ex.ia (LLM.CallFails (u "timeout"))) []
         (Ex.payload [Ex.so_summary]) Ex.cpf_ok) = [] /\
  List.length
    (snd (LLM.analyze_absolution_with_llm (H := latin1)
            (Ex.ia (LLM.CallFails (u "timeout"))) []
            (Ex.payload [Ex.absolvido]) Ex.cpf_ok)) = 1.
Proof.
  split.
  - destruct (@X15_one_request_iff_some_text
                latin1 (Ex.ia (LLM.CallFails (u "timeout"))) []
                (Ex.payload [Ex.so_summary]) Ex.cpf_ok _ _ _ eq_refl)
      as (procs & Ep & _ & [(_ & _ & ->) | (Et & _ & _)]);
      [reflexivity |].
    vm_compute in Ep. injection Ep as <-. discriminate Et.
  - destruct (@X15_one_request_iff_some_text
                latin1 (Ex.ia (LLM.CallFails (u "timeout"))) []
                (Ex.payload [Ex.absolvido]) Ex.cpf_ok _ _ _ eq_refl)
      as (procs & _ & _ & [(_ & E & _) | (_ & _ & ->)]);
      [discriminate E | reflexivity].
Defined.

Lemma X16_witness :
  no_result (Ex.payload [Ex.civel]) = inr false /\
  foi_absolvido (analyze_absolution (H := latin1)
                   (Ex.payload [Ex.civel]) Ex.cpf_ok) = Some false /\
  LLM.foi_absolvido
    (fst (LLM.analyze_absolution_with_llm (H := latin1)
            (Ex.ia (LLM.CallFails (u "timeout"))) []
            (Ex.payload [Ex.civel]) Ex.cpf_ok)) = JNull.
Proof.
  split; [reflexivity |].
  destruct (proj1 (@X16_contextual_without_lawsuit_is_unknown
                     latin1 (Ex.ia (LLM.CallFails (u "timeout"))) []
                     (Ex.payload [Ex.civel]) Ex.cpf_ok eq_refl) eq_refl)
    as (nome0 & lawsuits & _ & -> & Hk).
  split; [exact Hk | reflexivity].
Defined.

(* ------------------------------------------------------------------ *)
(** ** Further properties: statistics of the contextual batch *)

Lemma py_sum_numeric_error l : forall acc e,
  forallb confianca_numeric l = true ->
  LLMStats.py_sum acc (nao_nulas l) = inl e -> e = OverflowError.
Proof.
  induction l as [| v rest IH]; intros acc e Hn E; [discriminate |].
  cbn [forallb] in Hn. apply andb_prop in Hn as [Hv Hr].
  rewrite nao_nulas_cons in E.
  destruct v as [| b | z | g | s | xs | m];
    cbn [confianca_numeric LLMStats.is_None LLMStats.py_sum] in *;
    try discriminate; [exact (IH _ _ Hr E) | | |];
    unfold LLMStats.as_num in E; cbn [as_number bind ret] in E;
    match type of E with
    | bind (num_add ?a ?x) _ = _ =>
        destruct (num_add a x) as [e' | acc'] eqn:Ea; cbn [bind] in E;
        [injection E as <-; exact (num_add_error _ _ Ea)
        | exact (IH _ _ Hr E)]
    end.
Qed.

Lemma map_exc_length {A B} (f : A -> exc B) (l : list A) : forall bs,
  map_exc f l = inr bs -> List.length bs = List.length l.
Proof.
  induction l as [| a l IH]; intros bs E.
  - injection E as <-. reflexivity.
  - simpl in E. inv_bind E. inv_bind E. injection E as <-.
    simpl. f_equal. apply IH. exact E1.
Qed.

Lemma count_if_le {A} (p : A -> bool) (l : list A) :
  count_if p l <= List.length l.
Proof. apply filter_length_le. Qed.

Lemma count_if_disjoint {A} (p q : A -> bool) (l : list A) :
  (forall a, p a = true -> q a = false) ->
  count_if p l + count_if q l <= List.length l.
Proof.
  intros Hd. unfold count_if.
  induction l as [| a l IH]; [simpl; lia |].
  simpl. destruct (p a) eqn:Ep.
  - rewrite (Hd a Ep). simpl. lia.
  - destruct (q a); simpl; lia.
Qed.

Lemma count_if_disjoint3 {A} (p q r : A -> bool) (l : list A) :
  (forall a, p a = true -> q a = false /\ r a = false) ->
  (forall a, q a = true -> r a = false) ->
  count_if p l + count_if q l + count_if r l <= List.length l.
Proof.
  intros Hp Hq. unfold count_if.
  induction l as [| a l IH]; [simpl; lia |].
  simpl. destruct (p a) eqn:Ep.
  - destruct (Hp a Ep) as [-> ->]. simpl. lia.
  - destruct (q a) eqn:Eq.
    + rewrite (Hq a Eq). simpl. lia.
    + destruct (r a); simpl; lia.
Qed.

(** No number is both at least 80 and below 50, NaN included. *)
Lemma ge_80_not_lt_50 c : LLMStats.ge_80 c = true -> LLMStats.lt_50 c = false.
Proof.
  destruct c as [z | f]; cbn [LLMStats.ge_80 LLMStats.lt_50]; intros H80.
  - apply Z.leb_le in H80. apply Z.ltb_ge. lia.
  - rewrite FloatAxioms.leb_spec in H80. rewrite FloatAxioms.ltb_spec.
    set (x := Prim2SF 80%float) in *. vm_compute in x. subst x.
    set (y := Prim2SF 50%float) in *. vm_compute in y. subst y.
    unfold SFleb, SFltb, SFcompare in *.
    destruct (Prim2SF f) as [s | s | | s m e]; try discriminate.
    + destruct s; [discriminate | reflexivity].
    + destruct s; [discriminate |].
      destruct (Z.compare_spec (-46) e) as [He | He | He];
        destruct (Z.compare_spec e (-47)) as [Hf | Hf | Hf];
        try lia; try discriminate; reflexivity.
Qed.

(** The two ways [get_summary_stats] of the contextual file ends. *)
Lemma llm_stats_shapes (results : list LLM.Result) :
  let confiancas := nao_nulas (List.map LLM.confianca_analise results) in
  (exists e,
      LLMStats.get_summary_stats results = inl e /\
      ((e = TypeError /\
        forallb confianca_numeric
                (List.map LLM.confianca_analise results) = false)
       \/ e = OverflowError))
  \/ (exists media cs,
         map_exc LLMStats.as_num confiancas = inr cs /\
         LLMStats.get_summary_stats results =
         inr {| LLMStats.total_processados := List.length results;
                LLMStats.total_absolvidos :=
                  count_if (fun r => LLMStats.is_True (LLM.foi_absolvido r))
                           results;
                LLMStats.total_nao_absolvidos :=
                  count_if (fun r => LLMStats.is_False (LLM.foi_absolvido r))
                           results;
                LLMStats.total_sem_dados :=
                  count_if (fun r => LLMStats.is_None (LLM.foi_absolvido r))
                           results;
                LLMStats.percentual_absolvidos :=
                  percentual
                    (count_if
                       (fun r => LLMStats.is_True (LLM.foi_absolvido r))
                       results) (List.length results);
                LLMStats.percentual_nao_absolvidos :=
                  percentual
                    (count_if
                       (fun r => LLMStats.is_False (LLM.foi_absolvido r))
                       results) (List.length results);
                LLMStats.percentual_sem_dados :=
                  percentual
                    (count_if
                       (fun r => LLMStats.is_None (LLM.foi_absolvido r))
                       results) (List.length results);
                LLMStats.confianca_media_ia := media;
                LLMStats.analises_com_alta_confianca :=
                  count_if LLMStats.ge_80 cs;
                LLMStats.analises_com_baixa_confianca :=
                  count_if LLMStats.lt_50 cs |}).
Proof.
  cbv zeta. unfold LLMStats.get_summary_stats.
  fold (nao_nulas (List.map LLM.confianca_analise results)).
  set (l := List.map LLM.confianca_analise results).
  destruct (forallb confianca_numeric l) eqn:Hn.
  - destruct (proj1 (as_num_numeric l) Hn) as [cs Ecs].
    destruct (match nao_nulas l with
              | [] => ret (PInt 0)
              | _ => total_conf <- LLMStats.py_sum (PInt 0) (nao_nulas l) ;;
                     num_div total_conf (List.length (nao_nulas l))
              end) as [e | media] eqn:Em; cbn [bind].
    + left. exists e. split; [reflexivity |]. right.
      destruct (nao_nulas l) as [| c rest] eqn:En; [discriminate |].
      rewrite <- En in Em.
      destruct (LLMStats.py_sum (PInt 0) (nao_nulas l)) as [e' | t] eqn:Es;
        cbn [bind] in Em.
      * injection Em as <-. exact (py_sum_numeric_error _ _ Hn Es).
      * exact (num_div_error _ _ Em).
    + right. exists media, cs. rewrite Ecs. cbn [bind ret].
      split; reflexivity.
  - left.
    assert (Hno : forall cs, map_exc LLMStats.as_num (nao_nulas l)
                             <> inr cs).
    { intros cs E. assert (Ht : forallb confianca_numeric l = true)
        by (apply as_num_numeric; eauto). congruence. }
    destruct (match nao_nulas l with
              | [] => ret (PInt 0)
              | _ => total_conf <- LLMStats.py_sum (PInt 0) (nao_nulas l) ;;
                     num_div total_conf (List.length (nao_nulas l))
              end) as [e | media] eqn:Em; cbn [bind].
    + exists e. split; [reflexivity |].
      destruct (nao_nulas l) as [| c rest] eqn:En; [discriminate |].
      rewrite <- En in Em.
      destruct (LLMStats.py_sum (PInt 0) (nao_nulas l)) as [e' | t] eqn:Es;
        cbn [bind] in Em.
      * injection Em as <-.
        destruct (py_sum_error _ _ Es) as [-> | ->]; auto.
      * right. exact (num_div_error _ _ Em).
    + destruct (map_exc LLMStats.as_num (nao_nulas l)) as [e | cs] eqn:Ec;
        [| destruct (Hno cs eq_refl)].
      exists e. cbn [bind]. split; [reflexivity |]. left.
      split; [exact (map_as_num_error _ Ec) | reflexivity].
Qed.

(** [get_summary_stats] of the contextual file raises nothing but
    [TypeError] and [OverflowError].  It raises whenever some confidence
    is neither a number, a bool nor [None], and raises [TypeError] only
    then; with numbers only it can still raise [OverflowError], as it does
    on the single confidence 10^400.  When it returns, every confidence is
    a number, a bool or [None], the three outcome counts add up to at
    most the size of the collection (an outcome that is not [True],
    [False] or [None] is in no count) and so do the high and low
    confidence counts, which never share a result. *)
Theorem X17_contextual_stats_failure_and_bounds
        (results : list LLM.Result) :
  let confiancas := List.map LLM.confianca_analise results in
  (forall e, LLMStats.get_summary_stats results = inl e ->
             e = TypeError \/ e = OverflowError) /\
  (forallb confianca_numeric confiancas = false ->
   exists e, LLMStats.get_summary_stats results = inl e) /\
  (LLMStats.get_summary_stats results = inl TypeError ->
   forallb confianca_numeric confiancas = false) /\
  LLMStats.get_summary_stats [Ex.ll JNull (JInt (10 ^ 400))]
  = inl OverflowError /\
  (forall s,
      LLMStats.get_summary_stats results = inr s ->
      forallb confianca_numeric confiancas = true /\
      LLMStats.total_absolvidos s + LLMStats.total_nao_absolvidos s
      + LLMStats.total_sem_dados s <= LLMStats.total_processados s /\
      LLMStats.analises_com_alta_confianca s
      + LLMStats.analises_com_baixa_confianca s
      <= LLMStats.total_processados s).
Proof.
  cbv zeta.
  destruct (llm_stats_shapes results)
    as [(e & E & He) | (media & cs & Ecs & E)]; cbv zeta in *; rewrite E.
  - split; [intros e' Ee; injection Ee as <-;
            destruct He as [[-> _] | ->]; auto |].
    split; [eauto |].
    split; [intros Ee; injection Ee as ->;
            destruct He as [[_ Hn] | He]; [exact Hn | discriminate] |].
    split; [vm_compute; reflexivity | discriminate].
  - split; [discriminate |].
    assert (Hn : forallb confianca_numeric
                         (List.map LLM.confianca_analise results) = true)
      by (apply as_num_numeric; eauto).
    split; [intros Hf; congruence |].
    split; [discriminate |].
    split; [vm_compute; reflexivity |].
    intros s Es. injection Es as <-.
    cbn [LLMStats.total_processados LLMStats.total_absolvidos
         LLMStats.total_nao_absolvidos LLMStats.total_sem_dados
         LLMStats.analises_com_alta_confianca
         LLMStats.analises_com_baixa_confianca].
    split; [exact Hn |]. split.
    + apply count_if_disjoint3.
      * intros r Hr. destruct (LLM.foi_absolvido r) as [| [|] | | | | |];
          try discriminate. split; reflexivity.
      * intros r Hr. destruct (LLM.foi_absolvido r) as [| [|] | | | | |];
          try discriminate. reflexivity.
    + assert (Hlen : List.length cs <= List.length results).
      { rewrite (map_exc_length _ _ Ecs). unfold nao_nulas.
        eapply Nat.le_trans; [apply filter_length_le |].
        rewrite length_map. lia. }
      eapply Nat.le_trans; [| exact Hlen].
      apply count_if_disjoint. exact ge_80_not_lt_50.
Qed.

Lemma X17_witness :
  LLMStats.get_summary_stats
    [Ex.ll (JBool true) (JInt 90); Ex.ll (Ex.str "talvez") (Ex.str "85%")]
  = inl TypeError.
Proof.
  destruct (proj1 (proj2 (X17_contextual_stats_failure_and_bounds
                            [Ex.ll (JBool true) (JInt 90);
                             Ex.ll (Ex.str "talvez") (Ex.str "85%")]))
                  eq_refl) as [e E].
  rewrite E. vm_compute in E. injection E as <-. reflexivity.
Defined.

(* ------------------------------------------------------------------ *)
(** ** Further properties: what the callback is told *)

Section CallbackCalls.
Context `{PyBuiltins}.
Variables R W C : Type.
Variable api_error_result : pystr -> json -> R.
Variable excecao_result : pystr -> exn_text -> R.
Variable classify : W -> json -> pystr -> R * W.
Variable post : nat -> pystr -> http_reply.
Variable cpfs : list pystr.
Variable progress_callback : option (callback R C).

Local Abbreviation turn :=
  (step api_error_result excecao_result classify progress_callback
        (List.length cpfs)).
Local Abbreviation run_from :=
  (loop api_error_result excecao_result classify post cpfs
        progress_callback).
Local Abbreviation num := (fun c : nat * nat * R => fst (fst c)).

Lemma step_calls i cpf0 bdc_data (st : run R W C) :
  calls (turn i cpf0 bdc_data st) = calls st \/
  exists r,
    calls (turn i cpf0 bdc_data st)
    = calls st ++ [(i, List.length cpfs, r)] /\
    In r (results (turn i cpf0 bdc_data st)).
Proof.
  unfold step.
  destruct (unit_result api_error_result classify (world st)
                        bdc_data cpf0) as [e | [r w']];
    [left; reflexivity |].
  destruct progress_callback as [cb |]; [| left; reflexivity].
  right. exists r.
  destruct (cb (cb_state st) i (List.length cpfs) r) as [s' [exc |]];
    simpl; (split; [reflexivity |]).
  - rewrite <- app_assoc. apply in_or_app. right. left. reflexivity.
  - apply in_or_app. right. left. reflexivity.
Qed.

Lemma loop_calls order : forall i (st : run R W C),
  exists new,
    calls (run_from order i st) = calls st ++ new /\
    StronglySorted lt (List.map num new) /\
    (forall c, In c new ->
               i <= num c < i + List.length order /\
               snd (fst c) = List.length cpfs /\
               In (snd c) (results (run_from order i st))).
Proof.
  induction order as [| k rest IH]; intros i st; cbn [loop List.length].
  - exists []. rewrite app_nil_r.
    split; [reflexivity |]. split; [constructor | intros c []].
  - match goal with
    | |- context [loop _ _ _ _ _ _ rest (S i) ?st1] =>
        destruct (IH (S i) st1) as (new & E & Hs & Hc);
        destruct (step_calls i (nth k cpfs [])
                    (fst (fetch_single_cpf_data (post k) (nth k cpfs [])))
                    st) as [E1 | (r & E1 & Hr)]
    end; rewrite E, E1.
    + exists new. split; [reflexivity |]. split; [exact Hs |].
      intros c Hin. destruct (Hc c Hin) as (Hn & Ht & Hres).
      split; [lia | split; assumption].
    + exists ((i, List.length cpfs, r) :: new).
      rewrite <- app_assoc. split; [reflexivity |]. split.
      * cbn [List.map]. constructor; [exact Hs |].
        apply Forall_forall. intros n Hn.
        apply in_map_iff in Hn as (c & <- & Hin).
        destruct (Hc c Hin) as (Hb & _). cbn [fst]. lia.
      * intros c [<- | Hin].
        -- cbn [fst snd]. split; [lia |]. split; [reflexivity |].
           apply loop_keeps. exact Hr.
        -- destruct (Hc c Hin) as (Hn & Ht & Hres).
           split; [lia | split; assumption].
Qed.
End CallbackCalls.

Section CallbackContract.
Context `{PyBuiltins}.

(** Whatever the provider answers and whether or not the callback
    raises, in both batches the completed counts handed to the callback
    strictly increase and lie between 1 and the batch size, the total
    handed to it is the batch size, and the result handed to it is in the
    output. *)
Theorem X18_callback_arguments
        (C : Type) llm post order (cpfs : list pystr)
        (cb : option (callback Result C))
        (cb_llm : option (callback LLM.Result C)) s0 log :
  schedule (List.length cpfs) order ->
  let kw := process_batch post order cpfs cb s0 tt in
  let ll := process_batch_llm llm post order cpfs cb_llm s0 log in
  StronglySorted lt (List.map (fun c => fst (fst c)) (calls kw)) /\
  (forall c, In c (calls kw) ->
             1 <= fst (fst c) <= List.length cpfs /\
             snd (fst c) = List.length cpfs /\
             In (snd c) (results kw)) /\
  StronglySorted lt (List.map (fun c => fst (fst c)) (calls ll)) /\
  (forall c, In c (calls ll) ->
             1 <= fst (fst c) <= List.length cpfs /\
             snd (fst c) = List.length cpfs /\
             In (snd c) (results ll)).
Proof.
  intros Hs kw ll.
  assert (Hlen : List.length order = List.length cpfs)
    by (rewrite (Permutation_length Hs); apply length_seq).
  unfold kw, ll, process_batch, process_batch_llm, process_batch_with.
  match goal with
  | |- context [loop ?a ?e ?c post cpfs cb order 1 ?st] =>
      destruct (@loop_calls _ _ _ _ a e c post cpfs cb order 1 st)
        as (new & E & Hsort & Hc);
      cbn [calls app] in E; rewrite E; clear E
  end.
  match goal with
  | |- context [loop ?a ?e ?c post cpfs cb_llm order 1 ?st] =>
      destruct (@loop_calls _ _ _ _ a e c post cpfs cb_llm order 1 st)
        as (new' & E & Hsort' & Hc');
      cbn [calls app] in E; rewrite E; clear E
  end.
  split; [exact Hsort |]. split.
  - intros c Hin. destruct (Hc c Hin) as (Hn & Ht & Hres).
    split; [lia | split; assumption].
  - split; [exact Hsort' |].
    intros c Hin. destruct (Hc' c Hin) as (Hn & Ht & Hres).
    split; [lia | split; assumption].
Qed.
End CallbackContract.

Lemma X18_witness :
  schedule 2 [1; 0] /\
  StronglySorted lt
    (List.map (fun c => fst (fst c))
              (calls (process_batch (H := latin1) Ex.nulo_primeiro [1; 0]
                                    [Ex.cpf_ok; Ex.cpf_ok] (Some Ex.falha)
                                    0 tt))).
Proof.
  assert (Hs : schedule (List.length [Ex.cpf_ok; Ex.cpf_ok]) [1; 0])
    by apply perm_swap.
  split; [exact Hs |].
  exact (proj1 (@X18_callback_arguments
                  latin1 nat (Ex.ia (LLM.CallFails (u "timeout")))
                  Ex.nulo_primeiro [1; 0] [Ex.cpf_ok; Ex.cpf_ok]
                  (Some Ex.falha) None 0 [] Hs)).
Defined.

(* ------------------------------------------------------------------ *)
(** ** Further properties: the upload *)

Lemma lstrip_idem (s : pystr) : lstrip (lstrip s) = lstrip s.
Proof.
  induction s as [| c s IH]; [reflexivity |].
  simpl. destruct (is_space c) eqn:Ec; [exact IH |].
  simpl. rewrite Ec. reflexivity.
Qed.

Lemma lstrip_head (s : pystr) :
  lstrip s = [] \/
  exists c t, lstrip s = c :: t /\ is_space c = false.
Proof.
  induction s as [| c s IH]; [left; reflexivity |].
  simpl. destruct (is_space c) eqn:Ec; [exact IH |].
  right. exists c, s. auto.
Qed.

Lemma lstrip_snoc c (x : pystr) :
  is_space c = false -> exists y, lstrip (x ++ [c]) = y ++ [c].
Proof.
  intros Hc. induction x as [| d x IH]; simpl.
  - rewrite Hc. exists []. reflexivity.
  - destruct (is_space d); [exact IH |].
    exists (d :: x). reflexivity.
Qed.

(** [strip] of a stripped string changes nothing. *)
Lemma py_strip_idem (s : pystr) : py_strip (py_strip s) = py_strip s.
Proof.
  unfold py_strip.
  destruct (lstrip_head s) as [E | (c & t & E & Hc)]; rewrite E.
  - reflexivity.
  - change (rev (c :: t)) with (rev t ++ [c]).
    destruct (@lstrip_snoc c (rev t) Hc) as [y Ey]. rewrite Ey.
    rewrite rev_app_distr. change (rev [c] ++ rev y) with (c :: rev y).
    assert (El : lstrip (c :: rev y) = c :: rev y)
      by (simpl; rewrite Hc; reflexivity).
    rewrite El. change (rev (c :: rev y)) with (rev (rev y) ++ [c]).
    rewrite rev_involutive, <- Ey, lstrip_idem, Ey, rev_app_distr.
    reflexivity.
Qed.

Lemma lstrip_incl c (s : pystr) : In c (lstrip s) -> In c s.
Proof.
  induction s as [| d s IH]; [intros [] |].
  simpl. destruct (is_space d); [right; apply IH; assumption | auto].
Qed.

Lemma py_strip_incl c (s : pystr) : In c (py_strip s) -> In c s.
Proof.
  unfold py_strip. intros Hin.
  apply in_rev in Hin. apply lstrip_incl in Hin.
  apply in_rev in Hin. apply lstrip_incl in Hin. exact Hin.
Qed.

Lemma split_nl_no_newline (content : pystr) :
  forall line, In line (split_nl content) -> ~ In 10%N line.
Proof.
  induction content as [| c rest IH]; intros line Hin.
  - destruct Hin as [<- | []]. intros [].
  - simpl in Hin. destruct (N.eqb_spec c 10) as [-> | Hc].
    + destruct Hin as [<- | Hin]; [intros [] | apply IH; exact Hin].
    + destruct (split_nl rest) as [| l ls] eqn:El.
      * destruct Hin as [<- | []]. intros [E | []]. contradiction.
      * destruct Hin as [<- | Hin].
        -- intros [E | Hl]; [contradiction |].
           apply (IH l (or_introl eq_refl)). exact Hl.
        -- apply IH. right. exact Hin.
Qed.

Lemma sem_pontuacao_le (cpf : pystr) :
  List.length (sem_pontuacao cpf) <= List.length cpf.
Proof.
  unfold sem_pontuacao.
  eapply Nat.le_trans; apply filter_length_le.
Qed.

Lemma lstrip_length (s : pystr) :
  List.length (lstrip s) <= List.length s.
Proof.
  induction s as [| c s IH]; [apply Nat.le_refl |].
  simpl. destruct (is_space c); simpl; lia.
Qed.

Lemma py_strip_length (s : pystr) :
  List.length (py_strip s) <= List.length s.
Proof.
  unfold py_strip. rewrite length_rev.
  eapply Nat.le_trans; [apply lstrip_length |].
  rewrite length_rev. apply lstrip_length.
Qed.

Lemma lstrip_suffix (s : pystr) : exists p, s = p ++ lstrip s.
Proof.
  induction s as [| c s [p IH]]; [exists []; reflexivity |].
  simpl. destruct (is_space c).
  - exists (c :: p). simpl. rewrite <- IH. reflexivity.
  - exists []. reflexivity.
Qed.

(** A string that [strip] leaves alone starts with no whitespace... *)
Lemma stripped_first c (t : pystr) :
  py_strip (c :: t) = c :: t -> is_space c = false.
Proof.
  destruct (is_space c) eqn:E; [| reflexivity]. intros Hs. exfalso.
  unfold py_strip in Hs. simpl lstrip in Hs. rewrite E in Hs.
  fold (py_strip t) in Hs. apply (f_equal (@List.length N)) in Hs.
  pose proof (py_strip_length t). simpl in Hs. lia.
Qed.

(** ... and ends with none. *)
Lemma stripped_last c (t : pystr) :
  py_strip (t ++ [c]) = t ++ [c] -> is_space c = false.
Proof.
  destruct (is_space c) eqn:E; [| reflexivity]. intros Hs. exfalso.
  unfold py_strip in Hs.
  destruct (lstrip_suffix (t ++ [c])) as [p Hp].
  pose proof (lstrip_length (t ++ [c])) as Hlen.
  apply (f_equal (@rev N)) in Hp. rewrite !rev_app_distr in Hp.
  rewrite <- (length_rev (lstrip (t ++ [c]))) in Hlen.
  destruct (rev (lstrip (t ++ [c]))) as [| d r].
  - simpl in Hs. destruct t; discriminate Hs.
  - simpl in Hp. injection Hp as <- _.
    simpl lstrip in Hs. rewrite E in Hs.
    apply (f_equal (@List.length N)) in Hs.
    rewrite length_rev in Hs. pose proof (lstrip_length r).
    rewrite length_app in Hs, Hlen. simpl in Hs, Hlen. lia.
Qed.

(** Every identifier a TXT upload leaves in the list is a line of the
    file with its surrounding whitespace removed: it is not empty, it
    neither starts nor ends with whitespace (so the carriage return of a
    Windows line ending is gone), it holds no newline, and it has at
    least 11 characters. *)
Theorem X19_txt_upload_gives_stripped_lines (content cpf : pystr) :
  In cpf (carregar_txt content) ->
  cpf <> [] /\
  py_strip cpf = cpf /\
  (forall c t, cpf = c :: t -> is_space c = false) /\
  (forall c t, cpf = t ++ [c] -> is_space c = false) /\
  is_space 13%N = true /\
  ~ In 10%N cpf /\
  11 <= List.length cpf /\
  exists line, In line (split_nl content) /\ cpf = py_strip line.
Proof.
  unfold carregar_txt, limpar_cpfs, cpfs_from_txt. intros Hin.
  apply filter_In in Hin as [Hin Hlen].
  apply in_map_iff in Hin as (line & <- & Hline).
  apply filter_In in Hline as [Hline Hnb].
  apply Nat.leb_le in Hlen.
  pose proof (sem_pontuacao_le (py_strip line)) as Hle.
  pose proof (py_strip_idem line) as Hid.
  split; [intros E; rewrite E in Hnb; discriminate |].
  split; [exact Hid |].
  split; [intros c t E; rewrite E in Hid; exact (@stripped_first c t Hid) |].
  split; [intros c t E; rewrite E in Hid; exact (@stripped_last c t Hid) |].
  split; [reflexivity |].
  split.
  - intros Hnl. apply py_strip_incl in Hnl.
    exact (split_nl_no_newline content line Hline Hnl).
  - split; [lia |]. exists line. auto.
Qed.

Section UploadFilter.
Context `{PyBuiltins}.

Lemma digits_le_sem_pontuacao (cpf : pystr) :
  is_decimal 46%N = false ->
  is_decimal 45%N = false ->
  List.length (List.filter is_decimal cpf)
  <= List.length (sem_pontuacao cpf).
Proof.
  intros Hdot Hdash. unfold sem_pontuacao.
  induction cpf as [| c cpf IH]; [simpl; lia |].
  simpl. destruct (is_decimal c) eqn:Ed.
  - destruct (N.eqb_spec c 46) as [-> | _]; [congruence |].
    simpl. destruct (N.eqb_spec c 45) as [-> | _]; [congruence |].
    simpl. lia.
  - destruct (N.eqb_spec c 46) as [_ | _]; simpl; [exact IH |].
    destruct (N.eqb_spec c 45) as [_ | _]; simpl; lia.
Qed.

(** The cleaning of the upload never costs a query: an identifier with
    exactly 11 digits is kept, and an identifier it removes would have
    been rejected by [fetch_single_cpf_data] without a request (given
    that "." and "-" are not digits). *)
Theorem X20_upload_filter_keeps_valid_identifiers
        (cpfs_to_analyze : list pystr) (cpf : pystr) :
  is_decimal 46%N = false ->
  is_decimal 45%N = false ->
  In cpf cpfs_to_analyze ->
  (List.length (List.filter is_decimal cpf) = 11 ->
   In cpf (limpar_cpfs cpfs_to_analyze)) /\
  (~ In cpf (limpar_cpfs cpfs_to_analyze) ->
   forall post,
     fetch_single_cpf_data post cpf
     = (error_dict cpf Lit.CPF_invalido, [])).
Proof.
  intros Hdot Hdash Hin.
  pose proof (digits_le_sem_pontuacao cpf Hdot Hdash) as Hle.
  assert (Hkeep : 11 <= List.length (List.filter is_decimal cpf) ->
                  In cpf (limpar_cpfs cpfs_to_analyze)).
  { intros H11. unfold limpar_cpfs. apply filter_In.
    split; [exact Hin |]. apply Nat.leb_le. lia. }
  split.
  - intros E. apply Hkeep. lia.
  - intros Hout post. unfold fetch_single_cpf_data.
    destruct (Nat.eqb_spec (List.length (List.filter is_decimal cpf)) 11)
      as [E | _]; [| reflexivity].
    exfalso. apply Hout, Hkeep. lia.
Qed.
End UploadFilter.

Lemma X19_witness :
  In (u "123.456.789-01")
     (carregar_txt (u "123.456.789-01" ++ [13; 10]%N ++ u "12" ++ [10%N]))
  /\ py_strip (u "123.456.789-01") = u "123.456.789-01".
Proof.
  assert (Hin : In (u "123.456.789-01")
                   (carregar_txt
                      (u "123.456.789-01" ++ [13; 10]%N ++ u "12"
                         ++ [10%N])))
    by (left; reflexivity).
  split; [exact Hin |].
  exact (proj1 (proj2 (X19_txt_upload_gives_stripped_lines _ _ Hin))).
Defined.

Lemma X20_witness :
  is_decimal (PyBuiltins := latin1) 46%N = false /\
  is_decimal (PyBuiltins := latin1) 45%N = false /\
  In Ex.cpf_ok (limpar_cpfs [Ex.cpf_curto; Ex.cpf_ok]).
Proof.
  split; [reflexivity |]. split; [reflexivity |].
  exact (proj1 (@X20_upload_filter_keeps_valid_identifiers
                  latin1 [Ex.cpf_curto; Ex.cpf_ok] Ex.cpf_ok
                  eq_refl eq_refl (or_intror (or_introl eq_refl)))
               eq_refl).
Defined.

(* ------------------------------------------------------------------ *)
(** ** Further properties: the table and the statistics *)

Lemma filter_label_count {A} (label : A -> rotulo) (p : A -> bool)
      (l : list A) (x : rotulo) :
  (forall a, rotulo_eqb (label a) x = p a) ->
  List.length (List.filter (fun row => rotulo_eqb (snd row) x)
                           (List.map (fun a => (a, label a)) l))
  = count_if p l.
Proof.
  intros E. unfold count_if. induction l as [| a l IH]; [reflexivity |].
  simpl. rewrite E. destruct (p a); simpl; rewrite IH; reflexivity.
Qed.

(** The result filter of the table agrees with the statistics shown
    above it.  In the keyword script each filter shows as many rows as
    the matching count of [get_summary_stats].  In the contextual script
    this holds for "absolved" and "not absolved", while "Sem dados" shows
    the results counted as unknown plus those whose outcome is not
    [True], [False] or [None], which no count includes. *)
Theorem X21_table_filter_agrees_with_stats
        (results : list Result) (results_llm : list LLM.Result) :
  let s := get_summary_stats results in
  let rows := table_data results in
  List.length (filtrar Todos rows) = total_processados s /\
  List.length (filtrar Apenas_Absolvidos rows) = total_absolvidos s /\
  List.length (filtrar Apenas_Nao_Absolvidos rows)
  = total_nao_absolvidos s /\
  List.length (filtrar Apenas_Sem_Dados rows) = total_sem_dados s /\
  (forall sl,
      LLMStats.get_summary_stats results_llm = inr sl ->
      let rows_llm := table_data_llm results_llm in
      List.length (filtrar Apenas_Absolvidos rows_llm)
      = LLMStats.total_absolvidos sl /\
      List.length (filtrar Apenas_Nao_Absolvidos rows_llm)
      = LLMStats.total_nao_absolvidos sl /\
      List.length (filtrar Apenas_Sem_Dados rows_llm)
      = LLMStats.total_sem_dados sl
        + count_if (fun r => fora_do_tri_estado (LLM.foi_absolvido r))
                   results_llm).
Proof.
  cbv zeta. unfold table_data, table_data_llm, filtrar, get_summary_stats.
  cbn [total_processados total_absolvidos total_nao_absolvidos
       total_sem_dados].
  split; [apply length_map |].
  split; [apply filter_label_count; intros r;
          destruct (foi_absolvido r) as [[|] |]; reflexivity |].
  split; [apply filter_label_count; intros r;
          destruct (foi_absolvido r) as [[|] |]; reflexivity |].
  split; [apply filter_label_count; intros r;
          destruct (foi_absolvido r) as [[|] |]; reflexivity |].
  intros sl E. unfold LLMStats.get_summary_stats in E.
  inv_bind E. inv_bind E. injection E as <-.
  cbn [LLMStats.total_absolvidos LLMStats.total_nao_absolvidos
       LLMStats.total_sem_dados].
  split; [apply filter_label_count; intros r;
          destruct (LLM.foi_absolvido r) as [| [|] | | | | |];
          reflexivity |].
  split; [apply filter_label_count; intros r;
          destruct (LLM.foi_absolvido r) as [| [|] | | | | |];
          reflexivity |].
  rewrite (filter_label_count
             (fun r => rotulo_llm (LLM.foi_absolvido r))
             (fun r => LLMStats.is_None (LLM.foi_absolvido r)
                       || fora_do_tri_estado (LLM.foi_absolvido r))).
  - unfold count_if. clear. induction results_llm as [| r l IH];
      [reflexivity |].
    simpl. destruct (LLM.foi_absolvido r) as [| [|] | | | | |];
      simpl; lia.
  - intros r. destruct (LLM.foi_absolvido r) as [| [|] | | | | |];
      reflexivity.
Qed.

Lemma X21_witness :
  LLMStats.get_summary_stats
    [Ex.ll (JBool true) (JInt 90); Ex.ll (Ex.str "talvez") (JInt 10)]
  <> inl TypeError /\
  List.length
    (filtrar Apenas_Sem_Dados
       (table_data_llm
          [Ex.ll (JBool true) (JInt 90); Ex.ll (Ex.str "talvez") (JInt 10)]))
  = 0 + 1.
Proof.
  split; [discriminate |].
  destruct (LLMStats.get_summary_stats
              [Ex.ll (JBool true) (JInt 90);
               Ex.ll (Ex.str "talvez") (JInt 10)]) as [e | sl] eqn:E;
    [discriminate E |].
  destruct (proj2 (proj2 (proj2 (proj2
             (X21_table_filter_agrees_with_stats
                []
                [Ex.ll (JBool true) (JInt 90);
                 Ex.ll (Ex.str "talvez") (JInt 10)])))) sl E)
    as (_ & _ & ->).
  injection E as <-. reflexivity.
Defined.
